(** * uc-intg-synology-system: a shallow embedding of the polling/display core

    The development follows the Python package [uc_intg_synology_system]:
    [helpers.py], [config.py], [client.py], [media_player.py],
    [camera_media_player.py], [remote.py] and [driver.py].  Each module
    below embeds the functions of one source file; the theorems come after
    all definitions. *)

From Stdlib Require Import ZArith QArith String Ascii List Lia DecimalString.
From stdpp Require Import gmap strings list.

Set Warnings "-register-all".

Local Open Scope string_scope.
Local Open Scope Z_scope.

(* ===================================================================== *)
(** * Python values *)
(* ===================================================================== *)

Module Py.

(** A Python [str] is a sequence of code points.  It is modelled by a Rocq
    [string] with one [ascii] per code point, which covers U+0000..U+00FF;
    every literal of the package that matters here lies in that range.
    [String.length] is therefore Python's [len]. *)

Definition len (s : string) : Z := Z.of_nat (String.length s).

Fixpoint take (n : nat) (s : string) : string :=
  match n, s with
  | O, _ => ""
  | S _, EmptyString => ""
  | S n', String c s' => String c (take n' s')
  end.

(** [s[:k]]: a negative stop counts from the end and is clamped at 0. *)
Definition slice_to (s : string) (k : Z) : string :=
  if k <? 0 then take (Z.to_nat (len s + k)) s else take (Z.to_nat k) s.

(** [sub in s] *)
Fixpoint contains (sub s : string) : bool :=
  String.prefix sub s ||
  match s with
  | EmptyString => false
  | String _ s' => contains sub s'
  end.

(** [s.startswith(p)] *)
Definition startswith (p s : string) : bool := String.prefix p s.

Definition is_upper (c : ascii) : bool :=
  let n := nat_of_ascii c in (65 <=? n)%nat && (n <=? 90)%nat.
Definition is_lower (c : ascii) : bool :=
  let n := nat_of_ascii c in (97 <=? n)%nat && (n <=? 122)%nat.
Definition is_cased (c : ascii) : bool := is_upper c || is_lower c.

Definition lower_char (c : ascii) : ascii :=
  if is_upper c then ascii_of_nat (nat_of_ascii c + 32) else c.
Definition upper_char (c : ascii) : ascii :=
  if is_lower c then ascii_of_nat (nat_of_ascii c - 32) else c.

(** [s.lower()], exact on ASCII text; other code points are left as they
    are. *)
Fixpoint lower (s : string) : string :=
  match s with
  | EmptyString => ""
  | String c s' => String (lower_char c) (lower s')
  end.

(** [s.title()], exact on ASCII text: a letter that follows a letter is
    lowered, any other letter is raised. *)
Fixpoint title_from (prev_cased : bool) (s : string) : string :=
  match s with
  | EmptyString => ""
  | String c s' =>
      String (if prev_cased then lower_char c else upper_char c)
             (title_from (is_cased c) s')
  end.
Definition title (s : string) : string := title_from false s.

(** [str(n)] for an [int]. *)
Definition str_int (z : Z) : string := NilZero.string_of_int (Z.to_int z).

(** Exceptions.  Every constructor is a subclass of [Exception]; signals
    that derive from [BaseException] only (task cancellation, interpreter
    exit) are not values of this type. *)
Inductive exn :=
| AttributeError
| TypeError
| ValueError
| KeyError
| OtherError (name : string).

(** The dynamically typed values that travel through the package: JSON
    data of the NAS API, status records, command parameters.  A [float] is
    represented by the rational it denotes (no [nan], no infinities, no
    negative zero). *)
Inductive pyval :=
| PNone
| PBool (b : bool)
| PInt (z : Z)
| PFloat (q : Q)
| PStr (s : string)
| PList (l : list pyval)
| PDict (d : gmap string pyval).

(** A [Dict[str, Any]]. *)
Abbreviation record := (gmap string pyval).

(** [bool(v)] *)
Definition truthy (v : pyval) : bool :=
  match v with
  | PNone => false
  | PBool b => b
  | PInt z => negb (z =? 0)
  | PFloat q => negb (Qeq_bool q 0)
  | PStr s => negb (String.eqb s "")
  | PList l => match l with [] => false | _ => true end
  | PDict d => negb (bool_decide (d = ∅))
  end.

(** The number a numeric value denotes ([bool] is a subclass of [int]). *)
Definition num (v : pyval) : option Q :=
  match v with
  | PBool b => Some (if b then 1%Q else 0%Q)
  | PInt z => Some (inject_Z z)
  | PFloat q => Some q
  | _ => None
  end.

(** [a == b] *)
Fixpoint py_eq (a b : pyval) {struct a} : bool :=
  match a, b with
  | PNone, PNone => true
  | PStr s, PStr t => String.eqb s t
  | PList l1, PList l2 =>
      (fix go (l1 l2 : list pyval) : bool :=
         match l1, l2 with
         | [], [] => true
         | x :: l1', y :: l2' => py_eq x y && go l1' l2'
         | _, _ => false
         end) l1 l2
  | PDict d1, PDict d2 =>
      bool_decide (dom d1 = dom d2) &&
      map_fold (fun k v acc =>
                  acc && match d2 !! k with
                         | Some w => py_eq v w
                         | None => false
                         end) true d1
  | _, _ =>
      match num a, num b with
      | Some x, Some y => Qeq_bool x y
      | _, _ => false
      end
  end.

(** [v.title()]: only a [str] has the method. *)
Definition py_title (v : pyval) : exn + string :=
  match v with
  | PStr s => inr (title s)
  | _ => inl AttributeError
  end.

(** [v.lower()] *)
Definition py_lower (v : pyval) : exn + string :=
  match v with
  | PStr s => inr (lower s)
  | _ => inl AttributeError
  end.

(** [v > q] and [v < q] against a number: ordering a non-number against an
    [int] raises [TypeError]. *)
Definition py_gt_num (v : pyval) (q : Q) : exn + bool :=
  match num v with
  | Some x => inr (if Qlt_le_dec q x then true else false)
  | None => inl TypeError
  end.
Definition py_lt_num (v : pyval) (q : Q) : exn + bool :=
  match num v with
  | Some x => inr (if Qlt_le_dec x q then true else false)
  | None => inl TypeError
  end.

(** Rounding to the nearest integer, ties to even. *)
Definition round_half_even (q : Q) : Z :=
  let n := Qnum q in
  let d := Z.pos (Qden q) in
  let f := n / d in
  match 2 * (n mod d) ?= d with
  | Lt => f
  | Gt => f + 1
  | Eq => if Z.even f then f else f + 1
  end.

(** [f"{x:.1f}"] for a float [x]: the decimal expansion of the value,
    correctly rounded to one digit. *)
Definition format_1f (q : Q) : string :=
  let t := Z.abs (round_half_even (q * 10)) in
  (if Qnum q <? 0 then "-" else "") +:+ str_int (t / 10) +:+ "." +:+ str_int (t mod 10).

(** [f"{v:.1f}"] for any value.  An [int] is converted to [float] first,
    which is exact up to 2^53. *)
Definition py_format_1f (v : pyval) : exn + string :=
  match v with
  | PStr _ => inl ValueError
  | _ => match num v with
         | Some q => inr (format_1f q)
         | None => inl TypeError
         end
  end.

(** [d.get(k, default)] on a [Dict[str, Any]]. *)
Definition get (d : record) (k : string) (dflt : pyval) : pyval :=
  default dflt (d !! k).

(** [d.get(k)] where [d] has [str] keys and [k] is any value: an
    unhashable key raises [TypeError], a hashable key that is not a [str]
    is never found. *)
Definition get_any {V} (d : gmap string V) (k : pyval) : exn + option V :=
  match k with
  | PStr s => inr (d !! s)
  | PList _ | PDict _ => inl TypeError
  | _ => inr None
  end.

Section Str.
(** [str()] of a [float], a [list] or a [dict] is not modelled: it is a
    parameter of the development. *)
Variable str_other : pyval -> string.

(** [str(v)], the conversion an f-string applies to [{v}]. *)
Definition py_str (v : pyval) : string :=
  match v with
  | PNone => "None"
  | PBool b => if b then "True" else "False"
  | PInt z => str_int z
  | PStr s => s
  | _ => str_other v
  end.
End Str.

(** ** A state-and-exception monad

    A method of a stateful object is a function from the state to an
    outcome and the state it leaves behind; mutations made before an
    exception is raised persist. *)

Definition M (S A : Type) : Type := S -> (exn + A) * S.

Definition ret {S A} (a : A) : M S A := fun s => (inr a, s).
Definition raise {S A} (e : exn) : M S A := fun s => (inl e, s).
Definition bind {S A B} (m : M S A) (k : A -> M S B) : M S B :=
  fun s => match m s with
           | (inl e, s') => (inl e, s')
           | (inr a, s') => k a s'
           end.
Definition modify {S} (f : S -> S) : M S unit := fun s => (inr tt, f s).
Definition gets {S A} (f : S -> A) : M S A := fun s => (inr (f s), s).
Definition lift {S A} (r : exn + A) : M S A := fun s => (r, s).

(** [try: body except Exception as ex: handler(ex)] *)
Definition try_except {S A} (body : M S A) (handler : exn -> M S A) : M S A :=
  fun s => match body s with
           | (inl e, s') => handler e s'
           | (inr a, s') => (inr a, s')
           end.

(** [try: body except SomeError: handler]: the handler runs only for the
    exceptions that [caught] selects, the others propagate. *)
Definition try_except_if {S A} (caught : exn -> bool) (body : M S A)
    (handler : M S A) : M S A :=
  fun s => match body s with
           | (inl e, s') => if caught e then handler s' else (inl e, s')
           | (inr a, s') => (inr a, s')
           end.

Definition is_AttributeError (e : exn) : bool :=
  match e with AttributeError => true | _ => false end.

End Py.

Import Py.

Notation "'let*' x ':=' m 'in' k" := (Py.bind m (fun x => k))
  (at level 10, x name, m at level 100, k at level 200).
Notation "m ';;' k" := (Py.bind m (fun _ => k))
  (at level 100, k at level 200, right associativity).

(* ===================================================================== *)
(** * helpers.py *)
(* ===================================================================== *)

Module Helpers.

(** The degree sign of [format_temperature] as the source file has it: the
    two code points U+00C2 U+00B0. *)
Definition degree_literal : string := String "194"%char (String "176"%char "").

Module SynologyConstants.
Definition DEFAULT_POLLING : gmap string Z :=
  <["system_status" := 10]> (
  <["storage_info" := 30]> (
  <["service_status" := 15]> (
  <["network_stats" := 20]> (
  <["security_status" := 60]> (
  <["hardware_monitor" := 15]> (
  <["drive_health" := 45]> (
  <["power_management" := 30]> (
  <["cache_performance" := 20]> (
  <["package_manager" := 60]> (
  <["user_sessions" := 30]> ∅)))))))))).
End SynologyConstants.

Definition celsius_to_fahrenheit (celsius : Q) : Q :=
  (celsius * 9 / 5 + 32)%Q.

(** The arithmetic of the Fahrenheit branch is carried out on rationals. *)
Definition format_temperature (temp_celsius : pyval) (unit : string) : exn + string :=
  if String.eqb (lower unit) "fahrenheit" then
    match num temp_celsius with
    | Some c => inr (format_1f (celsius_to_fahrenheit c) +:+ degree_literal +:+ "F")
    | None => inl TypeError
    end
  else
    match py_format_1f temp_celsius with
    | inr s => inr (s +:+ degree_literal +:+ "C")
    | inl e => inl e
    end.

(** [safe_get_nested_value(data, keys, default)] *)
Fixpoint safe_get_nested_value (data : pyval) (keys : list string) (dflt : pyval) : pyval :=
  match keys with
  | [] => data
  | key :: keys' =>
      match data with
      | PDict d =>
          match d !! key with
          | Some v => safe_get_nested_value v keys' dflt
          | None => dflt
          end
      | _ => dflt
      end
  end.

Definition truncate_line (line : string) (max_length : Z) : string :=
  if len line >? max_length then slice_to line (max_length - 3) +:+ "..." else line.

Definition create_two_line_display (line1 line2 : string) (max_length : Z) : string * string :=
  (truncate_line line1 max_length, truncate_line line2 max_length).

(** [sep.join(parts)] *)
Fixpoint join (sep : string) (parts : list string) : string :=
  match parts with
  | [] => ""
  | [p] => p
  | p :: rest => p +:+ sep +:+ join sep rest
  end.

(** [format_bytes]: the size is scaled by 1024 while it is at least 1024
    and a larger unit is left.  [float(bytes_value)] and the divisions
    by 1024 are exact up to 2^53 bytes. *)
Fixpoint scale_bytes (size : Q) (unit : string) (larger : list string) : Q * string :=
  match larger with
  | [] => (size, unit)
  | next :: rest =>
      if Qle_bool 1024 size then scale_bytes (size / 1024) next rest
      else (size, unit)
  end.

Definition format_bytes (bytes_value : Z) : string :=
  if bytes_value =? 0 then "0 B"
  else
    let scaled := scale_bytes (inject_Z bytes_value) "B" ["KB"; "MB"; "GB"; "TB"] in
    format_1f scaled.1 +:+ " " +:+ scaled.2.

Definition format_uptime (total_seconds : Z) : string :=
  if total_seconds =? 0 then "0 seconds"
  else
    let days := total_seconds / 86400 in
    let hours := (total_seconds mod 86400) / 3600 in
    let minutes := (total_seconds mod 3600) / 60 in
    let parts :=
      ((if 0 <? days then [str_int days +:+ "d"] else [])
       ++ (if 0 <? hours then [str_int hours +:+ "h"] else [])
       ++ (if 0 <? minutes then [str_int minutes +:+ "m"] else []))%list in
    match parts with
    | [] => "< 1m"
    | _ => join " " parts
    end.

(** [a or b] on comparisons that may raise: [b] is evaluated only when
    [a] is false. *)
Definition py_or (a b : exn + bool) : exn + bool :=
  match a with
  | inl e => inl e
  | inr true => inr true
  | inr false => b
  end.

Definition determine_system_health_status (system_data : record) : string :=
  let cpu_usage := get system_data "cpu_usage" (PInt 0) in
  let memory_usage := get system_data "memory_usage" (PInt 0) in
  let temperature := get system_data "system_temp" (PInt 0) in
  match py_or (py_gt_num cpu_usage 90)
          (py_or (py_gt_num memory_usage 95) (py_gt_num temperature 80)) with
  | inl _ => "unknown"
  | inr true => "critical"
  | inr false =>
      match py_or (py_gt_num cpu_usage 70)
              (py_or (py_gt_num memory_usage 85) (py_gt_num temperature 70)) with
      | inl _ => "unknown"
      | inr true => "warning"
      | inr false => "healthy"
      end
  end.

(** The [status] of [format_drive_temperature]. *)
Definition drive_temperature_status (temp : Z) (is_ssd : bool) : string :=
  if is_ssd then
    if temp <? 50 then "Cool"
    else if temp <? 70 then "Normal"
    else if temp <? 85 then "Warm"
    else "Hot"
  else
    if temp <? 40 then "Cool"
    else if temp <? 50 then "Normal"
    else if temp <? 60 then "Warm"
    else "Hot".

Definition format_drive_temperature (temp : Z) (is_ssd : bool) : string :=
  if temp =? 0 then "N/A"
  else str_int temp +:+ degree_literal +:+ "C (" +:+ drive_temperature_status temp is_ssd +:+ ")".

Definition parse_ups_runtime (runtime_minutes : Z) : string :=
  if runtime_minutes =? 0 then "No backup"
  else
    let hours := runtime_minutes / 60 in
    let minutes := runtime_minutes mod 60 in
    if 0 <? hours then str_int hours +:+ "h " +:+ str_int minutes +:+ "m"
    else str_int minutes +:+ "m".

End Helpers.

(* ===================================================================== *)
(** * config.py *)
(* ===================================================================== *)

Module Config.

(** An insertion-ordered [Dict[str, str]]: the source registry. *)
Definition odict := list (string * string).

(** [d[k] = v]: an existing key keeps its position, a new key goes last. *)
Fixpoint setitem (d : odict) (k v : string) : odict :=
  match d with
  | [] => [(k, v)]
  | (k', v') :: d' =>
      if String.eqb k' k then (k, v) :: d' else (k', v') :: setitem d' k v
  end.

(** [d.update({k1: v1, ...})] *)
Definition update (d : odict) (entries : list (string * string)) : odict :=
  fold_left (fun d kv => setitem d kv.1 kv.2) entries d.

(** [d.get(k)] *)
Fixpoint getitem (d : odict) (k : string) : option string :=
  match d with
  | [] => None
  | (k', v') :: d' => if String.eqb k' k then Some v' else getitem d' k
  end.

Definition keys (d : odict) : list string := d.*1.
Definition values (d : odict) : list string := d.*2.

(** The entries of [_config_data["synology_config"]] that the core reads;
    [None] is an absent entry. *)
Record SynologyConfig := {
  temperature_unit_entry : option string;
  polling_intervals_entry : option (gmap string Z);
  enabled_features_entry : option (gmap string bool);
  available_packages_entry : option record;
}.

Definition temperature_unit (self : SynologyConfig) : string :=
  default "celsius" (temperature_unit_entry self).

Definition polling_intervals (self : SynologyConfig) : gmap string Z :=
  default Helpers.SynologyConstants.DEFAULT_POLLING (polling_intervals_entry self).

Definition enabled_features (self : SynologyConfig) : gmap string bool :=
  default ∅ (enabled_features_entry self).

Definition available_packages (self : SynologyConfig) : record :=
  default ∅ (available_packages_entry self).

(** [enabled_features.get(name, True)] *)
Definition feature (enabled_features : gmap string bool) (name : string) : bool :=
  default true (enabled_features !! name).

(** [name in available_packages] *)
Definition has_package (available_packages : record) (name : string) : bool :=
  match available_packages !! name with
  | Some _ => true
  | None => false
  end.

Definition enhanced_sources : list (string * string) :=
  [ ("THERMAL_STATUS", "Temperature Monitor");
    ("CACHE_STATUS", "SSD Cache");
    ("RAID_STATUS", "RAID Health");
    ("VOLUME_STATUS", "Volume Usage");
    ("UPS_STATUS", "UPS Monitor");
    ("HARDWARE_MONITOR", "Hardware Monitor");
    ("DRIVE_HEALTH", "Drive Health");
    ("POWER_MANAGEMENT", "Power Management");
    ("CACHE_PERFORMANCE", "Cache Performance");
    ("PACKAGE_MANAGER", "Package Manager");
    ("USER_SESSIONS", "User Sessions") ].

Definition get_enabled_sources (self : SynologyConfig) : odict :=
  let sources := [ ("SYSTEM_OVERVIEW", "System Overview");
                   ("STORAGE_STATUS", "Storage Status") ] in
  let enabled_features := enabled_features self in
  let available_packages := available_packages self in
  let sources :=
    if feature enabled_features "network_monitoring"
    then setitem sources "NETWORK_STATS" "Network Statistics" else sources in
  let sources :=
    if feature enabled_features "security_monitoring"
    then setitem sources "SECURITY_STATUS" "Security Status" else sources in
  let sources := setitem sources "SERVICES_STATUS" "Services Status" in
  let sources :=
    if feature enabled_features "enhanced_monitoring"
    then update sources enhanced_sources else sources in
  let sources :=
    if feature enabled_features "surveillance_monitoring"
       && has_package available_packages "SurveillanceStation"
    then setitem sources "SURVEILLANCE_STATUS" "Surveillance Station" else sources in
  let sources :=
    if feature enabled_features "docker_monitoring"
       && has_package available_packages "Docker"
    then setitem sources "DOCKER_STATUS" "Docker Containers" else sources in
  let sources :=
    if feature enabled_features "surveillance_monitoring"
       && has_package available_packages "SurveillanceStation"
    then setitem sources "SURVEILLANCE_STATUS" "Surveillance Station" else sources in
  sources.

(** [update_available_packages]: what it leaves in the configuration; the
    file it then writes is not modelled. *)
Definition update_available_packages (packages : record) (self : SynologyConfig)
  : SynologyConfig :=
  let enabled_features := default ∅ (enabled_features_entry self) in
  let enabled_features :=
    if has_package packages "Docker"
    then <["docker_monitoring" := true]> enabled_features else enabled_features in
  let enabled_features :=
    if has_package packages "SurveillanceStation"
    then <["surveillance_monitoring" := true]> enabled_features else enabled_features in
  {| temperature_unit_entry := temperature_unit_entry self;
     polling_intervals_entry := polling_intervals_entry self;
     enabled_features_entry := Some enabled_features;
     available_packages_entry := Some packages |}.


End Config.

(* ===================================================================== *)
(** * client.py *)
(* ===================================================================== *)

Module Client.

(** The attributes of a [SynologySystemClient] instance: what [__init__]
    assigns and what the class defines. *)
Definition instance_attributes : list string :=
  [ "_host"; "_port"; "_username"; "_password"; "_secure"; "_dsm_version";
    "_otp_code"; "_temperature_unit"; "_sys_info"; "_docker"; "_surveillance";
    "_connected"; "_last_error"; "_available_packages"; "_session_id";
    "_session_timestamp"; "_initial_connection_made" ].

Definition class_attributes : list string :=
  [ "__init__"; "connect"; "_detect_available_packages"; "connected";
    "available_packages"; "disconnect"; "get_system_overview";
    "get_storage_status"; "get_network_stats"; "get_services_status";
    "get_security_status"; "get_docker_status"; "get_surveillance_status";
    "get_thermal_status"; "get_cache_status"; "get_raid_status";
    "get_volume_status"; "get_ups_status"; "get_hardware_monitor";
    "get_drive_health"; "get_power_management"; "get_cache_performance";
    "get_package_manager"; "get_user_sessions" ].

(** [hasattr(client, name)] for a name that [object] does not define. *)
Definition hasattr (name : string) : bool :=
  bool_decide (name ∈ (instance_attributes ++ class_attributes)%list).

(** [key in v] for a [str] key. *)
Definition py_in (key : string) (v : pyval) : exn + bool :=
  match v with
  | PDict d => inr (match d !! key with Some _ => true | None => false end)
  | PStr s => inr (contains key s)
  | PList l => inr (existsb (py_eq (PStr key)) l)
  | _ => inl TypeError
  end.

(** [v[key]] for a [str] key. *)
Definition py_getitem (v : pyval) (key : string) : exn + pyval :=
  match v with
  | PDict d => match d !! key with Some x => inr x | None => inl KeyError end
  | _ => inl TypeError
  end.

Section GetThermalStatus.

Variable _connected : bool.
Variable _temperature_unit : string.
(** The outcome of [self._sys_info.get_system_info()]. *)
Variable get_system_info : exn + pyval.

(** The inner [try] that reads the fan mode; [None] when it raises. *)
Definition read_fan_mode (info_raw : pyval) : option pyval :=
  let system_data := Helpers.safe_get_nested_value info_raw ["data"] (PDict ∅) in
  match py_in "fan_status" system_data with
  | inl _ => None
  | inr true =>
      match py_getitem system_data "fan_status" with
      | inr v => Some v
      | inl _ => None
      end
  | inr false =>
      match py_in "cooling_mode" system_data with
      | inl _ => None
      | inr true =>
          match py_getitem system_data "cooling_mode" with
          | inr v => Some v
          | inl _ => None
          end
      | inr false => Some (PStr "full_speed")
      end
  end.

Definition thermal_level (temp_c : pyval) : exn + string :=
  if py_eq temp_c (PInt 0) then inr "unavailable"
  else match py_lt_num temp_c 60 with
  | inl e => inl e
  | inr true => inr "optimal"
  | inr false =>
  match py_lt_num temp_c 70 with
  | inl e => inl e
  | inr true => inr "normal"
  | inr false =>
  match py_lt_num temp_c 80 with
  | inl e => inl e
  | inr true => inr "warm"
  | inr false =>
  match py_lt_num temp_c 90 with
  | inl e => inl e
  | inr true => inr "hot"
  | inr false => inr "critical"
  end end end end.

Definition thermal_error_record : record :=
  <["status" := PStr "error"]> (
  <["system_temp" := PInt 0]> (
  <["cpu_temp" := PInt 0]> (
  <["temperature_formatted" := PStr "Error"]> ∅))).

Definition get_thermal_status : record :=
  if negb _connected then
    <["status" := PStr "unavailable"]> (
    <["system_temp" := PInt 0]> (
    <["cpu_temp" := PInt 0]> (
    <["temperature_formatted" := PStr "N/A"]> ∅)))
  else
    match get_system_info with
    | inl _ => thermal_error_record
    | inr info_raw =>
        let temp_c := Helpers.safe_get_nested_value info_raw ["data"; "sys_temp"] (PInt 0) in
        let fan_mode := default (PStr "full_speed") (read_fan_mode info_raw) in
        match thermal_level temp_c with
        | inl _ => thermal_error_record
        | inr status =>
            match Helpers.format_temperature temp_c _temperature_unit with
            | inl _ => thermal_error_record
            | inr temperature_formatted =>
                <["status" := PStr status]> (
                <["system_temp" := temp_c]> (
                <["cpu_temp" := temp_c]> (
                <["temperature_formatted" := PStr temperature_formatted]> (
                <["fan_mode" := fan_mode]> (
                <["warning_threshold" := PInt 80]> (
                <["critical_threshold" := PInt 90]> ∅))))))
            end
        end
    end.

End GetThermalStatus.

Section GetSystemOverview.

Variable _connected : bool.
Variable _temperature_unit : string.
(** The outcomes of [self._sys_info.get_system_info()] and of
    [self._sys_info.get_all_system_utilization()]. *)
Variable get_system_info : exn + pyval.
Variable get_all_system_utilization : exn + pyval.
(** The built-in [float()] and the module's [parse_uptime_string], which
    are not modelled: any result, any exception. *)
Variable py_float : pyval -> exn + pyval.
Variable parse_uptime_string : pyval -> exn + Z.

(** [get_system_overview]; every exception inside gives the empty
    record. *)
Definition get_system_overview : record :=
  if negb _connected then ∅
  else
    match get_system_info, get_all_system_utilization with
    | inr info_raw, inr util_raw =>
        let cpu_load := Helpers.safe_get_nested_value util_raw ["cpu"; "user_load"] (PInt 0) in
        let mem_usage := Helpers.safe_get_nested_value util_raw ["memory"; "real_usage"] (PInt 0) in
        let temp_c := Helpers.safe_get_nested_value info_raw ["data"; "sys_temp"] (PInt 0) in
        let uptime_str := Helpers.safe_get_nested_value info_raw ["data"; "up_time"] (PStr "0:0:0") in
        match py_float cpu_load, py_float mem_usage,
              Helpers.format_temperature temp_c _temperature_unit,
              parse_uptime_string uptime_str with
        | inr cpu_usage, inr memory_usage, inr temperature, inr uptime =>
            <["model" := Helpers.safe_get_nested_value info_raw ["data"; "model"] (PStr "N/A")]> (
            <["version" := Helpers.safe_get_nested_value info_raw ["data"; "firmware_ver"] (PStr "N/A")]> (
            <["status" := PStr "healthy"]> (
            <["cpu_usage" := cpu_usage]> (
            <["memory_usage" := memory_usage]> (
            <["temperature" := PStr temperature]> (
            <["uptime" := PStr (Helpers.format_uptime uptime)]> ∅))))))
        | _, _, _, _ => ∅
        end
    | _, _ => ∅
    end.

End GetSystemOverview.

End Client.

(* ===================================================================== *)
(** * The host SDK and the scheduler, as the package uses them *)
(* ===================================================================== *)

Module Ucapi.

(** [ucapi.StatusCodes] *)
Inductive StatusCodes :=
| OK | BAD_REQUEST | UNAUTHORIZED | NOT_FOUND | TIMEOUT | CONFLICT
| SERVER_ERROR | NOT_IMPLEMENTED | SERVICE_UNAVAILABLE.

(** [ucapi.media_player.States] *)
Inductive States :=
| UNAVAILABLE | UNKNOWN | ON | OFF | PLAYING | PAUSED | STANDBY | BUFFERING.

(** [ucapi.media_player.Commands]: a [str] enumeration, compared with the
    incoming command identifier by value. *)
Module Commands.
Definition ON := "on".
Definition OFF := "off".
Definition PLAY_PAUSE := "play_pause".
Definition STOP := "stop".
Definition PREVIOUS := "previous".
Definition NEXT := "next".
Definition FAST_FORWARD := "fast_forward".
Definition REWIND := "rewind".
Definition SEEK := "seek".
Definition VOLUME_UP := "volume_up".
Definition VOLUME_DOWN := "volume_down".
Definition REPEAT := "repeat".
Definition SHUFFLE := "shuffle".
Definition SELECT_SOURCE := "select_source".
Definition RECORD := "record".
Definition MY_RECORDINGS := "my_recordings".
Definition EJECT := "eject".
Definition OPEN_CLOSE := "open_close".
End Commands.

(** [ucapi.remote.Commands] *)
Module RemoteCommands.
Definition ON := "on".
Definition OFF := "off".
Definition TOGGLE := "toggle".
Definition SEND_CMD := "send_cmd".
Definition SEND_CMD_SEQUENCE := "send_cmd_sequence".
End RemoteCommands.

(** The attribute dictionary of a media-player entity, one field per key
    the package stores. *)
Record Attributes := {
  STATE : States;
  SOURCE : pyval;
  SOURCE_LIST : list string;
  MEDIA_TITLE : string;
  MEDIA_ARTIST : string;
  MEDIA_IMAGE_URL : string;
  VOLUME : Z;
}.

Definition set_STATE (v : States) (a : Attributes) : Attributes :=
  {| STATE := v; SOURCE := SOURCE a; SOURCE_LIST := SOURCE_LIST a;
     MEDIA_TITLE := MEDIA_TITLE a; MEDIA_ARTIST := MEDIA_ARTIST a;
     MEDIA_IMAGE_URL := MEDIA_IMAGE_URL a; VOLUME := VOLUME a |}.
Definition set_SOURCE (v : pyval) (a : Attributes) : Attributes :=
  {| STATE := STATE a; SOURCE := v; SOURCE_LIST := SOURCE_LIST a;
     MEDIA_TITLE := MEDIA_TITLE a; MEDIA_ARTIST := MEDIA_ARTIST a;
     MEDIA_IMAGE_URL := MEDIA_IMAGE_URL a; VOLUME := VOLUME a |}.
Definition set_SOURCE_LIST (v : list string) (a : Attributes) : Attributes :=
  {| STATE := STATE a; SOURCE := SOURCE a; SOURCE_LIST := v;
     MEDIA_TITLE := MEDIA_TITLE a; MEDIA_ARTIST := MEDIA_ARTIST a;
     MEDIA_IMAGE_URL := MEDIA_IMAGE_URL a; VOLUME := VOLUME a |}.
Definition set_MEDIA_TITLE (v : string) (a : Attributes) : Attributes :=
  {| STATE := STATE a; SOURCE := SOURCE a; SOURCE_LIST := SOURCE_LIST a;
     MEDIA_TITLE := v; MEDIA_ARTIST := MEDIA_ARTIST a;
     MEDIA_IMAGE_URL := MEDIA_IMAGE_URL a; VOLUME := VOLUME a |}.
Definition set_MEDIA_ARTIST (v : string) (a : Attributes) : Attributes :=
  {| STATE := STATE a; SOURCE := SOURCE a; SOURCE_LIST := SOURCE_LIST a;
     MEDIA_TITLE := MEDIA_TITLE a; MEDIA_ARTIST := v;
     MEDIA_IMAGE_URL := MEDIA_IMAGE_URL a; VOLUME := VOLUME a |}.
Definition set_MEDIA_IMAGE_URL (v : string) (a : Attributes) : Attributes :=
  {| STATE := STATE a; SOURCE := SOURCE a; SOURCE_LIST := SOURCE_LIST a;
     MEDIA_TITLE := MEDIA_TITLE a; MEDIA_ARTIST := MEDIA_ARTIST a;
     MEDIA_IMAGE_URL := v; VOLUME := VOLUME a |}.

(** A call of [configured_entities.update_attributes]: with the entity's
    whole attribute dictionary, or with the state alone. *)
Inductive push :=
| PushAttributes (a : Attributes)
| PushState (s : States).

End Ucapi.

Module Asyncio.

(** The tasks created for one entity's polling loop, in creation order; a
    task is named by its position. *)
Inductive task_state := Running | Done.

#[global] Instance task_state_eq_dec : EqDecision task_state.
Proof. solve_decision. Defined.

(** [task.done()] *)
Definition done (tasks : list task_state) (t : nat) : bool :=
  match tasks !! t with
  | Some Running => false
  | _ => true
  end.

(** [asyncio.create_task(...)]: the new pool and the new task. *)
Definition create_task (tasks : list task_state) : list task_state * nat :=
  ((tasks ++ [Running])%list, length tasks).

(** [task.cancel()] is a request: the task stays not done until it has
    observed the cancellation.  This is the pool once the cancelled task
    [t] has left its loop, which is what [await task] waits for.  The
    awaiting coroutine is only made ready by that event: coroutines that
    were ready before run first. *)
Definition cancel_and_await (tasks : list task_state) (t : nat) : list task_state :=
  <[t := Done]> tasks.

(** The number of tasks still running. *)
Definition running (tasks : list task_state) : nat :=
  length (filter (fun st => st = Running) tasks).

End Asyncio.

(* ===================================================================== *)
(** * media_player.py *)
(* ===================================================================== *)

Module MediaPlayer.

Import Ucapi.

Definition SUPPRESSED_COMMANDS : list string :=
  [ Commands.PLAY_PAUSE; Commands.STOP; Commands.SHUFFLE; Commands.REPEAT;
    Commands.NEXT; Commands.PREVIOUS; Commands.FAST_FORWARD; Commands.REWIND;
    Commands.SEEK; Commands.RECORD; Commands.MY_RECORDINGS; Commands.EJECT;
    Commands.OPEN_CLOSE ].

(** The fields of a [SynologySystemDashboard], followed by what its
    methods do to the outside: the polling tasks they create, the attribute
    pushes they make and the client fetches they issue. *)
Record Dashboard := {
  _current_source : pyval;
  _sources : Config.odict;
  _polling_task : option nat;
  _icon_cache : gmap string string;
  attributes : Attributes;
  loop_tasks : list Asyncio.task_state;
  pushed : list push;
  fetched : list string;
}.

Definition set_current_source (v : pyval) (d : Dashboard) : Dashboard :=
  {| _current_source := v; _sources := _sources d; _polling_task := _polling_task d;
     _icon_cache := _icon_cache d; attributes := attributes d;
     loop_tasks := loop_tasks d; pushed := pushed d; fetched := fetched d |}.
Definition set_polling_task (v : option nat) (d : Dashboard) : Dashboard :=
  {| _current_source := _current_source d; _sources := _sources d; _polling_task := v;
     _icon_cache := _icon_cache d; attributes := attributes d;
     loop_tasks := loop_tasks d; pushed := pushed d; fetched := fetched d |}.
Definition set_icon_cache (v : gmap string string) (d : Dashboard) : Dashboard :=
  {| _current_source := _current_source d; _sources := _sources d;
     _polling_task := _polling_task d; _icon_cache := v; attributes := attributes d;
     loop_tasks := loop_tasks d; pushed := pushed d; fetched := fetched d |}.
Definition set_attributes (f : Attributes -> Attributes) (d : Dashboard) : Dashboard :=
  {| _current_source := _current_source d; _sources := _sources d;
     _polling_task := _polling_task d; _icon_cache := _icon_cache d;
     attributes := f (attributes d);
     loop_tasks := loop_tasks d; pushed := pushed d; fetched := fetched d |}.
Definition set_loop_tasks (v : list Asyncio.task_state) (d : Dashboard) : Dashboard :=
  {| _current_source := _current_source d; _sources := _sources d;
     _polling_task := _polling_task d; _icon_cache := _icon_cache d;
     attributes := attributes d;
     loop_tasks := v; pushed := pushed d; fetched := fetched d |}.
Definition add_push (p : push) (d : Dashboard) : Dashboard :=
  {| _current_source := _current_source d; _sources := _sources d;
     _polling_task := _polling_task d; _icon_cache := _icon_cache d;
     attributes := attributes d;
     loop_tasks := loop_tasks d; pushed := (pushed d ++ [p])%list; fetched := fetched d |}.
Definition add_fetch (key : string) (d : Dashboard) : Dashboard :=
  {| _current_source := _current_source d; _sources := _sources d;
     _polling_task := _polling_task d; _icon_cache := _icon_cache d;
     attributes := attributes d;
     loop_tasks := loop_tasks d; pushed := pushed d; fetched := (fetched d ++ [key])%list |}.

(** What a dashboard method meets outside the object. *)
Record Env := {
  (** [self._config] *)
  config : Config.SynologyConfig;
  (** [self._client.connected] *)
  client_connected : bool;
  (** the outcome of [await fetcher()] for a source key *)
  fetch : string -> exn + record;
  (** the formatters of the sixteen sources that are not embedded below:
      any effect on the dashboard, any exception *)
  other_updater : string -> record -> M Dashboard unit;
  (** [os.path.exists] of an icon file *)
  icon_exists : string -> bool;
  (** the base64 text of an icon file, or the failure of reading it *)
  icon_read : string -> exn + string;
  (** the exception [update_attributes] raises, if any *)
  update_attributes_error : option exn;
  (** [str()] of a [float], a [list] or a [dict] *)
  str_other : pyval -> string;
}.

(** [SynologySystemDashboard._get_enabled_sources] *)
Definition _get_enabled_sources (config : Config.SynologyConfig) : Config.odict :=
  let sources := Config.get_enabled_sources config in
  if (25 <? length sources)%nat then List.firstn 25 sources else sources.

Definition source_images : gmap string string :=
  list_to_map
  [ ("System Overview", "system_overview.png");
    ("Storage Status", "storage_status.png");
    ("Network Statistics", "network_stats.png");
    ("Services Status", "services_status.png");
    ("Security Status", "security_status.png");
    ("Docker Containers", "docker_status.png");
    ("Surveillance Station", "surveillance_status.png");
    ("Temperature Monitor", "thermal_status.png");
    ("SSD Cache", "cache_status.png");
    ("RAID Health", "raid_status.png");
    ("Volume Usage", "volume_status.png");
    ("UPS Monitor", "ups_status.png");
    ("Hardware Monitor", "hardware_monitor.png");
    ("Drive Health", "drive_health.png");
    ("Power Management", "power_management.png");
    ("Cache Performance", "cache_performance.png");
    ("Package Manager", "package_manager.png");
    ("User Sessions", "user_sessions.png") ].

(** The keys of [fetcher_map], which are the keys of [updater_map]. *)
Definition fetcher_keys : list string :=
  [ "SYSTEM_OVERVIEW"; "STORAGE_STATUS"; "NETWORK_STATS"; "SERVICES_STATUS";
    "SECURITY_STATUS"; "DOCKER_STATUS"; "SURVEILLANCE_STATUS"; "THERMAL_STATUS";
    "CACHE_STATUS"; "RAID_STATUS"; "VOLUME_STATUS"; "UPS_STATUS";
    "HARDWARE_MONITOR"; "DRIVE_HEALTH"; "POWER_MANAGEMENT"; "CACHE_PERFORMANCE";
    "PACKAGE_MANAGER"; "USER_SESSIONS" ].

(** Lines 269-272 of [_update_current_data]: a display name is turned back
    into its key, anything else is kept. *)
Definition resolve_source_key (sources : Config.odict) (current_source : pyval) : pyval :=
  if existsb (fun name => py_eq (PStr name) current_source) (Config.values sources)
  then match List.find (fun kv => py_eq (PStr kv.2) current_source) sources with
       | Some kv => PStr kv.1
       | None => current_source
       end
  else current_source.

Section Methods.

Variable env : Env.

Definition _get_icon_base64 (icon_filename : string) : M Dashboard string :=
  fun self =>
    match _icon_cache self !! icon_filename with
    | Some data_url => (inr data_url, self)
    | None =>
        let icon_path :=
          if icon_exists env icon_filename then Some icon_filename
          else List.find (icon_exists env) ["synology_logo.png"; "system_overview.png"] in
        match icon_path with
        | None => (inr "", self)
        | Some path =>
            match icon_read env path with
            | inr base64_data =>
                let data_url := "data:image/png;base64," +:+ base64_data in
                (inr data_url,
                 set_icon_cache (<[icon_filename := data_url]> (_icon_cache self)) self)
            | inl _ => (inr "", self)
            end
        end
    end.

Definition _get_source_image (source : pyval) : M Dashboard string :=
  let* found := lift (get_any source_images source) in
  _get_icon_base64 (default "synology_logo.png" found).

(** [self._api.configured_entities.update_attributes(self.entity_id, ...)] *)
Definition update_attributes (p : Dashboard -> push) : M Dashboard unit :=
  match update_attributes_error env with
  | Some e => raise e
  | None => fun self => (inr tt, add_push (p self) self)
  end.

Definition push_attributes : M Dashboard unit :=
  update_attributes (fun self => PushAttributes (attributes self)).

(** [title, artist = create_two_line_display(line1, line2)] *)
Definition set_two_lines (line1 line2 : string) : M Dashboard unit :=
  let lines := Helpers.create_two_line_display line1 line2 80 in
  modify (set_attributes (fun a => set_MEDIA_ARTIST lines.2 (set_MEDIA_TITLE lines.1 a))).

Definition _update_system_overview_display (data : record) : M Dashboard unit :=
  if truthy (PDict data) then
    modify (set_attributes (set_STATE
      (if py_eq (default PNone (data !! "status")) (PStr "healthy")
       then PLAYING else PAUSED))) ;;
    let* status := lift (py_title (get data "status" (PStr "..."))) in
    let line1 := py_str (str_other env) (get data "model" (PStr "NAS")) +:+ " - " +:+ status in
    let* cpu := lift (py_format_1f (get data "cpu_usage" (PInt 0))) in
    let* mem := lift (py_format_1f (get data "memory_usage" (PInt 0))) in
    let line2 := "CPU: " +:+ cpu +:+ "% | Mem: " +:+ mem +:+ "% | "
                 +:+ py_str (str_other env) (get data "temperature" (PStr "N/A")) in
    set_two_lines line1 line2
  else ret tt.

Definition _update_thermal_status_display (data : record) : M Dashboard unit :=
  let* has_reading :=
    lift (if truthy (PDict data)
          then py_gt_num (get data "system_temp" (PInt 0)) 0
          else inr false) in
  if has_reading : bool then
    let* status := lift (py_title (get data "status" (PStr "unknown"))) in
    let temp_formatted := get data "temperature_formatted" (PStr "N/A") in
    let fan_mode := get data "fan_mode" (PStr "auto") in
    let line1 := "Thermal - " +:+ status in
    let line2 := "Temp: " +:+ py_str (str_other env) temp_formatted
                 +:+ " | Fan: " +:+ py_str (str_other env) fan_mode in
    set_two_lines line1 line2
  else
    set_two_lines "Thermal Monitor" "Temperature sensor unavailable".

(** [updater_map[source_key]] *)
Definition updater (source_key : string) : record -> M Dashboard unit :=
  if String.eqb source_key "SYSTEM_OVERVIEW" then _update_system_overview_display
  else if String.eqb source_key "THERMAL_STATUS" then _update_thermal_status_display
  else other_updater env source_key.

(** [await fetcher()] *)
Definition fetcher (source_key : string) : M Dashboard record :=
  modify (add_fetch source_key) ;; lift (fetch env source_key).

Definition set_title_artist (title artist : string) : M Dashboard unit :=
  modify (set_attributes (fun a => set_MEDIA_ARTIST artist (set_MEDIA_TITLE title a))).

Definition _update_current_data : M Dashboard unit :=
  if negb (client_connected env) then ret tt
  else
    let* current_source := gets _current_source in
    let* sources := gets _sources in
    let source_key := resolve_source_key sources current_source in
    let* fetcher_found :=
      lift (get_any (list_to_map ((fun k => (k, k)) <$> fetcher_keys) : gmap string string)
                    source_key) in
    match fetcher_found with
    | Some key =>
        try_except_if is_AttributeError
          (let* data := fetcher key in updater key data)
          (let* current_source := gets _current_source in
           set_title_artist (py_str (str_other env) current_source) "Feature not available")
    | None =>
        set_title_artist (py_str (str_other env) current_source) "Coming soon"
    end.

Definition start : M Dashboard unit :=
  fun self =>
    let idle := match _polling_task self with
                | None => true
                | Some t => Asyncio.done (loop_tasks self) t
                end in
    if idle && client_connected env then
      let self := set_attributes (set_STATE PLAYING) self in
      let created := Asyncio.create_task (loop_tasks self) in
      (inr tt, set_polling_task (Some created.2) (set_loop_tasks created.1 self))
    else (inr tt, self).

(** [stop()] has one suspension point, [await self._polling_task].  This
    is the method up to it: the guard and [cancel()].  The result is the
    task the coroutine then waits for; [None] when the guard fails and the
    method returns at once. *)
Definition stop_until_await : M Dashboard (option nat) :=
  fun self =>
    match _polling_task self with
    | Some t =>
        if negb (Asyncio.done (loop_tasks self) t) then (inr (Some t), self)
        else (inr None, self)
    | None => (inr None, self)
    end.

(** The cancelled task leaves its loop. *)
Definition task_ends (t : nat) : M Dashboard unit :=
  modify (fun self => set_loop_tasks (Asyncio.cancel_and_await (loop_tasks self) t) self).

(** [stop()] from its resumption: [self._polling_task = None]. *)
Definition stop_after_await : M Dashboard unit :=
  modify (set_polling_task None).

(** A call of [stop()] during whose suspension no other coroutine touches
    the dashboard. *)
Definition stop : M Dashboard unit :=
  let* awaited := stop_until_await in
  match awaited with
  | Some t => task_ends t ;; stop_after_await
  | None => ret tt
  end.

Definition _refresh_display : M Dashboard unit :=
  _update_current_data ;; push_attributes.

Definition _handle_source_selection (source_name : pyval) : M Dashboard unit :=
  let* current_source := gets _current_source in
  if negb (py_eq source_name current_source) then
    modify (set_current_source source_name) ;;
    modify (set_attributes (set_SOURCE source_name)) ;;
    let* image := _get_source_image source_name in
    modify (set_attributes (set_MEDIA_IMAGE_URL image)) ;;
    _update_current_data ;;
    push_attributes
  else ret tt.

Definition _handle_power_on : M Dashboard unit :=
  start ;; _update_current_data ;; push_attributes.

Definition _handle_power_off : M Dashboard unit :=
  stop ;;
  modify (set_attributes (set_STATE PAUSED)) ;;
  update_attributes (fun _ => PushState PAUSED).

Definition _handle_navigate_next : M Dashboard unit := _refresh_display.
Definition _handle_navigate_previous : M Dashboard unit := _refresh_display.

Definition _handle_custom_command (cmd_id : string) (params : option record) : M Dashboard unit :=
  if bool_decide (cmd_id ∈ ["REFRESH_STATUS"; "SYSTEM_INFO"; "UPDATE_DISPLAY"])
  then _refresh_display else ret tt.

(** [params.get(name) if params else None] *)
Definition param (params : option record) (name : string) : pyval :=
  match params with
  | Some p => if truthy (PDict p) then default PNone (p !! name) else PNone
  | None => PNone
  end.

(** The body of the [try] statement of [handle_command]. *)
Definition handle_command_body (cmd_id : string) (params : option record)
  : M Dashboard StatusCodes :=
  if String.eqb cmd_id Commands.SELECT_SOURCE then
    let source := param params "source" in
    if truthy source then _handle_source_selection source ;; ret OK
    else ret BAD_REQUEST
  else if String.eqb cmd_id Commands.ON then _handle_power_on ;; ret OK
  else if String.eqb cmd_id Commands.OFF then _handle_power_off ;; ret OK
  else if String.eqb cmd_id Commands.VOLUME_UP then _handle_navigate_next ;; ret OK
  else if String.eqb cmd_id Commands.VOLUME_DOWN then _handle_navigate_previous ;; ret OK
  else if bool_decide (cmd_id ∈ SUPPRESSED_COMMANDS) then ret OK
  else if bool_decide (cmd_id ∈ ["REFRESH_STATUS"; "UPDATE_DISPLAY"; "SYSTEM_INFO"]) then
    _handle_custom_command cmd_id params ;; ret OK
  else ret NOT_IMPLEMENTED.

Definition handle_command (cmd_id : string) (params : option record)
  : M Dashboard StatusCodes :=
  try_except (handle_command_body cmd_id params) (fun _ => ret SERVER_ERROR).

(** [self._config.polling_intervals.get(self._current_source.lower(), 15)] *)
Definition polling_interval : M Dashboard Z :=
  let* current_source := gets _current_source in
  let* key := lift (py_lower current_source) in
  ret (default 15 (Config.polling_intervals (config env) !! key)).

(** One turn of the [while True] of [_polling_loop] that is not
    cancelled: what it does to the dashboard and how long it then
    sleeps. *)
Definition _polling_loop_iteration : M Dashboard Z :=
  try_except
    (_update_current_data ;; push_attributes ;; polling_interval)
    (fun _ => ret 30).

(** [__init__] *)
Definition init : Dashboard :=
  let self :=
    {| _current_source := PStr "System Overview";
       _sources := _get_enabled_sources (config env);
       _polling_task := None;
       _icon_cache := ∅;
       attributes :=
         {| STATE := PAUSED; SOURCE := PStr "System Overview"; SOURCE_LIST := [];
            MEDIA_TITLE := "Synology System Monitor";
            MEDIA_ARTIST := "Initializing..."; MEDIA_IMAGE_URL := ""; VOLUME := 50 |};
       loop_tasks := []; pushed := []; fetched := [] |} in
  let '(icon, self) := _get_source_image (_current_source self) self in
  set_attributes
    (fun a => set_SOURCE_LIST (Config.values (_sources self))
                (set_MEDIA_IMAGE_URL (match icon with inr i => i | inl _ => "" end) a))
    self.

End Methods.

Section MoreMethods.

Variable env : Env.

Definition _update_source_display : M Dashboard unit :=
  let* current_source := gets _current_source in
  let* icon_base64 := _get_source_image env current_source in
  (if negb (String.eqb icon_base64 "")
   then modify (set_attributes (set_MEDIA_IMAGE_URL icon_base64))
   else ret tt) ;;
  _update_current_data env.

Definition push_initial_state : M Dashboard unit :=
  try_except
    (_update_source_display ;; push_attributes env ;; start env)
    (fun _ => ret tt).

End MoreMethods.

End MediaPlayer.

(* ===================================================================== *)
(** * camera_media_player.py *)
(* ===================================================================== *)

Module CameraMediaPlayer.

Import Ucapi.

Definition SUPPRESSED_COMMANDS : list string :=
  [ Commands.PLAY_PAUSE; Commands.STOP; Commands.SHUFFLE; Commands.REPEAT;
    Commands.NEXT; Commands.PREVIOUS; Commands.FAST_FORWARD; Commands.REWIND;
    Commands.SEEK; Commands.RECORD; Commands.MY_RECORDINGS; Commands.EJECT;
    Commands.OPEN_CLOSE ].

(** The fields of a [SynologyCameraMonitor] that the command handler and
    the loop control touch, with its polling tasks and pushes. *)
Record CameraMonitor := {
  _current_camera : pyval;
  _cameras : gmap string record;
  _polling_task : option nat;
  attributes : Attributes;
  loop_tasks : list Asyncio.task_state;
  pushed : list push;
}.

Definition set_current_camera (v : pyval) (c : CameraMonitor) : CameraMonitor :=
  {| _current_camera := v; _cameras := _cameras c; _polling_task := _polling_task c;
     attributes := attributes c; loop_tasks := loop_tasks c; pushed := pushed c |}.
Definition set_polling_task (v : option nat) (c : CameraMonitor) : CameraMonitor :=
  {| _current_camera := _current_camera c; _cameras := _cameras c; _polling_task := v;
     attributes := attributes c; loop_tasks := loop_tasks c; pushed := pushed c |}.
Definition set_attributes (f : Attributes -> Attributes) (c : CameraMonitor) : CameraMonitor :=
  {| _current_camera := _current_camera c; _cameras := _cameras c;
     _polling_task := _polling_task c; attributes := f (attributes c);
     loop_tasks := loop_tasks c; pushed := pushed c |}.
Definition set_loop_tasks (v : list Asyncio.task_state) (c : CameraMonitor) : CameraMonitor :=
  {| _current_camera := _current_camera c; _cameras := _cameras c;
     _polling_task := _polling_task c; attributes := attributes c;
     loop_tasks := v; pushed := pushed c |}.
Definition add_push (p : push) (c : CameraMonitor) : CameraMonitor :=
  {| _current_camera := _current_camera c; _cameras := _cameras c;
     _polling_task := _polling_task c; attributes := attributes c;
     loop_tasks := loop_tasks c; pushed := (pushed c ++ [p])%list |}.
Definition set_cameras (v : gmap string record) (c : CameraMonitor) : CameraMonitor :=
  {| _current_camera := _current_camera c; _cameras := v;
     _polling_task := _polling_task c; attributes := attributes c;
     loop_tasks := loop_tasks c; pushed := pushed c |}.

(** [__init__], given the icon that [_get_camera_icon_base64] loads. *)
Definition init (initial_icon : string) : CameraMonitor :=
  {| _current_camera := PStr "All Cameras";
     _cameras := ∅;
     _polling_task := None;
     attributes :=
       {| STATE := PAUSED; SOURCE := PStr "All Cameras"; SOURCE_LIST := ["All Cameras"];
          MEDIA_TITLE := "Synology Camera Monitor";
          MEDIA_ARTIST := "Discovering cameras..."; MEDIA_IMAGE_URL := initial_icon;
          VOLUME := 50 |};
     loop_tasks := []; pushed := [] |}.

Record Env := {
  (** [self._client.connected] *)
  client_connected : bool;
  (** [_update_camera_status] and [_update_camera_display], which talk to
      Surveillance Station and are not embedded: any effect on the
      monitor, any exception *)
  _update_camera_status : M CameraMonitor unit;
  _update_camera_display : M CameraMonitor unit;
  (** the exception [update_attributes] raises, if any *)
  update_attributes_error : option exn;
}.

Section Methods.

Variable env : Env.

Definition update_attributes (p : CameraMonitor -> push) : M CameraMonitor unit :=
  match update_attributes_error env with
  | Some e => raise e
  | None => fun self => (inr tt, add_push (p self) self)
  end.

Definition push_attributes : M CameraMonitor unit :=
  update_attributes (fun self => PushAttributes (attributes self)).

Definition start : M CameraMonitor unit :=
  fun self =>
    let idle := match _polling_task self with
                | None => true
                | Some t => Asyncio.done (loop_tasks self) t
                end in
    if idle && (client_connected env && negb (bool_decide (_cameras self = ∅))) then
      let self := set_attributes (set_STATE PLAYING) self in
      let created := Asyncio.create_task (loop_tasks self) in
      (inr tt, set_polling_task (Some created.2) (set_loop_tasks created.1 self))
    else (inr tt, self).

(** [stop()] up to its suspension point [await self._polling_task]: the
    guard and [cancel()].  The result is the task the coroutine then waits
    for, if any. *)
Definition stop_until_await : M CameraMonitor (option nat) :=
  fun self =>
    match _polling_task self with
    | Some t =>
        if negb (Asyncio.done (loop_tasks self) t) then (inr (Some t), self)
        else (inr None, self)
    | None => (inr None, self)
    end.

(** The cancelled task leaves its loop. *)
Definition task_ends (t : nat) : M CameraMonitor unit :=
  modify (fun self => set_loop_tasks (Asyncio.cancel_and_await (loop_tasks self) t) self).

(** [stop()] from its resumption: [self._polling_task = None]. *)
Definition stop_after_await : M CameraMonitor unit :=
  modify (set_polling_task None).

(** A call of [stop()] during whose suspension no other coroutine touches
    the monitor. *)
Definition stop : M CameraMonitor unit :=
  let* awaited := stop_until_await in
  match awaited with
  | Some t => task_ends t ;; stop_after_await
  | None => ret tt
  end.

Definition _handle_camera_selection (camera_source : pyval) : M CameraMonitor unit :=
  let* current_camera := gets _current_camera in
  if negb (py_eq camera_source current_camera) then
    modify (set_current_camera camera_source) ;;
    modify (set_attributes (set_SOURCE camera_source)) ;;
    _update_camera_display env ;;
    push_attributes
  else ret tt.

Definition _handle_camera_on : M CameraMonitor unit :=
  modify (set_attributes (set_STATE PLAYING)) ;;
  start ;;
  push_attributes.

Definition _handle_camera_off : M CameraMonitor unit :=
  stop ;;
  modify (set_attributes (set_STATE PAUSED)) ;;
  update_attributes (fun _ => PushState PAUSED).

Definition _refresh_camera_display : M CameraMonitor unit :=
  _update_camera_status env ;;
  _update_camera_display env ;;
  push_attributes.

Definition handle_command_body (cmd_id : string) (params : option record)
  : M CameraMonitor StatusCodes :=
  if String.eqb cmd_id Commands.SELECT_SOURCE then
    let source := match params with
                  | Some p => if truthy (PDict p) then default PNone (p !! "source") else PNone
                  | None => PNone
                  end in
    if truthy source then _handle_camera_selection source ;; ret OK
    else ret BAD_REQUEST
  else if String.eqb cmd_id Commands.ON then _handle_camera_on ;; ret OK
  else if String.eqb cmd_id Commands.OFF then _handle_camera_off ;; ret OK
  else if String.eqb cmd_id Commands.VOLUME_UP then _refresh_camera_display ;; ret OK
  else if String.eqb cmd_id Commands.VOLUME_DOWN then _refresh_camera_display ;; ret OK
  else if bool_decide (cmd_id ∈ SUPPRESSED_COMMANDS) then ret OK
  else ret NOT_IMPLEMENTED.

Definition handle_command (cmd_id : string) (params : option record)
  : M CameraMonitor StatusCodes :=
  try_except (handle_command_body cmd_id params) (fun _ => ret SERVER_ERROR).

End Methods.

End CameraMediaPlayer.

(* ===================================================================== *)
(** * remote.py *)
(* ===================================================================== *)

Module Remote.

Import Ucapi.

(** [ucapi.remote.States] *)
Inductive States := UNAVAILABLE | UNKNOWN | ON | OFF.

(** The mutating calls on [self._client._sys_info]. *)
Inductive device_call :=
| enable_beep_control (on : bool)
| reboot
| shutdown.

(** The state attribute of a [SynologySystemRemote], with the pushes and
    the device calls it has made. *)
Record SystemRemote := {
  STATE : States;
  pushed : list States;
  called : list device_call;
}.

Record Env := {
  (** [self._client]: [None] for a placeholder entity, else whether the
      client is connected *)
  client : option bool;
  (** the exception a device call raises, if any *)
  device_error : device_call -> option exn;
  (** the exception [update_attributes] raises, if any *)
  update_attributes_error : option exn;
}.

Section Methods.

Variable env : Env.

Definition set_state (new_state : States) : M SystemRemote unit :=
  modify (fun self => {| STATE := new_state; pushed := pushed self; called := called self |}) ;;
  match update_attributes_error env with
  | Some e => raise e
  | None =>
      modify (fun self => {| STATE := STATE self;
                             pushed := (pushed self ++ [new_state])%list;
                             called := called self |})
  end.

Definition _handle_remote_on : M SystemRemote unit := set_state ON.
Definition _handle_remote_off : M SystemRemote unit := set_state OFF.

Definition device (c : device_call) : M SystemRemote unit :=
  modify (fun self => {| STATE := STATE self; pushed := pushed self;
                         called := (called self ++ [c])%list |}) ;;
  match device_error env c with
  | Some e => raise e
  | None => ret tt
  end.

Definition _handle_system_command (command : pyval) (params : option record)
  : M SystemRemote bool :=
  match client env with
  | None | Some false => ret false
  | Some true =>
      try_except
        (if py_eq command (PStr "BEEP_ON") then device (enable_beep_control true) ;; ret true
         else if py_eq command (PStr "BEEP_OFF") then device (enable_beep_control false) ;; ret true
         else if py_eq command (PStr "SYSTEM_RESTART") then device reboot ;; ret true
         else if py_eq command (PStr "SYSTEM_SHUTDOWN") then device shutdown ;; ret true
         else ret false)
        (fun _ => ret false)
  end.

Definition handle_command_body (cmd_id : string) (params : option record)
  : M SystemRemote StatusCodes :=
  if String.eqb cmd_id RemoteCommands.ON then _handle_remote_on ;; ret OK
  else if String.eqb cmd_id RemoteCommands.OFF then _handle_remote_off ;; ret OK
  else if String.eqb cmd_id RemoteCommands.SEND_CMD then
    let command := match params with
                   | Some p => if truthy (PDict p) then default PNone (p !! "command") else PNone
                   | None => PNone
                   end in
    if truthy command then
      let* success := _handle_system_command command params in
      ret (if success : bool then OK else SERVER_ERROR)
    else ret BAD_REQUEST
  else ret NOT_IMPLEMENTED.

Definition handle_command (cmd_id : string) (params : option record)
  : M SystemRemote StatusCodes :=
  try_except (handle_command_body cmd_id params) (fun _ => ret SERVER_ERROR).

End Methods.

#[global] Instance States_eq_dec : EqDecision States.
Proof. solve_decision. Defined.

(** The [simple_commands] the entity advertises. *)
Definition simple_commands : list string :=
  [ "BEEP_ON"; "BEEP_OFF"; "SYSTEM_RESTART"; "SYSTEM_SHUTDOWN" ].

Section MoreMethods.

Variable env : Env.

Definition push_initial_state : M SystemRemote unit :=
  try_except
    (let new_state := match client env with Some true => ON | _ => OFF end in
     let* state := gets STATE in
     if negb (bool_decide (state = new_state)) then set_state env new_state
     else ret tt)
    (fun _ => ret tt).

End MoreMethods.

End Remote.

(* ===================================================================== *)
(** * driver.py *)
(* ===================================================================== *)

Module Driver.

(** What the loop asks of the global [_client]. *)
Record client := {
  connected : bool;
  hasattr : string -> bool;
}.

(** An instance of the package's client class. *)
Definition SynologySystemClient (connected : bool) : client :=
  {| connected := connected; hasattr := Client.hasattr |}.

(** What one turn of the loop meets: the global [_client] ([None] when it
    is unset), the outcome of the health probe [get_system_overview()] and
    the outcome of [reconnect_after_reboot()], should it be called. *)
Record turn := {
  _client : option client;
  get_system_overview : exn + record;
  reconnect_after_reboot : exn + bool;
}.

(** The loop's counter, with the reconnection calls and the sleeps made so
    far. *)
Record Monitoring := {
  consecutive_failures : Z;
  reconnections : nat;
  slept : list Z;
}.

Definition max_failures : Z := 3.

Definition set_failures (n : Z) : M Monitoring unit :=
  modify (fun st => {| consecutive_failures := n;
                       reconnections := reconnections st; slept := slept st |}).
Definition add_failure : M Monitoring unit :=
  modify (fun st => {| consecutive_failures := consecutive_failures st + 1;
                       reconnections := reconnections st; slept := slept st |}).
Definition sleep (seconds : Z) : M Monitoring unit :=
  modify (fun st => {| consecutive_failures := consecutive_failures st;
                       reconnections := reconnections st;
                       slept := (slept st ++ [seconds])%list |}).

(** [await _client.reconnect_after_reboot()] *)
Definition reconnect (t : turn) : M Monitoring bool :=
  modify (fun st => {| consecutive_failures := consecutive_failures st;
                       reconnections := S (reconnections st); slept := slept st |}) ;;
  lift (reconnect_after_reboot t).

Definition usable (c : option client) : bool :=
  match c with
  | Some c => connected c
  | None => false
  end.

Definition can_reconnect (c : option client) : bool :=
  match c with
  | Some c => hasattr c "reconnect_after_reboot"
  | None => false
  end.

(** The body of the inner [try] of one turn, up to its [sleep(30)]. *)
Definition turn_body (t : turn) : M Monitoring unit :=
  (if usable (_client t) then
     match get_system_overview t with
     | inr test_data =>
         if truthy (PDict test_data) then set_failures 0 else add_failure
     | inl _ => add_failure
     end ;;
     let* failures := gets consecutive_failures in
     if (failures >=? max_failures) && can_reconnect (_client t) then
       let* ok := reconnect t in
       if ok : bool then set_failures 0 else ret tt
     else ret tt
   else
     add_failure ;;
     let* failures := gets consecutive_failures in
     if match _client t with Some _ => true | None => false end
        && (failures >=? max_failures) && can_reconnect (_client t)
     then reconnect t ;; ret tt
     else ret tt) ;;
  sleep 30.

(** One turn of the [while True] that is not cancelled. *)
Definition loop_turn (t : turn) : M Monitoring unit :=
  try_except (turn_body t) (fun _ => add_failure ;; sleep 60).

(** The state of the loop after the given turns, from its start. *)
Definition start_state : Monitoring :=
  {| consecutive_failures := 0; reconnections := 0; slept := [] |}.

Definition run_from (st : Monitoring) (turns : list turn) : Monitoring :=
  fold_left (fun st t => (loop_turn t st).2) turns st.

Definition _background_monitoring_loop (turns : list turn) : Monitoring :=
  run_from start_state turns.

(** [ucapi.DeviceStates] *)
Inductive DeviceStates := CONNECTED | CONNECTING | DISCONNECTED | ERROR.

(** What [on_connect] meets: the global [_client], the outcomes of its
    [reconnect_after_reboot()] and [connect()], whether a complete
    configuration is at hand, and the outcome of building and connecting a
    new client from it. *)
Record connect_env := {
  existing_client : option client;
  reconnect_outcome : exn + bool;
  connect_outcome : bool;
  is_configured : bool;
  new_client_outcome : exn + bool;
}.

(** [on_connect]: the device states it reports to the hub, in order, as
    the state of the monad. *)
Definition set_device_state (s : DeviceStates) : M (list DeviceStates) unit :=
  modify (fun reported => (reported ++ [s])%list).

Definition on_connect (e : connect_env) : M (list DeviceStates) unit :=
  set_device_state CONNECTING ;;
  match existing_client e with
  | Some c =>
      if connected c then set_device_state CONNECTED
      else
        let* reconnected :=
          (if hasattr c "reconnect_after_reboot"
           then lift (reconnect_outcome e) else ret false) in
        if reconnected : bool then set_device_state CONNECTED
        else if connect_outcome e then set_device_state CONNECTED
        else set_device_state ERROR
  | None =>
      if is_configured e then
        match new_client_outcome e with
        | inr true => set_device_state CONNECTED
        | inr false => set_device_state ERROR
        | inl _ => set_device_state ERROR
        end
      else set_device_state ERROR
  end.

End Driver.

(* ===================================================================== *)
(** * Vocabulary of the statements and sample inputs *)
(* ===================================================================== *)

(** What [truncate_line] returns for [line] when the limit is at least
    the width of the ellipsis. *)
Definition truncated_to (line : string) (max_length : Z) (r : string) : Prop :=
  len r <= max_length /\
  (len line <= max_length -> r = line) /\
  (len line > max_length ->
   r = take (Z.to_nat (max_length - 3)) line +:+ "...").

(** A configuration whose feature dictionary holds the one flag [name],
    switched off. *)
Definition config_with_flag_off (name : string) : Config.SynologyConfig :=
  {| Config.temperature_unit_entry := None;
     Config.polling_intervals_entry := None;
     Config.enabled_features_entry := Some {[ name := false ]};
     Config.available_packages_entry := None |}.

(** The configuration that [_create_default_config] writes. *)
Definition default_config : Config.SynologyConfig :=
  {| Config.temperature_unit_entry := Some "celsius";
     Config.polling_intervals_entry := Some Helpers.SynologyConstants.DEFAULT_POLLING;
     Config.enabled_features_entry :=
       Some (<["docker_monitoring" := true]> (
             <["security_monitoring" := true]> (
             <["network_monitoring" := true]> (
             <["storage_monitoring" := true]> (
             <["ups_monitoring" := true]> (
             <["surveillance_monitoring" := false]> (
             <["enhanced_monitoring" := true]> ∅)))))));
     Config.available_packages_entry := Some ∅ |}.

(** An environment for examples: a connected or disconnected client whose
    fetches return [fetch], formatters outside the embedding that leave the
    entity alone, no icon files, pushes that succeed. *)
Definition sample_env (config : Config.SynologyConfig) (connected : bool)
    (fetch : string -> exn + record) : MediaPlayer.Env :=
  {| MediaPlayer.config := config;
     MediaPlayer.client_connected := connected;
     MediaPlayer.fetch := fetch;
     MediaPlayer.other_updater := fun _ _ => ret tt;
     MediaPlayer.icon_exists := fun _ => false;
     MediaPlayer.icon_read := fun _ => inl (OtherError "FileNotFoundError");
     MediaPlayer.update_attributes_error := None;
     MediaPlayer.str_other := fun _ => "" |}.

(** [env] with another configuration. *)
Definition with_config (config : Config.SynologyConfig) (env : MediaPlayer.Env) : MediaPlayer.Env :=
  {| MediaPlayer.config := config;
     MediaPlayer.client_connected := MediaPlayer.client_connected env;
     MediaPlayer.fetch := MediaPlayer.fetch env;
     MediaPlayer.other_updater := MediaPlayer.other_updater env;
     MediaPlayer.icon_exists := MediaPlayer.icon_exists env;
     MediaPlayer.icon_read := MediaPlayer.icon_read env;
     MediaPlayer.update_attributes_error := MediaPlayer.update_attributes_error env;
     MediaPlayer.str_other := MediaPlayer.str_other env |}.

(** The degree sign, U+00B0. *)
Definition degree_sign : string := String "176"%char "".

(** The answer of [get_system_info()] on a NAS at 45 degrees whose fan
    runs in mode "auto". *)
Definition system_info_45_auto : pyval :=
  PDict (<["success" := PBool true]> (
         <["data" := PDict (<["sys_temp" := PInt 45]> (
                            <["fan_status" := PStr "auto"]> ∅))]> ∅)).

(** The record of the scenario, with its three fields only. *)
Definition thermal_record_45_auto : record :=
  <["system_temp" := PInt 45]> (
  <["status" := PStr "optimal"]> (
  <["fan_mode" := PStr "auto"]> ∅)).

(** The title and the subtitle an entity shows. *)
Definition display (self : MediaPlayer.Dashboard) : string * string :=
  (Ucapi.MEDIA_TITLE (MediaPlayer.attributes self),
   Ucapi.MEDIA_ARTIST (MediaPlayer.attributes self)).

(** A turn of the health loop in which the probe comes back empty, and in
    which a reconnection, were it attempted, would succeed. *)
Definition failing_turn (c : Driver.client) : Driver.turn :=
  {| Driver._client := Some c;
     Driver.get_system_overview := inr ∅;
     Driver.reconnect_after_reboot := inr true |}.

(** A turn met by an instance of the package's client class. *)
Definition client_turn (t : bool * (exn + record) * (exn + bool)) : Driver.turn :=
  {| Driver._client := Some (Driver.SynologySystemClient t.1.1);
     Driver.get_system_overview := t.1.2;
     Driver.reconnect_after_reboot := t.2 |}.

(** A client that does offer [reconnect_after_reboot]. *)
Definition reconnecting_client (connected : bool) : Driver.client :=
  {| Driver.connected := connected; Driver.hasattr := fun _ => true |}.

(** Every running task of the pool is the one the handle names. *)
Definition single_loop (handle : option nat) (tasks : list Asyncio.task_state) : Prop :=
  forall t, tasks !! t = Some Asyncio.Running -> handle = Some t.

(** Calls of [start()] and [stop()] on a dashboard, each [start()] in the
    environment it meets. *)
Inductive dashboard_call :=
| dashboard_start (env : MediaPlayer.Env)
| dashboard_stop.

Definition dashboard_do (self : MediaPlayer.Dashboard) (c : dashboard_call)
  : MediaPlayer.Dashboard :=
  match c with
  | dashboard_start env => (MediaPlayer.start env self).2
  | dashboard_stop => (MediaPlayer.stop self).2
  end.

Definition dashboard_after (self : MediaPlayer.Dashboard) (calls : list dashboard_call)
  : MediaPlayer.Dashboard :=
  fold_left dashboard_do calls self.

(** The same for a camera monitor, whose camera table a discovery may
    replace between two calls. *)
Inductive camera_call :=
| camera_start (env : CameraMediaPlayer.Env)
| camera_stop
| camera_discovery (cameras : gmap string record).

Definition camera_do (self : CameraMediaPlayer.CameraMonitor) (c : camera_call)
  : CameraMediaPlayer.CameraMonitor :=
  match c with
  | camera_start env => (CameraMediaPlayer.start env self).2
  | camera_stop => (CameraMediaPlayer.stop self).2
  | camera_discovery cameras => CameraMediaPlayer.set_cameras cameras self
  end.

Definition camera_after (self : CameraMediaPlayer.CameraMonitor) (calls : list camera_call)
  : CameraMediaPlayer.CameraMonitor :=
  fold_left camera_do calls self.

(** ** Coroutines of one event loop on one entity

    The listeners of the driver and the command handlers are coroutines of
    one event loop: one of them runs until it suspends at an [await], then
    another ready one runs.  [start()] has no suspension point and runs in
    one step.  [stop()] runs to its [await], is made ready again when the
    task it cancelled has ended, and resumes when the event loop reaches
    it; coroutines that were ready before run first. *)
Inductive coroutine_step (Env : Type) :=
| runs_start (env : Env)
| stop_runs_to_await
| cancelled_task_ends
| stop_resumes.

Arguments runs_start {Env} env.
Arguments stop_runs_to_await {Env}.
Arguments cancelled_task_ends {Env}.
Arguments stop_resumes {Env}.

(** The loop control of an entity class. *)
Record polling_entity (Env Self : Type) := {
  entity_start : Env -> M Self unit;
  entity_stop_until_await : M Self (option nat);
  entity_task_ends : nat -> M Self unit;
  entity_stop_after_await : M Self unit;
  entity_done : Self -> nat -> bool;
}.

Arguments entity_start {Env Self} _ _ _.
Arguments entity_stop_until_await {Env Self} _ _.
Arguments entity_task_ends {Env Self} _ _ _.
Arguments entity_stop_after_await {Env Self} _ _.
Arguments entity_done {Env Self} _ _ _.

Definition dashboard_entity : polling_entity MediaPlayer.Env MediaPlayer.Dashboard :=
  {| entity_start := MediaPlayer.start;
     entity_stop_until_await := MediaPlayer.stop_until_await;
     entity_task_ends := MediaPlayer.task_ends;
     entity_stop_after_await := MediaPlayer.stop_after_await;
     entity_done := fun self => Asyncio.done (MediaPlayer.loop_tasks self) |}.

Definition camera_entity : polling_entity CameraMediaPlayer.Env CameraMediaPlayer.CameraMonitor :=
  {| entity_start := CameraMediaPlayer.start;
     entity_stop_until_await := CameraMediaPlayer.stop_until_await;
     entity_task_ends := CameraMediaPlayer.task_ends;
     entity_stop_after_await := CameraMediaPlayer.stop_after_await;
     entity_done := fun self => Asyncio.done (CameraMediaPlayer.loop_tasks self) |}.

(** One step on an entity and the task a suspended [stop()] waits for, if
    one is suspended; [None] when the step cannot happen there: a task
    ends once, [stop()] resumes only after the task it waits for has ended,
    and one [stop()] is followed at a time. *)
Definition interleave_step {Env Self} (E : polling_entity Env Self)
    (st : Self * option nat) (c : coroutine_step Env) : option (Self * option nat) :=
  match c, st.2 with
  | runs_start env, waiting => Some ((entity_start E env st.1).2, waiting)
  | stop_runs_to_await, None =>
      match entity_stop_until_await E st.1 with
      | (inr awaited, self) => Some (self, awaited)
      | (inl _, _) => None
      end
  | cancelled_task_ends, Some t =>
      if entity_done E st.1 t then None
      else Some ((entity_task_ends E t st.1).2, Some t)
  | stop_resumes, Some t =>
      if entity_done E st.1 t then Some ((entity_stop_after_await E st.1).2, None)
      else None
  | _, _ => None
  end.

Definition interleave {Env Self} (E : polling_entity Env Self)
    (st : Self * option nat) (steps : list (coroutine_step Env)) : option (Self * option nat) :=
  fold_left (fun acc c => acc ≫= fun st => interleave_step E st c) steps (Some st).

(** A [stop()] whose suspension is used by a [start()] of another
    coroutine, on an entity whose loop runs, followed by one more
    [start()]. *)
Definition overlapped_stop {Env} (env : Env) : list (coroutine_step Env) :=
  [ runs_start env; stop_runs_to_await; cancelled_task_ends; runs_start env;
    stop_resumes; runs_start env ].

(** A [stop()] that nothing overlaps. *)
Definition undisturbed_stop {Env} : list (coroutine_step Env) :=
  [ stop_runs_to_await; cancelled_task_ends; stop_resumes ].

(** A loop is running on the entity. *)
Definition loop_running (handle : option nat) (tasks : list Asyncio.task_state) : Prop :=
  exists t, handle = Some t /\ Asyncio.done tasks t = false.

(** The parts [format_uptime] joins, for given days, hours and minutes. *)
Definition uptime_parts (days hours minutes : Z) : list string :=
  ((if 0 <? days then [str_int days +:+ "d"] else [])
   ++ (if 0 <? hours then [str_int hours +:+ "h"] else [])
   ++ (if 0 <? minutes then [str_int minutes +:+ "m"] else []))%list.

(** How hot a drive-temperature label is. *)
Definition heat (label : string) : Z :=
  if String.eqb label "Cool" then 0
  else if String.eqb label "Normal" then 1
  else if String.eqb label "Warm" then 2
  else 3.

(** A status record that carries integer readings for the three metrics of
    [determine_system_health_status]. *)
Definition health_readings (cpu_usage memory_usage system_temp : Z) : record :=
  <["cpu_usage" := PInt cpu_usage]> (
  <["memory_usage" := PInt memory_usage]> (
  <["system_temp" := PInt system_temp]> ∅)).

(** The answer of [get_system_info()] on a NAS that reports the integer
    temperature [sys_temp] and the fan mode [fan_status]. *)
Definition system_info_with (sys_temp : Z) (fan_status : string) : pyval :=
  PDict (<["success" := PBool true]> (
         <["data" := PDict (<["sys_temp" := PInt sys_temp]> (
                            <["fan_status" := PStr fan_status]> ∅))]> ∅)).

(** The thermal status of a temperature that is not zero. *)
Definition thermal_level_of (t : Z) : string :=
  if t <? 60 then "optimal"
  else if t <? 70 then "normal"
  else if t <? 80 then "warm"
  else if t <? 90 then "hot"
  else "critical".

(** The two lines of the thermal display when no reading is shown. *)
Definition thermal_unavailable : string * string :=
  ("Thermal Monitor", "Temperature sensor unavailable").

(** The command identifiers the dashboard handles. *)
Definition dashboard_commands : list string :=
  ([ Ucapi.Commands.SELECT_SOURCE; Ucapi.Commands.ON; Ucapi.Commands.OFF;
     Ucapi.Commands.VOLUME_UP; Ucapi.Commands.VOLUME_DOWN ]
   ++ MediaPlayer.SUPPRESSED_COMMANDS
   ++ [ "REFRESH_STATUS"; "UPDATE_DISPLAY"; "SYSTEM_INFO" ])%list.

(** Both lines of the display fit the width of 80. *)
Definition fits_display (self : MediaPlayer.Dashboard) : Prop :=
  len (display self).1 <= 80 /\ len (display self).2 <= 80.

(** An environment for remote examples: a client as given, device calls
    and pushes that succeed. *)
Definition sample_remote_env (client : option bool) : Remote.Env :=
  {| Remote.client := client;
     Remote.device_error := fun _ => None;
     Remote.update_attributes_error := None |}.

(** A remote entity as [_create_remote_entity] leaves it. *)
Definition fresh_remote : Remote.SystemRemote :=
  {| Remote.STATE := Remote.OFF; Remote.pushed := []; Remote.called := [] |}.

(** The device call behind a command of the remote. *)
Definition device_call_of (command : string) : option Remote.device_call :=
  if String.eqb command "BEEP_ON" then Some (Remote.enable_beep_control true)
  else if String.eqb command "BEEP_OFF" then Some (Remote.enable_beep_control false)
  else if String.eqb command "SYSTEM_RESTART" then Some Remote.reboot
  else if String.eqb command "SYSTEM_SHUTDOWN" then Some Remote.shutdown
  else None.

(** The parameters of a [send_cmd] that carries [command]. *)
Definition send_cmd_params (command : pyval) : option record :=
  Some {[ "command" := command ]}.

(** A turn of the health loop in which the probe comes back empty and the
    reconnection, when attempted, reports failure. *)
Definition hopeless_turn (c : Driver.client) : Driver.turn :=
  {| Driver._client := Some c;
     Driver.get_system_overview := inr ∅;
     Driver.reconnect_after_reboot := inr false |}.

(** What [on_connect] meets when the global client, if there is one, is an
    instance of the package's client class. *)
Definition package_connect_env (client_connected : option bool) (connect_outcome : bool)
    (is_configured : bool) (new_client_outcome : exn + bool) : Driver.connect_env :=
  {| Driver.existing_client := Driver.SynologySystemClient <$> client_connected;
     Driver.reconnect_outcome := inr false;
     Driver.connect_outcome := connect_outcome;
     Driver.is_configured := is_configured;
     Driver.new_client_outcome := new_client_outcome |}.

(** An environment for camera examples: no Surveillance Station effects,
    pushes that succeed. *)
Definition sample_camera_env (connected : bool) : CameraMediaPlayer.Env :=
  {| CameraMediaPlayer.client_connected := connected;
     CameraMediaPlayer._update_camera_status := ret tt;
     CameraMediaPlayer._update_camera_display := ret tt;
     CameraMediaPlayer.update_attributes_error := None |}.

(** What the methods of a dashboard leave alone when they only draw: the
    selected source, the registry, the polling task and its pool, and the
    pushes. *)
Definition outside_display (self : MediaPlayer.Dashboard)
  : pyval * Config.odict * option nat * list Asyncio.task_state * list Ucapi.push :=
  (MediaPlayer._current_source self, MediaPlayer._sources self,
   MediaPlayer._polling_task self, MediaPlayer.loop_tasks self, MediaPlayer.pushed self).

(** The outcome of [push_initial_state] on a dashboard right after
    [__init__]. *)
Definition startup (env : MediaPlayer.Env) : (exn + unit) * MediaPlayer.Dashboard :=
  MediaPlayer.push_initial_state env (MediaPlayer.init env).

(* ===================================================================== *)
(** * Properties *)
(* ===================================================================== *)

Section StringFacts.

Lemma string_length_take n s : String.length (take n s) = Nat.min n (String.length s).
Proof.
  revert s; induction n as [|n IH]; intros [|c s]; simpl; auto.
Qed.

Lemma string_length_app s t : String.length (s +:+ t) = (String.length s + String.length t)%nat.
Proof. induction s; simpl; auto. Qed.

Lemma take_all n s : (String.length s <= n)%nat -> take n s = s.
Proof.
  revert s; induction n as [|n IH]; intros [|c s]; simpl; intros H; auto; try lia.
  f_equal. apply IH. lia.
Qed.

End StringFacts.

(* ===================================================================== *)
(** ** helpers.py: the two-line display *)
(* ===================================================================== *)

Section TwoLineDisplay.

Lemma truncate_line_spec line max_length :
  3 <= max_length ->
  truncated_to line max_length (Helpers.truncate_line line max_length).
Proof.
  intros Hmax. unfold truncated_to, Helpers.truncate_line, slice_to, len.
  destruct (Z.gtb_spec (Z.of_nat (String.length line)) max_length) as [Hlong|Hshort].
  - replace (max_length - 3 <? 0) with false by (symmetry; apply Z.ltb_ge; lia).
    rewrite string_length_app, string_length_take. simpl String.length.
    repeat split; try lia.
  - repeat split; try lia.
Qed.

End TwoLineDisplay.

(** C3, as stated, fails: with a limit below the width of the ellipsis the
    first line comes back longer than the limit ([line1[:-1] + "..."]). *)
Lemma create_two_line_display_limit_2 :
  Helpers.create_two_line_display "abc" "" 2 = ("ab...", "")
  /\ ~ (len (fst (Helpers.create_two_line_display "abc" "" 2)) <= 2).
Proof. split; [reflexivity | vm_compute; congruence]. Qed.

(** C3 (amended): for every pair of lines and every limit of at least 3,
    both lines returned by [create_two_line_display] are no longer than the
    limit; a line within the limit is returned as it is, and a line over the
    limit is cut to its first [max_length - 3] characters followed by the
    ellipsis ["..."]. *)
Theorem create_two_line_display_bounded (line1 line2 : string) (max_length : Z) :
  3 <= max_length ->
  truncated_to line1 max_length (fst (Helpers.create_two_line_display line1 line2 max_length))
  /\ truncated_to line2 max_length (snd (Helpers.create_two_line_display line1 line2 max_length)).
Proof.
  intros Hmax. unfold Helpers.create_two_line_display; simpl.
  split; apply truncate_line_spec; exact Hmax.
Qed.

Lemma create_two_line_display_bounded_witness :
  3 <= 5
  /\ truncated_to "abcdefghij" 5 (fst (Helpers.create_two_line_display "abcdefghij" "ok" 5))
  /\ truncated_to "ok" 5 (snd (Helpers.create_two_line_display "abcdefghij" "ok" 5)).
Proof.
  split; [lia | apply (create_two_line_display_bounded "abcdefghij" "ok" 5); lia].
Defined.

(* ===================================================================== *)
(** ** config.py: the source registry *)
(* ===================================================================== *)

Section OrderedDict.

Implicit Types (d : Config.odict) (key name : string).

Lemma string_eqb_eq (a b : string) : String.eqb a b = true <-> a = b.
Proof. apply String.eqb_eq. Qed.

Lemma py_eq_str (a b : string) : py_eq (PStr a) (PStr b) = String.eqb a b.
Proof. reflexivity. Qed.

Lemma getitem_of_entry d key name :
  NoDup (Config.keys d) -> (key, name) ∈ d -> Config.getitem d key = Some name.
Proof.
  unfold Config.keys. induction d as [|[k n] d IH]; simpl; intros Hnd Hin.
  - inversion Hin.
  - apply NoDup_cons in Hnd as [Hk Hnd].
    apply elem_of_cons in Hin as [Heq|Hin].
    + inversion Heq; subst. now rewrite String.eqb_refl.
    + destruct (String.eqb_spec k key) as [->|Hne]; [|now apply IH].
      exfalso. apply Hk. apply (list_elem_of_fmap_2 fst) in Hin. exact Hin.
Qed.

Lemma find_of_entry d key name :
  NoDup (Config.values d) -> (key, name) ∈ d ->
  List.find (fun kv => py_eq (PStr kv.2) (PStr name)) d = Some (key, name).
Proof.
  unfold Config.values. induction d as [|[k n] d IH]; simpl; intros Hnd Hin.
  - inversion Hin.
  - apply NoDup_cons in Hnd as [Hn Hnd].
    apply elem_of_cons in Hin as [Heq|Hin].
    + inversion Heq; subst. now rewrite String.eqb_refl.
    + destruct (String.eqb_spec n name) as [->|Hne]; [|now apply IH].
      exfalso. apply Hn. apply (list_elem_of_fmap_2 snd) in Hin. exact Hin.
Qed.

Lemma existsb_of_entry d key name :
  (key, name) ∈ d ->
  existsb (fun n => py_eq (PStr n) (PStr name)) (Config.values d) = true.
Proof.
  intros Hin. apply existsb_exists. exists name. split.
  - apply list_elem_of_In. apply (list_elem_of_fmap_2 snd) in Hin. exact Hin.
  - simpl. apply String.eqb_refl.
Qed.

(** With pairwise distinct display names, the reverse lookup of a
    display name is the key it was registered under. *)
Lemma resolve_source_key_of_entry d key name :
  NoDup (Config.values d) -> (key, name) ∈ d ->
  MediaPlayer.resolve_source_key d (PStr name) = PStr key.
Proof.
  intros Hnd Hin. unfold MediaPlayer.resolve_source_key.
  rewrite (existsb_of_entry d key name Hin).
  now rewrite (find_of_entry d key name Hnd Hin).
Qed.

End OrderedDict.

(** Splits on what [get_enabled_sources] reads: the network, security and
    enhanced flags, and the two package-gated tests. *)
Ltac split_registry self :=
  unfold Config.get_enabled_sources; cbv zeta;
  generalize (Config.feature (Config.enabled_features self) "network_monitoring");
  generalize (Config.feature (Config.enabled_features self) "security_monitoring");
  generalize (Config.feature (Config.enabled_features self) "enhanced_monitoring");
  generalize (Config.feature (Config.enabled_features self) "surveillance_monitoring"
              && Config.has_package (Config.available_packages self) "SurveillanceStation");
  generalize (Config.feature (Config.enabled_features self) "docker_monitoring"
              && Config.has_package (Config.available_packages self) "Docker");
  intros [] [] [] [] [].

Lemma get_enabled_sources_keys_NoDup (self : Config.SynologyConfig) :
  NoDup (Config.keys (Config.get_enabled_sources self)).
Proof.
  split_registry self; apply (bool_decide_unpack _); vm_compute; exact I.
Qed.

Lemma get_enabled_sources_values_NoDup (self : Config.SynologyConfig) :
  NoDup (Config.values (Config.get_enabled_sources self)).
Proof.
  split_registry self; apply (bool_decide_unpack _); vm_compute; exact I.
Qed.

Lemma get_enabled_sources_length (self : Config.SynologyConfig) :
  (length (Config.get_enabled_sources self) <= 18)%nat.
Proof. split_registry self; vm_compute; lia. Qed.

(** The cap of 25 entries never cuts the registry. *)
Lemma dashboard_sources_uncut (self : Config.SynologyConfig) :
  MediaPlayer._get_enabled_sources self = Config.get_enabled_sources self.
Proof.
  unfold MediaPlayer._get_enabled_sources.
  pose proof (get_enabled_sources_length self) as Hlen.
  destruct (Nat.ltb_spec 25 (length (Config.get_enabled_sources self))); [lia | reflexivity].
Qed.

(** C1, as stated, fails for the services source: whatever flag is taken
    for it, the registry of a configuration that switches that flag off
    still holds SERVICES_STATUS. *)
Lemma services_source_follows_no_flag :
  ~ (exists flag : string, forall self : Config.SynologyConfig,
        is_Some (Config.getitem (Config.get_enabled_sources self) "SERVICES_STATUS")
        <-> Config.feature (Config.enabled_features self) flag = true).
Proof.
  intros [flag Hiff].
  destruct (Hiff (config_with_flag_off flag)) as [Hon _].
  assert (Hoff : Config.feature (Config.enabled_features (config_with_flag_off flag)) flag = false).
  { unfold Config.feature, Config.enabled_features, config_with_flag_off; simpl.
    now rewrite lookup_singleton_eq. }
  rewrite Hoff in Hon. enough (false = true) by discriminate. apply Hon.
  split_registry (config_with_flag_off flag); vm_compute; eauto.
Qed.

(** C1 (amended): for every combination of feature flags and detected
    packages, the registry built by [get_enabled_sources] holds
    SYSTEM_OVERVIEW, STORAGE_STATUS and SERVICES_STATUS; it holds
    NETWORK_STATS exactly when [network_monitoring] is enabled and
    SECURITY_STATUS exactly when [security_monitoring] is enabled, a flag
    that is absent counting as enabled. *)
Theorem get_enabled_sources_baseline (self : Config.SynologyConfig) :
  Config.getitem (Config.get_enabled_sources self) "SYSTEM_OVERVIEW" = Some "System Overview"
  /\ Config.getitem (Config.get_enabled_sources self) "STORAGE_STATUS" = Some "Storage Status"
  /\ Config.getitem (Config.get_enabled_sources self) "SERVICES_STATUS" = Some "Services Status"
  /\ Config.getitem (Config.get_enabled_sources self) "NETWORK_STATS"
     = (if Config.feature (Config.enabled_features self) "network_monitoring"
        then Some "Network Statistics" else None)
  /\ Config.getitem (Config.get_enabled_sources self) "SECURITY_STATUS"
     = (if Config.feature (Config.enabled_features self) "security_monitoring"
        then Some "Security Status" else None).
Proof.
  split_registry self; vm_compute; repeat split; reflexivity.
Qed.

(** C7: in every registry built by [get_enabled_sources] the keys are
    pairwise distinct, so each key has exactly one display name; the display
    names are pairwise distinct; and for every entry the reverse lookup of
    its display name, as [_update_current_data] performs it, gives back its
    key.  The dashboard's own registry is this one: the cap of 25 never
    applies. *)
Theorem get_enabled_sources_round_trip (self : Config.SynologyConfig) :
  NoDup (Config.keys (Config.get_enabled_sources self))
  /\ NoDup (Config.values (Config.get_enabled_sources self))
  /\ MediaPlayer._get_enabled_sources self = Config.get_enabled_sources self
  /\ forall key name : string,
       (key, name) ∈ Config.get_enabled_sources self ->
       Config.getitem (Config.get_enabled_sources self) key = Some name
       /\ MediaPlayer.resolve_source_key (Config.get_enabled_sources self) (PStr name)
          = PStr key.
Proof.
  pose proof (get_enabled_sources_keys_NoDup self) as Hk.
  pose proof (get_enabled_sources_values_NoDup self) as Hv.
  repeat split; auto using dashboard_sources_uncut.
  - now apply getitem_of_entry.
  - now apply resolve_source_key_of_entry.
Qed.


(* ===================================================================== *)
(** ** media_player.py: the polling interval *)
(* ===================================================================== *)

(** No display name of any registry, lowered, is a key of the default
    interval table. *)
Lemma display_names_miss_DEFAULT_POLLING (self : Config.SynologyConfig) :
  Forall (fun name => Helpers.SynologyConstants.DEFAULT_POLLING !! lower name = None)
         (Config.values (Config.get_enabled_sources self)).
Proof.
  split_registry self.
  all: apply Forall_forall; intros name Hin.
  all: cbv [Config.values Config.setitem Config.update Config.enhanced_sources
            fold_left fmap list_fmap String.eqb Ascii.eqb Bool.eqb fst snd] in Hin.
  all: repeat (apply elem_of_cons in Hin as [->|Hin]; [vm_compute; reflexivity|]).
  all: inversion Hin.
Qed.

(** C2 at its failing input: under the default configuration the table
    holds 45 seconds for "drive_health", yet a dashboard that shows
    "Drive Health" looks up "drive health", finds nothing and sleeps the
    fallback of 15 seconds, whatever record the fetch returns; no display
    name of any registry reaches an entry of the default table. *)
Theorem polling_interval_misses_configured_entry :
  Config.polling_intervals default_config !! "drive_health" = Some 45
  /\ (forall (env : MediaPlayer.Env) (self : MediaPlayer.Dashboard),
        MediaPlayer.polling_interval (with_config default_config env)
          (MediaPlayer.set_current_source (PStr "Drive Health") self)
        = (inr 15, MediaPlayer.set_current_source (PStr "Drive Health") self))
  /\ (forall data : record,
        (MediaPlayer._polling_loop_iteration
           (sample_env default_config true (fun _ => inr data))
           (MediaPlayer.set_current_source (PStr "Drive Health")
              (MediaPlayer.init (sample_env default_config true (fun _ => inr data))))).1
        = inr 15)
  /\ (forall self : Config.SynologyConfig,
        Forall (fun name => Config.polling_intervals default_config !! lower name = None)
               (Config.values (Config.get_enabled_sources self))).
Proof.
  split; [reflexivity|]. split; [intros env self; reflexivity|].
  split; [intros data; vm_compute; reflexivity|].
  apply display_names_miss_DEFAULT_POLLING.
Qed.

(* ===================================================================== *)
(** ** The thermal display *)
(* ===================================================================== *)

(** C5 at its failing input: on a NAS at 45 degrees with fan mode "auto"
    and the unit "celsius", [get_thermal_status] returns a record with
    [system_temp] 45, [status] "optimal", [fan_mode] "auto" and the
    temperature text of [format_temperature], whose literal is the two
    code points U+00C2 U+00B0 followed by C.  The formatter then shows
    "Thermal - Optimal" and "Temp: 45.0", U+00C2, U+00B0, "C | Fan: auto":
    the subtitle contains "auto" but not "45.0" followed by the degree sign
    and C.  On the record of the scenario taken literally, which has no
    [temperature_formatted] field, the subtitle is "Temp: N/A | Fan: auto". *)
Theorem thermal_display_45_celsius (env : MediaPlayer.Env) (self : MediaPlayer.Dashboard) :
  let data := Client.get_thermal_status true "celsius" (inr system_info_45_auto) in
  let shown := display (MediaPlayer._update_thermal_status_display env data self).2 in
  data !! "system_temp" = Some (PInt 45)
  /\ data !! "status" = Some (PStr "optimal")
  /\ data !! "fan_mode" = Some (PStr "auto")
  /\ data !! "temperature_formatted" = Some (PStr ("45.0" +:+ Helpers.degree_literal +:+ "C"))
  /\ shown = ("Thermal - Optimal",
              "Temp: 45.0" +:+ Helpers.degree_literal +:+ "C | Fan: auto")
  /\ contains "auto" shown.2 = true
  /\ contains ("45.0" +:+ degree_sign +:+ "C") shown.2 = false
  /\ display (MediaPlayer._update_thermal_status_display env thermal_record_45_auto self).2
     = ("Thermal - Optimal", "Temp: N/A | Fan: auto").
Proof.
  cbv zeta. repeat split; try (vm_compute; reflexivity).
Qed.

(* ===================================================================== *)
(** ** The system-overview formatter and the entity state *)
(* ===================================================================== *)

Lemma py_eq_healthy (v : pyval) :
  py_eq v (PStr "healthy") = true <-> v = PStr "healthy".
Proof.
  split; [|intros ->; reflexivity].
  destruct v as [|b|z|q|s|l|d]; simpl; try discriminate.
  intros H. apply String.eqb_eq in H. now subst.
Qed.

(** The lines a formatter sets leave the state and the loop alone. *)
Lemma set_two_lines_frame (line1 line2 : string) (self : MediaPlayer.Dashboard) :
  let self' := (MediaPlayer.set_two_lines line1 line2 self).2 in
  Ucapi.STATE (MediaPlayer.attributes self') = Ucapi.STATE (MediaPlayer.attributes self)
  /\ MediaPlayer._polling_task self' = MediaPlayer._polling_task self
  /\ MediaPlayer.loop_tasks self' = MediaPlayer.loop_tasks self.
Proof. repeat split. Qed.

Lemma state_of_status (data : record) :
  (data !! "status" = Some (PStr "healthy") ->
   (if py_eq (default PNone (data !! "status")) (PStr "healthy")
    then Ucapi.PLAYING else Ucapi.PAUSED) = Ucapi.PLAYING)
  /\ (data !! "status" <> Some (PStr "healthy") ->
      (if py_eq (default PNone (data !! "status")) (PStr "healthy")
       then Ucapi.PLAYING else Ucapi.PAUSED) = Ucapi.PAUSED).
Proof.
  split.
  - intros ->. reflexivity.
  - intros Hs. destruct (py_eq _ _) eqn:Heq; [|reflexivity].
    apply py_eq_healthy in Heq. exfalso. apply Hs.
    destruct (data !! "status"); simpl in Heq; [now subst|discriminate].
Qed.

(** C10: on a record that is not empty, [_update_system_overview_display]
    leaves the entity state at "playing" when the record's status is the
    string "healthy" and at "paused" in every other case, whether or not
    the rest of the formatter then raises; the polling task and its handle
    are not touched. *)
Theorem system_overview_state (env : MediaPlayer.Env) (data : record)
    (self : MediaPlayer.Dashboard) :
  data <> ∅ ->
  let self' := (MediaPlayer._update_system_overview_display env data self).2 in
  (data !! "status" = Some (PStr "healthy") ->
   Ucapi.STATE (MediaPlayer.attributes self') = Ucapi.PLAYING)
  /\ (data !! "status" <> Some (PStr "healthy") ->
      Ucapi.STATE (MediaPlayer.attributes self') = Ucapi.PAUSED)
  /\ MediaPlayer._polling_task self' = MediaPlayer._polling_task self
  /\ MediaPlayer.loop_tasks self' = MediaPlayer.loop_tasks self.
Proof.
  intros Hne. cbv zeta.
  destruct (state_of_status data) as [Hplay Hpause].
  unfold MediaPlayer._update_system_overview_display.
  assert (Ht : truthy (PDict data) = true).
  { simpl. now rewrite bool_decide_false. }
  rewrite Ht. clear Ht.
  unfold Py.bind, Py.modify, Py.lift.
  destruct (py_title _) as [e|status]; [now repeat split|].
  destruct (py_format_1f (get data "cpu_usage" _)) as [e|cpu]; [now repeat split|].
  destruct (py_format_1f (get data "memory_usage" _)) as [e|mem]; now repeat split.
Qed.

Lemma system_overview_state_witness :
  ({[ "status" := PStr "warning" ]} : record) <> ∅
  /\ Ucapi.STATE (MediaPlayer.attributes
        (MediaPlayer._update_system_overview_display
           (sample_env default_config true (fun _ => inr ∅))
           {[ "status" := PStr "warning" ]}
           (MediaPlayer.init (sample_env default_config true (fun _ => inr ∅)))).2)
     = Ucapi.PAUSED.
Proof.
  assert (Hne : ({[ "status" := PStr "warning" ]} : record) <> ∅).
  { intros H. apply (f_equal (fun m => m !! "status")) in H. vm_compute in H. discriminate. }
  split; [exact Hne|].
  refine (proj1 (proj2 (system_overview_state
            (sample_env default_config true (fun _ => inr ∅))
            {[ "status" := PStr "warning" ]}
            (MediaPlayer.init (sample_env default_config true (fun _ => inr ∅)))
            Hne)) _).
  vm_compute. discriminate.
Defined.

(* ===================================================================== *)
(** ** The command handlers *)
(* ===================================================================== *)

(** C4: for every command identifier of [SUPPRESSED_COMMANDS], every
    parameter dictionary and every state of the dashboard, in every
    environment, [handle_command] returns [OK] and leaves the dashboard as
    it was: same attributes, same source, same polling task, no fetch and
    no push. *)
Theorem handle_command_suppressed (env : MediaPlayer.Env) (cmd_id : string)
    (params : option record) (self : MediaPlayer.Dashboard) :
  cmd_id ∈ MediaPlayer.SUPPRESSED_COMMANDS ->
  MediaPlayer.handle_command env cmd_id params self = (inr Ucapi.OK, self).
Proof.
  intros Hin. unfold MediaPlayer.SUPPRESSED_COMMANDS in Hin.
  repeat (apply elem_of_cons in Hin as [->|Hin]; [reflexivity|]).
  inversion Hin.
Qed.

Lemma handle_command_suppressed_witness :
  Ucapi.Commands.PLAY_PAUSE ∈ MediaPlayer.SUPPRESSED_COMMANDS
  /\ MediaPlayer.handle_command (sample_env default_config true (fun _ => inr ∅))
       Ucapi.Commands.PLAY_PAUSE None
       (MediaPlayer.init (sample_env default_config true (fun _ => inr ∅)))
     = (inr Ucapi.OK, MediaPlayer.init (sample_env default_config true (fun _ => inr ∅))).
Proof.
  assert (Hin : Ucapi.Commands.PLAY_PAUSE ∈ MediaPlayer.SUPPRESSED_COMMANDS)
    by (apply elem_of_cons; left; reflexivity).
  split; [exact Hin|].
  exact (handle_command_suppressed _ _ None _ Hin).
Defined.

(** C6: in each of the three handlers an exception raised anywhere in the
    body of the [try] statement is answered with [SERVER_ERROR], and a body
    that completes gives its own result code; either way [handle_command]
    returns a result code and the state its body left, and raises
    nothing. *)
Theorem handle_command_catches_everything :
  (forall env cmd_id params self,
      MediaPlayer.handle_command env cmd_id params self
      = match MediaPlayer.handle_command_body env cmd_id params self with
        | (inl _, self') => (inr Ucapi.SERVER_ERROR, self')
        | (inr code, self') => (inr code, self')
        end)
  /\ (forall env cmd_id params self,
        CameraMediaPlayer.handle_command env cmd_id params self
        = match CameraMediaPlayer.handle_command_body env cmd_id params self with
          | (inl _, self') => (inr Ucapi.SERVER_ERROR, self')
          | (inr code, self') => (inr code, self')
          end)
  /\ (forall env cmd_id params self,
        Remote.handle_command env cmd_id params self
        = match Remote.handle_command_body env cmd_id params self with
          | (inl _, self') => (inr Ucapi.SERVER_ERROR, self')
          | (inr code, self') => (inr code, self')
          end)
  /\ (forall env cmd_id params self,
        exists code, (MediaPlayer.handle_command env cmd_id params self).1 = inr code)
  /\ (forall env cmd_id params self,
        exists code, (CameraMediaPlayer.handle_command env cmd_id params self).1 = inr code)
  /\ (forall env cmd_id params self,
        exists code, (Remote.handle_command env cmd_id params self).1 = inr code).
Proof.
  refine (conj _ (conj _ (conj _ (conj _ (conj _ _))))); intros env cmd_id params self.
  - unfold MediaPlayer.handle_command, try_except.
    destruct (MediaPlayer.handle_command_body _ _ _ _) as [[e|code] self']; reflexivity.
  - unfold CameraMediaPlayer.handle_command, try_except.
    destruct (CameraMediaPlayer.handle_command_body _ _ _ _) as [[e|code] self']; reflexivity.
  - unfold Remote.handle_command, try_except.
    destruct (Remote.handle_command_body _ _ _ _) as [[e|code] self']; reflexivity.
  - unfold MediaPlayer.handle_command, try_except.
    destruct (MediaPlayer.handle_command_body _ _ _ _) as [[e|code] self']; eexists; reflexivity.
  - unfold CameraMediaPlayer.handle_command, try_except.
    destruct (CameraMediaPlayer.handle_command_body _ _ _ _) as [[e|code] self']; eexists; reflexivity.
  - unfold Remote.handle_command, try_except.
    destruct (Remote.handle_command_body _ _ _ _) as [[e|code] self']; eexists; reflexivity.
Qed.

(* ===================================================================== *)
(** ** driver.py: the health loop *)
(* ===================================================================== *)

Lemma loop_turn_without_method (t : Driver.turn) (st : Driver.Monitoring) :
  Driver.can_reconnect (Driver._client t) = false ->
  Driver.reconnections (Driver.loop_turn t st).2 = Driver.reconnections st.
Proof.
  intros Hno. unfold Driver.loop_turn, Driver.turn_body, try_except, Py.bind.
  rewrite Hno.
  destruct (Driver.usable (Driver._client t)).
  - destruct (Driver.get_system_overview t) as [e|data]; simpl.
    + rewrite andb_false_r. reflexivity.
    + destruct (bool_decide (data = ∅)); simpl; rewrite ?andb_false_r; reflexivity.
  - simpl. rewrite andb_false_r. reflexivity.
Qed.

Lemma run_from_without_method (turns : list Driver.turn) (st : Driver.Monitoring) :
  Forall (fun t => Driver.can_reconnect (Driver._client t) = false) turns ->
  Driver.reconnections (Driver.run_from st turns) = Driver.reconnections st.
Proof.
  intros Hall. revert st. induction Hall as [|t turns Ht _ IH]; intros st; simpl.
  - reflexivity.
  - unfold Driver.run_from in *. simpl. rewrite IH. now apply loop_turn_without_method.
Qed.

(** C8 at its failing input: the client class defines no
    [reconnect_after_reboot], so the [hasattr] test of the loop is false.
    After three health checks in a row that come back empty on a connected
    client the counter stands at 3 and no reconnection has been attempted;
    whatever the later turns bring to an instance of the client class, none
    is ever attempted. *)
Theorem health_loop_never_reconnects :
  Client.hasattr "reconnect_after_reboot" = false
  /\ Driver._background_monitoring_loop
       [ failing_turn (Driver.SynologySystemClient true);
         failing_turn (Driver.SynologySystemClient true);
         failing_turn (Driver.SynologySystemClient true) ]
     = {| Driver.consecutive_failures := 3;
          Driver.reconnections := 0;
          Driver.slept := [30; 30; 30] |}
  /\ forall turns : list (bool * (exn + record) * (exn + bool)),
       Driver.reconnections (Driver._background_monitoring_loop (client_turn <$> turns)) = 0%nat.
Proof.
  split; [vm_compute; reflexivity|]. split; [vm_compute; reflexivity|].
  intros turns. unfold Driver._background_monitoring_loop.
  rewrite run_from_without_method; [reflexivity|].
  apply Forall_fmap, Forall_forall. intros t _. vm_compute. reflexivity.
Qed.

(** With a client that offers [reconnect_after_reboot], three empty health
    checks in a row lead to one reconnection attempt, made in the third
    turn, and its success puts the counter back to zero. *)
Lemma health_loop_with_method :
  Driver._background_monitoring_loop
    [ failing_turn (reconnecting_client true);
      failing_turn (reconnecting_client true) ]
  = {| Driver.consecutive_failures := 2; Driver.reconnections := 0;
       Driver.slept := [30; 30] |}
  /\ Driver._background_monitoring_loop
       [ failing_turn (reconnecting_client true);
         failing_turn (reconnecting_client true);
         failing_turn (reconnecting_client true) ]
     = {| Driver.consecutive_failures := 0; Driver.reconnections := 1;
          Driver.slept := [30; 30; 30] |}.
Proof. split; vm_compute; reflexivity. Qed.

(* ===================================================================== *)
(** ** start() and stop(): one polling loop per entity *)
(* ===================================================================== *)

Section TaskPool.

Import Asyncio.

Implicit Types (tasks : list task_state) (handle : option nat).

Lemma running_cons_Running tasks : running (Running :: tasks) = S (running tasks).
Proof. unfold running. now rewrite filter_cons_True. Qed.

Lemma running_cons_Done tasks : running (Done :: tasks) = running tasks.
Proof. unfold running. now rewrite filter_cons_False. Qed.

Lemma running_none tasks :
  (forall t, tasks !! t <> Some Running) -> running tasks = 0%nat.
Proof.
  induction tasks as [|st tasks IH]; intros Hnone; [reflexivity|].
  destruct st.
  - exfalso. now apply (Hnone 0%nat).
  - rewrite running_cons_Done. apply IH. intros t. apply (Hnone (S t)).
Qed.

Lemma running_at_most_one tasks :
  (forall i j, tasks !! i = Some Running -> tasks !! j = Some Running -> i = j) ->
  (running tasks <= 1)%nat.
Proof.
  induction tasks as [|st tasks IH]; intros Hone; [unfold running; simpl; lia|].
  destruct st.
  - rewrite running_cons_Running, running_none; [lia|].
    intros t Ht. specialize (Hone 0%nat (S t) eq_refl Ht). discriminate.
  - rewrite running_cons_Done. apply IH. intros i j Hi Hj.
    specialize (Hone (S i) (S j) Hi Hj). lia.
Qed.

Lemma single_loop_at_most_one handle tasks :
  single_loop handle tasks -> (running tasks <= 1)%nat.
Proof.
  intros Hs. apply running_at_most_one. intros i j Hi Hj.
  apply Hs in Hi, Hj. congruence.
Qed.

Lemma done_false tasks t : done tasks t = false <-> tasks !! t = Some Running.
Proof.
  unfold done. destruct (tasks !! t) as [[]|]; split; congruence.
Qed.

(** What [start()] does to the handle and the pool when its guard holds. *)
Lemma single_loop_create handle tasks :
  single_loop handle tasks ->
  match handle with None => true | Some t => done tasks t end = true ->
  single_loop (Some (create_task tasks).2) (create_task tasks).1.
Proof.
  intros Hs Hidle t Ht. unfold create_task in *. simpl in *.
  destruct (decide (t < length tasks)%nat) as [Hlt|Hge].
  - rewrite lookup_app_l in Ht by exact Hlt.
    pose proof (Hs t Ht) as Hh. subst handle.
    apply done_false in Ht. congruence.
  - apply lookup_lt_Some in Ht. rewrite length_app in Ht. simpl in Ht.
    f_equal. lia.
Qed.

(** What [stop()] does to the pool: nothing is left running. *)
Lemma cancel_and_await_none handle tasks t :
  single_loop handle tasks -> handle = Some t ->
  forall t', cancel_and_await tasks t !! t' <> Some Running.
Proof.
  intros Hs -> t' Ht'. unfold cancel_and_await in Ht'.
  destruct (decide (t = t')) as [<-|Hne].
  - destruct (decide (t < length tasks)%nat) as [Hlt|Hge].
    + rewrite list_lookup_insert_eq in Ht' by exact Hlt. discriminate.
    + rewrite list_insert_ge in Ht' by lia.
      apply lookup_lt_Some in Ht'. lia.
  - rewrite list_lookup_insert_ne in Ht' by exact Hne.
    apply Hs in Ht'. congruence.
Qed.

Lemma single_loop_idle handle tasks :
  single_loop handle tasks ->
  match handle with None => true | Some t => done tasks t end = true ->
  forall t, tasks !! t <> Some Running.
Proof.
  intros Hs Hidle t Ht. pose proof (Hs t Ht) as ->.
  apply done_false in Ht. congruence.
Qed.

End TaskPool.

(** What an undisturbed [stop()] comes to. *)
Lemma dashboard_stop_unfold (self : MediaPlayer.Dashboard) :
  MediaPlayer.stop self
  = match MediaPlayer._polling_task self with
    | Some t =>
        if negb (Asyncio.done (MediaPlayer.loop_tasks self) t) then
          (inr tt,
           MediaPlayer.set_polling_task None
             (MediaPlayer.set_loop_tasks
                (Asyncio.cancel_and_await (MediaPlayer.loop_tasks self) t) self))
        else (inr tt, self)
    | None => (inr tt, self)
    end.
Proof.
  unfold MediaPlayer.stop, MediaPlayer.stop_until_await, Py.bind.
  destruct (MediaPlayer._polling_task self) as [t|]; [|reflexivity].
  destruct (Asyncio.done (MediaPlayer.loop_tasks self) t); reflexivity.
Qed.

Lemma camera_stop_unfold (self : CameraMediaPlayer.CameraMonitor) :
  CameraMediaPlayer.stop self
  = match CameraMediaPlayer._polling_task self with
    | Some t =>
        if negb (Asyncio.done (CameraMediaPlayer.loop_tasks self) t) then
          (inr tt,
           CameraMediaPlayer.set_polling_task None
             (CameraMediaPlayer.set_loop_tasks
                (Asyncio.cancel_and_await (CameraMediaPlayer.loop_tasks self) t) self))
        else (inr tt, self)
    | None => (inr tt, self)
    end.
Proof.
  unfold CameraMediaPlayer.stop, CameraMediaPlayer.stop_until_await, Py.bind.
  destruct (CameraMediaPlayer._polling_task self) as [t|]; [|reflexivity].
  destruct (Asyncio.done (CameraMediaPlayer.loop_tasks self) t); reflexivity.
Qed.

Lemma dashboard_start_single_loop (env : MediaPlayer.Env) (self : MediaPlayer.Dashboard) :
  single_loop (MediaPlayer._polling_task self) (MediaPlayer.loop_tasks self) ->
  single_loop (MediaPlayer._polling_task (MediaPlayer.start env self).2)
              (MediaPlayer.loop_tasks (MediaPlayer.start env self).2).
Proof.
  intros Hs. unfold MediaPlayer.start.
  destruct (match MediaPlayer._polling_task self with
            | None => true | Some t => Asyncio.done (MediaPlayer.loop_tasks self) t end)
    eqn:Hidle; simpl; [|exact Hs].
  destruct (MediaPlayer.client_connected env); simpl; [|exact Hs].
  now apply (single_loop_create (MediaPlayer._polling_task self)).
Qed.

Lemma dashboard_stop_none (self : MediaPlayer.Dashboard) :
  single_loop (MediaPlayer._polling_task self) (MediaPlayer.loop_tasks self) ->
  forall t, MediaPlayer.loop_tasks (MediaPlayer.stop self).2 !! t <> Some Asyncio.Running.
Proof.
  intros Hs. rewrite dashboard_stop_unfold.
  destruct (MediaPlayer._polling_task self) as [t0|] eqn:Hh.
  - destruct (Asyncio.done (MediaPlayer.loop_tasks self) t0) eqn:Hd; simpl.
    + apply (single_loop_idle (Some t0)); [exact Hs|exact Hd].
    + now apply (cancel_and_await_none (Some t0)).
  - simpl. now apply (single_loop_idle None).
Qed.

Lemma dashboard_stop_single_loop (self : MediaPlayer.Dashboard) :
  single_loop (MediaPlayer._polling_task self) (MediaPlayer.loop_tasks self) ->
  single_loop (MediaPlayer._polling_task (MediaPlayer.stop self).2)
              (MediaPlayer.loop_tasks (MediaPlayer.stop self).2).
Proof.
  intros Hs t Ht. exfalso. exact (dashboard_stop_none self Hs t Ht).
Qed.

Lemma dashboard_after_single_loop (calls : list dashboard_call) (self : MediaPlayer.Dashboard) :
  single_loop (MediaPlayer._polling_task self) (MediaPlayer.loop_tasks self) ->
  single_loop (MediaPlayer._polling_task (dashboard_after self calls))
              (MediaPlayer.loop_tasks (dashboard_after self calls)).
Proof.
  revert self. induction calls as [|c calls IH]; intros self Hs; [exact Hs|].
  unfold dashboard_after in *. simpl. apply IH.
  destruct c as [env|]; simpl.
  - now apply dashboard_start_single_loop.
  - now apply dashboard_stop_single_loop.
Qed.

Lemma get_icon_base64_frame (env : MediaPlayer.Env) (icon_filename : string)
    (self : MediaPlayer.Dashboard) :
  MediaPlayer.loop_tasks (MediaPlayer._get_icon_base64 env icon_filename self).2
  = MediaPlayer.loop_tasks self
  /\ MediaPlayer._polling_task (MediaPlayer._get_icon_base64 env icon_filename self).2
     = MediaPlayer._polling_task self.
Proof.
  unfold MediaPlayer._get_icon_base64.
  destruct (MediaPlayer._icon_cache self !! icon_filename); [split; reflexivity|].
  destruct (if MediaPlayer.icon_exists env icon_filename then _ else _) as [path|];
    [|split; reflexivity].
  destruct (MediaPlayer.icon_read env path); split; reflexivity.
Qed.

Lemma get_source_image_frame (env : MediaPlayer.Env) (source : pyval)
    (self : MediaPlayer.Dashboard) :
  MediaPlayer.loop_tasks (MediaPlayer._get_source_image env source self).2
  = MediaPlayer.loop_tasks self
  /\ MediaPlayer._polling_task (MediaPlayer._get_source_image env source self).2
     = MediaPlayer._polling_task self.
Proof.
  unfold MediaPlayer._get_source_image, Py.bind, Py.lift.
  destruct (get_any MediaPlayer.source_images source) as [e|found]; [split; reflexivity|].
  apply get_icon_base64_frame.
Qed.

Lemma dashboard_init_single_loop (env : MediaPlayer.Env) :
  single_loop (MediaPlayer._polling_task (MediaPlayer.init env))
              (MediaPlayer.loop_tasks (MediaPlayer.init env)).
Proof.
  unfold MediaPlayer.init.
  match goal with
  | |- context [MediaPlayer._get_source_image env ?src ?self0] =>
      pose proof (get_source_image_frame env src self0) as [Ht Hh];
      destruct (MediaPlayer._get_source_image env src self0) as [icon self]
  end.
  intros t Hrun. exfalso.
  change (MediaPlayer.loop_tasks self !! t = Some Asyncio.Running) in Hrun.
  change (MediaPlayer.loop_tasks self = []) in Ht.
  rewrite Ht in Hrun. now rewrite lookup_nil in Hrun.
Qed.

Lemma camera_start_single_loop (env : CameraMediaPlayer.Env)
    (self : CameraMediaPlayer.CameraMonitor) :
  single_loop (CameraMediaPlayer._polling_task self) (CameraMediaPlayer.loop_tasks self) ->
  single_loop (CameraMediaPlayer._polling_task (CameraMediaPlayer.start env self).2)
              (CameraMediaPlayer.loop_tasks (CameraMediaPlayer.start env self).2).
Proof.
  intros Hs. unfold CameraMediaPlayer.start.
  destruct (match CameraMediaPlayer._polling_task self with
            | None => true
            | Some t => Asyncio.done (CameraMediaPlayer.loop_tasks self) t end)
    eqn:Hidle; simpl; [|exact Hs].
  destruct (CameraMediaPlayer.client_connected env && _); simpl; [|exact Hs].
  now apply (single_loop_create (CameraMediaPlayer._polling_task self)).
Qed.

Lemma camera_stop_none (self : CameraMediaPlayer.CameraMonitor) :
  single_loop (CameraMediaPlayer._polling_task self) (CameraMediaPlayer.loop_tasks self) ->
  forall t, CameraMediaPlayer.loop_tasks (CameraMediaPlayer.stop self).2 !! t
            <> Some Asyncio.Running.
Proof.
  intros Hs. rewrite camera_stop_unfold.
  destruct (CameraMediaPlayer._polling_task self) as [t0|] eqn:Hh.
  - destruct (Asyncio.done (CameraMediaPlayer.loop_tasks self) t0) eqn:Hd; simpl.
    + apply (single_loop_idle (Some t0)); [exact Hs|exact Hd].
    + now apply (cancel_and_await_none (Some t0)).
  - simpl. now apply (single_loop_idle None).
Qed.

Lemma camera_after_single_loop (calls : list camera_call)
    (self : CameraMediaPlayer.CameraMonitor) :
  single_loop (CameraMediaPlayer._polling_task self) (CameraMediaPlayer.loop_tasks self) ->
  single_loop (CameraMediaPlayer._polling_task (camera_after self calls))
              (CameraMediaPlayer.loop_tasks (camera_after self calls)).
Proof.
  revert self. induction calls as [|c calls IH]; intros self Hs; [exact Hs|].
  unfold camera_after in *. simpl. apply IH.
  destruct c as [env| |cameras]; simpl.
  - now apply camera_start_single_loop.
  - intros t Ht. exfalso. exact (camera_stop_none self Hs t Ht).
  - exact Hs.
Qed.

(** X28: after any sequence of [start()] and [stop()] calls on a fresh
    dashboard, each call running to its end before the next begins, at most
    one polling task is running; [start()] changes nothing when a loop is
    running or the client is not connected; [stop()] returns with no task
    left running; and a [start()] after that [stop()] leaves at most one.
    The same holds for a camera monitor, whatever cameras are discovered
    in between. *)
Theorem one_polling_loop :
  (forall (env0 : MediaPlayer.Env) (calls : list dashboard_call),
     let self := dashboard_after (MediaPlayer.init env0) calls in
     (Asyncio.running (MediaPlayer.loop_tasks self) <= 1)%nat
     /\ (forall env,
           loop_running (MediaPlayer._polling_task self) (MediaPlayer.loop_tasks self)
           \/ MediaPlayer.client_connected env = false ->
           MediaPlayer.start env self = (inr tt, self))
     /\ (MediaPlayer.stop self).1 = inr tt
     /\ Asyncio.running (MediaPlayer.loop_tasks (MediaPlayer.stop self).2) = 0%nat
     /\ (forall env,
           (Asyncio.running
              (MediaPlayer.loop_tasks (MediaPlayer.start env (MediaPlayer.stop self).2).2)
            <= 1)%nat))
  /\ (forall (initial_icon : string) (calls : list camera_call),
        let self := camera_after (CameraMediaPlayer.init initial_icon) calls in
        (Asyncio.running (CameraMediaPlayer.loop_tasks self) <= 1)%nat
        /\ (forall env,
              loop_running (CameraMediaPlayer._polling_task self)
                           (CameraMediaPlayer.loop_tasks self)
              \/ CameraMediaPlayer.client_connected env = false ->
              CameraMediaPlayer.start env self = (inr tt, self))
        /\ (CameraMediaPlayer.stop self).1 = inr tt
        /\ Asyncio.running (CameraMediaPlayer.loop_tasks (CameraMediaPlayer.stop self).2) = 0%nat
        /\ (forall env,
              (Asyncio.running
                 (CameraMediaPlayer.loop_tasks
                    (CameraMediaPlayer.start env (CameraMediaPlayer.stop self).2).2)
               <= 1)%nat)).
Proof.
  split.
  - intros env0 calls self.
    assert (Hs : single_loop (MediaPlayer._polling_task self) (MediaPlayer.loop_tasks self))
      by (apply dashboard_after_single_loop, dashboard_init_single_loop).
    clearbody self.
    split; [now apply (single_loop_at_most_one (MediaPlayer._polling_task self))|].
    split.
    { intros env [[t [Hh Hd]]|Hoff]; unfold MediaPlayer.start.
      - rewrite Hh, Hd. reflexivity.
      - rewrite Hoff, andb_false_r. reflexivity. }
    split.
    { rewrite dashboard_stop_unfold. destruct (MediaPlayer._polling_task self) as [t|];
        [destruct (negb _)|]; reflexivity. }
    split; [apply running_none, dashboard_stop_none, Hs|].
    intros env.
    apply (single_loop_at_most_one
             (MediaPlayer._polling_task (MediaPlayer.start env (MediaPlayer.stop self).2).2)).
    apply dashboard_start_single_loop, dashboard_stop_single_loop, Hs.
  - intros initial_icon calls self.
    assert (Hs : single_loop (CameraMediaPlayer._polling_task self)
                             (CameraMediaPlayer.loop_tasks self)).
    { apply camera_after_single_loop. intros t Ht. simpl in Ht.
      now rewrite lookup_nil in Ht. }
    clearbody self.
    split; [now apply (single_loop_at_most_one (CameraMediaPlayer._polling_task self))|].
    split.
    { intros env [[t [Hh Hd]]|Hoff]; unfold CameraMediaPlayer.start.
      - rewrite Hh, Hd. reflexivity.
      - rewrite Hoff. simpl. rewrite andb_false_r. reflexivity. }
    split.
    { rewrite camera_stop_unfold.
      destruct (CameraMediaPlayer._polling_task self) as [t|];
        [destruct (negb _)|]; reflexivity. }
    split; [apply running_none, camera_stop_none, Hs|].
    intros env.
    apply (single_loop_at_most_one
             (CameraMediaPlayer._polling_task
                (CameraMediaPlayer.start env (CameraMediaPlayer.stop self).2).2)).
    apply camera_start_single_loop.
    intros t Ht. exfalso. exact (camera_stop_none self Hs t Ht).
Qed.

(* ===================================================================== *)
(** ** stop() overlapped by start() *)
(* ===================================================================== *)

Lemma dashboard_init_idle (env : MediaPlayer.Env) :
  MediaPlayer.loop_tasks (MediaPlayer.init env) = []
  /\ MediaPlayer._polling_task (MediaPlayer.init env) = None.
Proof.
  unfold MediaPlayer.init.
  match goal with
  | |- context [MediaPlayer._get_source_image env ?src ?self0] =>
      pose proof (get_source_image_frame env src self0) as [Ht Hh];
      destruct (MediaPlayer._get_source_image env src self0) as [icon self]
  end.
  split; [exact Ht|exact Hh].
Qed.

(** The method [stop()] is the run of its steps that nothing overlaps:
    all three when a loop runs, the first alone when the guard fails. *)
Lemma undisturbed_stop_is_stop :
  (forall self : MediaPlayer.Dashboard,
     interleave dashboard_entity (self, None)
       (match (MediaPlayer.stop_until_await self).1 with
        | inr (Some _) => undisturbed_stop
        | _ => [stop_runs_to_await]
        end)
     = Some ((MediaPlayer.stop self).2, None))
  /\ (forall self : CameraMediaPlayer.CameraMonitor,
        interleave camera_entity (self, None)
          (match (CameraMediaPlayer.stop_until_await self).1 with
           | inr (Some _) => undisturbed_stop
           | _ => [stop_runs_to_await]
           end)
        = Some ((CameraMediaPlayer.stop self).2, None)).
Proof.
  split; intros self.
  - rewrite dashboard_stop_unfold.
    unfold MediaPlayer.stop_until_await.
    destruct (MediaPlayer._polling_task self) as [t|] eqn:Hh.
    + destruct (Asyncio.done (MediaPlayer.loop_tasks self) t) eqn:Hd; simpl.
      * unfold interleave, interleave_step. simpl.
        unfold MediaPlayer.stop_until_await. now rewrite Hh, Hd.
      * assert (Hdone : Asyncio.done
                          (Asyncio.cancel_and_await (MediaPlayer.loop_tasks self) t) t = true).
        { apply done_false in Hd. apply lookup_lt_Some in Hd.
          unfold Asyncio.done, Asyncio.cancel_and_await.
          now rewrite list_lookup_insert_eq. }
        unfold interleave, undisturbed_stop, interleave_step. simpl.
        unfold MediaPlayer.stop_until_await. rewrite Hh, Hd. simpl.
        rewrite Hd. simpl. rewrite Hdone. reflexivity.
    + simpl. unfold interleave, interleave_step. simpl.
      unfold MediaPlayer.stop_until_await. now rewrite Hh.
  - rewrite camera_stop_unfold.
    unfold CameraMediaPlayer.stop_until_await.
    destruct (CameraMediaPlayer._polling_task self) as [t|] eqn:Hh.
    + destruct (Asyncio.done (CameraMediaPlayer.loop_tasks self) t) eqn:Hd; simpl.
      * unfold interleave, interleave_step. simpl.
        unfold CameraMediaPlayer.stop_until_await. now rewrite Hh, Hd.
      * assert (Hdone : Asyncio.done
                          (Asyncio.cancel_and_await (CameraMediaPlayer.loop_tasks self) t) t
                        = true).
        { apply done_false in Hd. apply lookup_lt_Some in Hd.
          unfold Asyncio.done, Asyncio.cancel_and_await.
          now rewrite list_lookup_insert_eq. }
        unfold interleave, undisturbed_stop, interleave_step. simpl.
        unfold CameraMediaPlayer.stop_until_await. rewrite Hh, Hd. simpl.
        rewrite Hd. simpl. rewrite Hdone. reflexivity.
    + simpl. unfold interleave, interleave_step. simpl.
      unfold CameraMediaPlayer.stop_until_await. now rewrite Hh.
Qed.

Lemma dashboard_overlapped_stop (env : MediaPlayer.Env) (self : MediaPlayer.Dashboard) :
  MediaPlayer.client_connected env = true ->
  MediaPlayer.loop_tasks self = [] ->
  MediaPlayer._polling_task self = None ->
  exists self',
    interleave dashboard_entity (self, None) (overlapped_stop env) = Some (self', None)
    /\ MediaPlayer.loop_tasks self' = [Asyncio.Done; Asyncio.Running; Asyncio.Running]
    /\ MediaPlayer._polling_task self' = Some 2%nat.
Proof.
  intros Hon Htasks Hhandle.
  destruct self as [cur src handle cache attrs tasks pushes fetches].
  simpl in Htasks, Hhandle. subst tasks handle.
  unfold interleave, overlapped_stop, interleave_step, dashboard_entity. simpl.
  unfold MediaPlayer.start. simpl. rewrite Hon. simpl.
  eexists. split; [reflexivity|]. split; reflexivity.
Qed.

Lemma camera_overlapped_stop (env : CameraMediaPlayer.Env)
    (self : CameraMediaPlayer.CameraMonitor) :
  CameraMediaPlayer.client_connected env = true ->
  CameraMediaPlayer._cameras self <> ∅ ->
  CameraMediaPlayer.loop_tasks self = [] ->
  CameraMediaPlayer._polling_task self = None ->
  exists self',
    interleave camera_entity (self, None) (overlapped_stop env) = Some (self', None)
    /\ CameraMediaPlayer.loop_tasks self' = [Asyncio.Done; Asyncio.Running; Asyncio.Running]
    /\ CameraMediaPlayer._polling_task self' = Some 2%nat.
Proof.
  intros Hon Hcams Htasks Hhandle.
  destruct self as [cur cams handle attrs tasks pushes].
  simpl in Hcams, Htasks, Hhandle. subst tasks handle.
  unfold interleave, overlapped_stop, interleave_step, camera_entity. simpl.
  pose proof (bool_decide_eq_false_2 _ Hcams) as Hsome.
  unfold CameraMediaPlayer.start. simpl. rewrite Hon.
  repeat (rewrite Hsome; simpl).
  eexists. split; [reflexivity|]. split; reflexivity.
Qed.

(** C9: the entities do not keep to one polling loop when a [stop()] is
    overlapped.  [stop()] suspends at [await self._polling_task], between
    [cancel()] and [self._polling_task = None].  On a connected dashboard
    whose loop runs, a [start()] of another coroutine that runs after the
    cancelled task has ended and before [stop()] resumes sees a finished
    task and creates a new one; the resuming [stop()] then clears the
    handle of that new task, which keeps running, and the next [start()]
    creates one more: two polling tasks run, and the handle names only the
    last.  The same happens on a camera monitor that has cameras. *)
Theorem overlapped_stop_leaves_two_loops :
  (forall env : MediaPlayer.Env,
     MediaPlayer.client_connected env = true ->
     exists self,
       interleave dashboard_entity (MediaPlayer.init env, None) (overlapped_stop env)
       = Some (self, None)
       /\ MediaPlayer.loop_tasks self = [Asyncio.Done; Asyncio.Running; Asyncio.Running]
       /\ MediaPlayer._polling_task self = Some 2%nat
       /\ Asyncio.running (MediaPlayer.loop_tasks self) = 2%nat)
  /\ (forall (env : CameraMediaPlayer.Env) (initial_icon : string)
             (cameras : gmap string record),
        CameraMediaPlayer.client_connected env = true ->
        cameras <> ∅ ->
        exists self,
          interleave camera_entity
            (CameraMediaPlayer.set_cameras cameras (CameraMediaPlayer.init initial_icon), None)
            (overlapped_stop env)
          = Some (self, None)
          /\ CameraMediaPlayer.loop_tasks self
             = [Asyncio.Done; Asyncio.Running; Asyncio.Running]
          /\ CameraMediaPlayer._polling_task self = Some 2%nat
          /\ Asyncio.running (CameraMediaPlayer.loop_tasks self) = 2%nat).
Proof.
  split.
  - intros env Hon.
    destruct (dashboard_init_idle env) as [Htasks Hhandle].
    destruct (dashboard_overlapped_stop env _ Hon Htasks Hhandle) as (self & Hrun & Ht & Hh).
    exists self. rewrite Ht. repeat split; assumption.
  - intros env initial_icon cameras Hon Hcams.
    destruct (camera_overlapped_stop env
                (CameraMediaPlayer.set_cameras cameras (CameraMediaPlayer.init initial_icon))
                Hon Hcams eq_refl eq_refl) as (self & Hrun & Ht & Hh).
    exists self. rewrite Ht. repeat split; assumption.
Qed.

Example overlapped_stop_on_sample_dashboard :
  (interleave dashboard_entity
     (MediaPlayer.init (sample_env default_config true (fun _ => inr ∅)), None)
     (overlapped_stop (sample_env default_config true (fun _ => inr ∅))))
  ≫= (fun st => Some (MediaPlayer.loop_tasks st.1, MediaPlayer._polling_task st.1, st.2))
  = Some ([Asyncio.Done; Asyncio.Running; Asyncio.Running], Some 2%nat, None).
Proof. vm_compute. reflexivity. Qed.


(* ===================================================================== *)
(** * Further properties of the package *)
(* ===================================================================== *)

(** ** helpers.py: formatting *)

Section Formatting.








End Formatting.



(** X2: [format_uptime] shows days, hours and minutes and never the
    seconds: for a duration of [d] days, [h] hours, [m] minutes and [s]
    seconds it joins the parts that are not zero; when all three are zero it
    shows "0 seconds" for no time at all and "< 1m" otherwise. *)
Theorem format_uptime_parts (d h m s : Z) :
  0 <= d -> 0 <= h < 24 -> 0 <= m < 60 -> 0 <= s < 60 ->
  Helpers.format_uptime (d * 86400 + h * 3600 + m * 60 + s)
  = match uptime_parts d h m with
    | [] => if s =? 0 then "0 seconds" else "< 1m"
    | parts => Helpers.join " " parts
    end.
Proof.
  intros Hd Hh Hm Hs. unfold Helpers.format_uptime.
  set (total := d * 86400 + h * 3600 + m * 60 + s).
  assert (Hdays : total / 86400 = d)
    by (symmetry; apply (Z.div_unique total 86400 d (h * 3600 + m * 60 + s)); lia).
  assert (Hrem : total mod 86400 = h * 3600 + m * 60 + s)
    by (symmetry; apply (Z.mod_unique total 86400 d); lia).
  assert (Hhours : (total mod 86400) / 3600 = h)
    by (rewrite Hrem; symmetry; apply (Z.div_unique _ 3600 h (m * 60 + s)); lia).
  assert (Hrem2 : total mod 3600 = m * 60 + s)
    by (symmetry; apply (Z.mod_unique total 3600 (d * 24 + h)); lia).
  assert (Hmin : (total mod 3600) / 60 = m)
    by (rewrite Hrem2; symmetry; apply (Z.div_unique _ 60 m s); lia).
  rewrite Hdays, Hhours, Hmin. fold (uptime_parts d h m).
  destruct (Z.eqb_spec total 0) as [Hz|Hnz].
  - assert (d = 0 /\ h = 0 /\ m = 0 /\ s = 0) as (-> & -> & -> & ->) by lia.
    reflexivity.
  - destruct (uptime_parts d h m) eqn:Hparts; [|reflexivity].
    unfold uptime_parts in Hparts.
    destruct (Z.ltb_spec 0 d), (Z.ltb_spec 0 h), (Z.ltb_spec 0 m); try discriminate.
    destruct (Z.eqb_spec s 0); [lia|reflexivity].
Qed.

Lemma format_uptime_parts_witness :
  0 <= 1 /\ 0 <= 2 < 24 /\ 0 <= 3 < 60 /\ 0 <= 4 < 60
  /\ Helpers.format_uptime (1 * 86400 + 2 * 3600 + 3 * 60 + 4)
     = match uptime_parts 1 2 3 with
       | [] => if 4 =? 0 then "0 seconds" else "< 1m"
       | parts => Helpers.join " " parts
       end.
Proof.
  repeat (split; [lia|]).
  apply (format_uptime_parts 1 2 3 4); lia.
Defined.

(** X3: [parse_ups_runtime] splits a positive runtime into whole hours and
    the minutes left: "{h}h {m}m" from one hour on, "{m}m" below. *)
Theorem parse_ups_runtime_parts (h m : Z) :
  0 <= h -> 0 <= m < 60 -> 0 < h * 60 + m ->
  Helpers.parse_ups_runtime (h * 60 + m)
  = if 0 <? h then str_int h +:+ "h " +:+ str_int m +:+ "m" else str_int m +:+ "m".
Proof.
  intros Hh Hm Hpos. unfold Helpers.parse_ups_runtime.
  assert (Hq : (h * 60 + m) / 60 = h)
    by (symmetry; apply (Z.div_unique _ 60 h m); lia).
  assert (Hr : (h * 60 + m) mod 60 = m)
    by (symmetry; apply (Z.mod_unique _ 60 h m); lia).
  rewrite Hq, Hr.
  destruct (Z.eqb_spec (h * 60 + m) 0); [lia|reflexivity].
Qed.

Lemma parse_ups_runtime_parts_witness :
  0 <= 2 /\ 0 <= 5 < 60 /\ 0 < 2 * 60 + 5
  /\ Helpers.parse_ups_runtime (2 * 60 + 5)
     = if 0 <? 2 then str_int 2 +:+ "h " +:+ str_int 5 +:+ "m" else str_int 5 +:+ "m".
Proof.
  repeat (split; [lia|]).
  apply (parse_ups_runtime_parts 2 5); lia.
Defined.

Lemma py_gt_num_int (z k : Z) : py_gt_num (PInt z) (inject_Z k) = inr (k <? z).
Proof.
  unfold py_gt_num. change (num (PInt z)) with (Some (inject_Z z)). cbv beta iota.
  destruct (Qlt_le_dec (inject_Z k) (inject_Z z)) as [Hlt|Hle].
  - rewrite <- Zlt_Qlt in Hlt. f_equal. symmetry. now apply Z.ltb_lt.
  - rewrite <- Zle_Qle in Hle. f_equal. symmetry. apply Z.ltb_ge. exact Hle.
Qed.

(** X4: on integer readings [determine_system_health_status] answers
    "critical" when the CPU is above 90, the memory above 95 or the
    temperature above 80, else "warning" when one of them is above 70, 85
    and 70, else "healthy"; it never answers "unknown" there.  A reading
    that is not a number, met before a threshold is exceeded, gives
    "unknown". *)
Theorem determine_system_health_status_levels :
  (forall c m t : Z,
     Helpers.determine_system_health_status (health_readings c m t)
     = if (90 <? c) || (95 <? m) || (80 <? t) then "critical"
       else if (70 <? c) || (85 <? m) || (70 <? t) then "warning"
       else "healthy")
  /\ Helpers.determine_system_health_status ∅ = "healthy"
  /\ (forall (v : pyval) (data : record),
        num v = None ->
        Helpers.determine_system_health_status (<["cpu_usage" := v]> data) = "unknown").
Proof.
  split; [|split].
  - intros c m t. unfold Helpers.determine_system_health_status, health_readings, get.
    rewrite lookup_insert_eq.
    rewrite lookup_insert_ne, lookup_insert_eq by discriminate.
    rewrite !lookup_insert_ne, lookup_insert_eq by discriminate.
    simpl default.
    change (90%Q) with (inject_Z 90). change (95%Q) with (inject_Z 95).
    change (80%Q) with (inject_Z 80). change (70%Q) with (inject_Z 70).
    change (85%Q) with (inject_Z 85).
    rewrite !py_gt_num_int. unfold Helpers.py_or.
    destruct (90 <? c), (95 <? m), (80 <? t), (70 <? c), (85 <? m), (70 <? t); reflexivity.
  - reflexivity.
  - intros v data Hnum. unfold Helpers.determine_system_health_status, get.
    rewrite lookup_insert_eq. simpl default. unfold py_gt_num at 1. rewrite Hnum.
    reflexivity.
Qed.

(** X5: the label of [format_drive_temperature] never cools as the
    temperature rises, for either kind of drive, and at the same temperature
    an SSD is never labelled hotter than a hard disk; a temperature of zero
    is shown as "N/A". *)
Theorem drive_temperature_labels :
  (forall (t1 t2 : Z) (is_ssd : bool),
     t1 <= t2 ->
     heat (Helpers.drive_temperature_status t1 is_ssd)
     <= heat (Helpers.drive_temperature_status t2 is_ssd))
  /\ (forall t : Z,
        heat (Helpers.drive_temperature_status t true)
        <= heat (Helpers.drive_temperature_status t false))
  /\ (forall is_ssd : bool, Helpers.format_drive_temperature 0 is_ssd = "N/A")
  /\ (forall (t : Z) (is_ssd : bool),
        t <> 0 ->
        Helpers.format_drive_temperature t is_ssd
        = str_int t +:+ Helpers.degree_literal +:+ "C ("
          +:+ Helpers.drive_temperature_status t is_ssd +:+ ")").
Proof.
  split; [|split; [|split]].
  - intros t1 t2 [] Hle; unfold Helpers.drive_temperature_status;
      repeat match goal with |- context [?a <? ?b] => destruct (Z.ltb_spec a b) end;
      vm_compute; try discriminate; try lia.
  - intros t. unfold Helpers.drive_temperature_status;
      repeat match goal with |- context [?a <? ?b] => destruct (Z.ltb_spec a b) end;
      vm_compute; try discriminate; try lia.
  - intros []; reflexivity.
  - intros t is_ssd Hne. unfold Helpers.format_drive_temperature.
    destruct (Z.eqb_spec t 0); [contradiction|reflexivity].
Qed.


(** ** config.py: what the registry holds *)

(** The registry is the concatenation, in this order, of the two
    baseline sources, the network source if enabled, the security source if
    enabled, the services source, the eleven enhanced sources if enabled,
    the surveillance source and then the container source, each of the last
    two only when its flag is enabled and its package was detected.  The
    second surveillance block of the function changes nothing. *)
Lemma get_enabled_sources_contents (self : Config.SynologyConfig) :
  Config.get_enabled_sources self
  = ([ ("SYSTEM_OVERVIEW", "System Overview"); ("STORAGE_STATUS", "Storage Status") ]
     ++ (if Config.feature (Config.enabled_features self) "network_monitoring"
         then [ ("NETWORK_STATS", "Network Statistics") ] else [])
     ++ (if Config.feature (Config.enabled_features self) "security_monitoring"
         then [ ("SECURITY_STATUS", "Security Status") ] else [])
     ++ [ ("SERVICES_STATUS", "Services Status") ]
     ++ (if Config.feature (Config.enabled_features self) "enhanced_monitoring"
         then Config.enhanced_sources else [])
     ++ (if Config.feature (Config.enabled_features self) "surveillance_monitoring"
            && Config.has_package (Config.available_packages self) "SurveillanceStation"
         then [ ("SURVEILLANCE_STATUS", "Surveillance Station") ] else [])
     ++ (if Config.feature (Config.enabled_features self) "docker_monitoring"
            && Config.has_package (Config.available_packages self) "Docker"
         then [ ("DOCKER_STATUS", "Docker Containers") ] else []))%list.
Proof. split_registry self; reflexivity. Qed.

(** X6: every source of every registry can be dispatched and drawn: its
    key is a key of the fetcher and formatter tables, and its display name
    has an icon of its own, named after the key. *)
Theorem registry_sources_are_dispatchable (self : Config.SynologyConfig) :
  forall key name : string,
    (key, name) ∈ Config.get_enabled_sources self ->
    key ∈ MediaPlayer.fetcher_keys
    /\ MediaPlayer.source_images !! name = Some (lower key +:+ ".png").
Proof.
  intros key name Hin.
  assert (Hall : (key, name) ∈ ([ ("SYSTEM_OVERVIEW", "System Overview");
                                  ("STORAGE_STATUS", "Storage Status");
                                  ("NETWORK_STATS", "Network Statistics");
                                  ("SECURITY_STATUS", "Security Status");
                                  ("SERVICES_STATUS", "Services Status") ]
                                ++ Config.enhanced_sources
                                ++ [ ("SURVEILLANCE_STATUS", "Surveillance Station");
                                     ("DOCKER_STATUS", "Docker Containers") ])%list).
  { rewrite get_enabled_sources_contents in Hin.
    repeat match type of Hin with
           | context [if ?b then _ else _] => destruct b
           end;
    unfold Config.enhanced_sources in *; simpl in Hin |- *;
    repeat (apply elem_of_cons in Hin as [->|Hin];
            [apply (bool_decide_unpack _); vm_compute; exact I|]);
    inversion Hin. }
  clear Hin. unfold Config.enhanced_sources in Hall. simpl in Hall.
  repeat (apply elem_of_cons in Hall as [Heq|Hall];
          [inversion Heq; subst; split;
           [apply (bool_decide_unpack _); vm_compute; exact I | vm_compute; reflexivity]|]).
  inversion Hall.
Qed.


Lemma registry_sources_are_dispatchable_witness :
  ("THERMAL_STATUS", "Temperature Monitor") ∈ Config.get_enabled_sources default_config
  /\ "THERMAL_STATUS" ∈ MediaPlayer.fetcher_keys
  /\ MediaPlayer.source_images !! "Temperature Monitor"
     = Some (lower "THERMAL_STATUS" +:+ ".png").
Proof.
  assert (Hin : ("THERMAL_STATUS", "Temperature Monitor")
                ∈ Config.get_enabled_sources default_config)
    by (apply (bool_decide_unpack _); vm_compute; exact I).
  split; [exact Hin|].
  exact (registry_sources_are_dispatchable default_config _ _ Hin).
Defined.

(** X7: after [update_available_packages] the container source is in the
    registry exactly when Docker is among the detected packages, and the
    surveillance source exactly when Surveillance Station is, whatever the
    two flags were before: detection switches the flag on, and without the
    package the flag alone does not list the source. *)
Theorem update_available_packages_sources (packages : record) (self : Config.SynologyConfig) :
  Config.getitem (Config.get_enabled_sources (Config.update_available_packages packages self))
                 "DOCKER_STATUS"
  = (if Config.has_package packages "Docker" then Some "Docker Containers" else None)
  /\ Config.getitem (Config.get_enabled_sources (Config.update_available_packages packages self))
                    "SURVEILLANCE_STATUS"
     = (if Config.has_package packages "SurveillanceStation"
        then Some "Surveillance Station" else None)
  /\ Config.available_packages (Config.update_available_packages packages self) = packages.
Proof.
  assert (Hd : Config.feature (Config.enabled_features
                 (Config.update_available_packages packages self)) "docker_monitoring"
               && Config.has_package (Config.available_packages
                    (Config.update_available_packages packages self)) "Docker"
               = Config.has_package packages "Docker").
  { unfold Config.feature, Config.enabled_features, Config.available_packages,
      Config.update_available_packages. simpl.
    destruct (Config.has_package packages "Docker"); [|apply andb_false_r].
    destruct (Config.has_package packages "SurveillanceStation");
      [rewrite lookup_insert_ne by discriminate|]; now rewrite lookup_insert_eq. }
  assert (Hs : Config.feature (Config.enabled_features
                 (Config.update_available_packages packages self)) "surveillance_monitoring"
               && Config.has_package (Config.available_packages
                    (Config.update_available_packages packages self)) "SurveillanceStation"
               = Config.has_package packages "SurveillanceStation").
  { unfold Config.feature, Config.enabled_features, Config.available_packages,
      Config.update_available_packages. simpl.
    destruct (Config.has_package packages "SurveillanceStation"); [|apply andb_false_r].
    now rewrite lookup_insert_eq. }
  rewrite get_enabled_sources_contents, Hd, Hs.
  split; [|split; [|reflexivity]].
  - destruct (Config.feature _ "network_monitoring"), (Config.feature _ "security_monitoring"),
      (Config.feature _ "enhanced_monitoring"), (Config.has_package packages "SurveillanceStation"),
      (Config.has_package packages "Docker"); reflexivity.
  - destruct (Config.feature _ "network_monitoring"), (Config.feature _ "security_monitoring"),
      (Config.feature _ "enhanced_monitoring"), (Config.has_package packages "SurveillanceStation"),
      (Config.has_package packages "Docker"); reflexivity.
Qed.



(** ** client.py and media_player.py: the thermal source end to end *)

Section ThermalPipeline.





Lemma title_thermal_level (t : Z) :
  title (thermal_level_of t)
  = if t <? 60 then "Optimal" else if t <? 70 then "Normal"
    else if t <? 80 then "Warm" else if t <? 90 then "Hot" else "Critical".
Proof.
  unfold thermal_level_of.
  destruct (t <? 60), (t <? 70), (t <? 80), (t <? 90); reflexivity.
Qed.

End ThermalPipeline.




Section ThermalUnavailable.

Lemma py_eq_zero_not_positive (v : pyval) :
  py_eq v (PInt 0) = true -> py_gt_num v 0 = inr false.
Proof.
  unfold py_gt_num.
  destruct v as [|b|z|q|s|l|d]; simpl; try discriminate.
  - destruct b; [discriminate|]. intros _. reflexivity.
  - intros H. apply Qeq_bool_iff in H.
    destruct (Qlt_le_dec 0 (inject_Z z)) as [Hlt|_]; [|reflexivity].
    rewrite H in Hlt. now apply Qlt_irrefl in Hlt.
  - intros H. apply Qeq_bool_iff in H.
    destruct (Qlt_le_dec 0 q) as [Hlt|_]; [|reflexivity].
    rewrite H in Hlt. now apply Qlt_irrefl in Hlt.
Qed.

Lemma thermal_level_values (v : pyval) (level : string) :
  Client.thermal_level v = inr level ->
  (level = "unavailable" /\ py_eq v (PInt 0) = true)
  \/ level ∈ ["optimal"; "normal"; "warm"; "hot"; "critical"].
Proof.
  unfold Client.thermal_level.
  destruct (py_eq v (PInt 0)); [intros [= <-]; left; split; reflexivity|].
  repeat match goal with
         | |- context [py_lt_num ?a ?b] => destruct (py_lt_num a b) as [?|[]]
         end; intros [= <-]; right; apply (bool_decide_unpack _); vm_compute; exact I.
Qed.

End ThermalUnavailable.

(** X10: whenever [get_thermal_status] reports the status "unavailable" or
    "error" (a client that is not connected, an API call that fails, a
    reading that is zero or cannot be compared or formatted), the thermal
    source shows "Thermal Monitor" and "Temperature sensor unavailable". *)
Theorem thermal_source_unavailable (env : MediaPlayer.Env) (self : MediaPlayer.Dashboard)
    (connected : bool) (unit : string) (info : exn + pyval) :
  Client.get_thermal_status connected unit info !! "status" = Some (PStr "unavailable")
  \/ Client.get_thermal_status connected unit info !! "status" = Some (PStr "error") ->
  display (MediaPlayer._update_thermal_status_display env
             (Client.get_thermal_status connected unit info) self).2
  = thermal_unavailable.
Proof.
  unfold Client.get_thermal_status.
  destruct connected; simpl negb; cbv iota; [|intros _; reflexivity].
  destruct info as [e|info_raw]; [intros _; reflexivity|].
  cbv zeta.
  generalize (Helpers.safe_get_nested_value info_raw ["data"; "sys_temp"] (PInt 0)).
  intros temp_c.
  destruct (Client.thermal_level _) as [e|level] eqn:Hlevel; [intros _; reflexivity|].
  destruct (Helpers.format_temperature _ _) as [e|formatted]; [intros _; reflexivity|].
  rewrite lookup_insert_eq. intros Hstatus.
  apply thermal_level_values in Hlevel as [[-> Hzero]|Hin].
  - apply py_eq_zero_not_positive in Hzero.
    unfold MediaPlayer._update_thermal_status_display, Py.bind, Py.lift.
    match goal with
    | |- context [truthy (PDict ?m)] =>
        replace (truthy (PDict m)) with true
          by (symmetry; simpl; rewrite bool_decide_false; [reflexivity|apply insert_non_empty])
    end.
    unfold get.
    rewrite (lookup_insert_ne _ "status" "system_temp") by discriminate.
    rewrite lookup_insert_eq. simpl default. rewrite Hzero. reflexivity.
  - exfalso. destruct Hstatus as [[= ->]|[= ->]];
      revert Hin; apply (bool_decide_unpack _); vm_compute; exact I.
Qed.

Lemma thermal_source_unavailable_witness :
  (Client.get_thermal_status false "celsius" (inr (system_info_with 45 "auto")) !! "status"
   = Some (PStr "unavailable")
   \/ Client.get_thermal_status false "celsius" (inr (system_info_with 45 "auto")) !! "status"
      = Some (PStr "error"))
  /\ display (MediaPlayer._update_thermal_status_display
                (sample_env default_config false (fun _ => inr ∅))
                (Client.get_thermal_status false "celsius" (inr (system_info_with 45 "auto")))
                (MediaPlayer.init (sample_env default_config false (fun _ => inr ∅)))).2
     = thermal_unavailable.
Proof.
  assert (H : Client.get_thermal_status false "celsius" (inr (system_info_with 45 "auto"))
              !! "status" = Some (PStr "unavailable")
              \/ Client.get_thermal_status false "celsius" (inr (system_info_with 45 "auto"))
                 !! "status" = Some (PStr "error"))
    by (left; reflexivity).
  split; [exact H|].
  exact (thermal_source_unavailable _ _ false "celsius" _ H).
Defined.


(** ** client.py and media_player.py: the overview source end to end *)

Lemma system_overview_state_eq (env : MediaPlayer.Env) (data : record)
    (self : MediaPlayer.Dashboard) :
  Ucapi.STATE (MediaPlayer.attributes
                 (MediaPlayer._update_system_overview_display env data self).2)
  = if bool_decide (data = ∅) then Ucapi.STATE (MediaPlayer.attributes self)
    else if py_eq (default PNone (data !! "status")) (PStr "healthy")
         then Ucapi.PLAYING else Ucapi.PAUSED.
Proof.
  unfold MediaPlayer._update_system_overview_display.
  change (truthy (PDict data)) with (negb (bool_decide (data = ∅))).
  destruct (bool_decide (data = ∅)); simpl negb; cbv iota; [reflexivity|].
  unfold Py.bind, Py.modify, Py.lift.
  destruct (py_title _) as [e|status]; [reflexivity|].
  destruct (py_format_1f (get data "cpu_usage" _)) as [e|cpu]; [reflexivity|].
  destruct (py_format_1f (get data "memory_usage" _)) as [e|mem]; reflexivity.
Qed.

(** X11: [get_system_overview] returns either the empty record (client not
    connected, or any failure inside) or a record whose status is
    "healthy".  Fed to the overview formatter, its record therefore never
    pauses the entity: an empty record leaves the state as it is and any
    other sets it to "playing". *)
Theorem get_system_overview_is_healthy (connected : bool) (unit : string)
    (info util : exn + pyval) (py_float : pyval -> exn + pyval)
    (parse_uptime_string : pyval -> exn + Z) :
  (Client.get_system_overview connected unit info util py_float parse_uptime_string = ∅
   \/ Client.get_system_overview connected unit info util py_float parse_uptime_string
      !! "status" = Some (PStr "healthy"))
  /\ (connected = false ->
      Client.get_system_overview connected unit info util py_float parse_uptime_string = ∅)
  /\ forall (env : MediaPlayer.Env) (self : MediaPlayer.Dashboard),
       Ucapi.STATE (MediaPlayer.attributes
         (MediaPlayer._update_system_overview_display env
            (Client.get_system_overview connected unit info util py_float parse_uptime_string)
            self).2)
       = if bool_decide
              (Client.get_system_overview connected unit info util py_float parse_uptime_string
               = ∅)
         then Ucapi.STATE (MediaPlayer.attributes self) else Ucapi.PLAYING.
Proof.
  assert (Hshape :
    Client.get_system_overview connected unit info util py_float parse_uptime_string = ∅
    \/ Client.get_system_overview connected unit info util py_float parse_uptime_string
       !! "status" = Some (PStr "healthy")).
  { unfold Client.get_system_overview.
    destruct connected; simpl negb; cbv iota; [|now left].
    destruct info as [e|info_raw]; [now left|].
    destruct util as [e|util_raw]; [now left|]. cbv zeta.
    destruct (py_float _) as [e|cpu]; [now left|].
    destruct (py_float _) as [e|mem]; [now left|].
    destruct (Helpers.format_temperature _ _) as [e|temp]; [now left|].
    destruct (parse_uptime_string _) as [e|uptime]; [now left|].
    right. rewrite !lookup_insert_ne, lookup_insert_eq by discriminate. reflexivity. }
  split; [exact Hshape|]. split.
  - intros ->. reflexivity.
  - intros env self. rewrite system_overview_state_eq.
    destruct (bool_decide _) eqn:Hempty; [reflexivity|].
    destruct Hshape as [Hnil|Hst].
    + apply bool_decide_eq_false in Hempty. contradiction.
    + rewrite Hst. reflexivity.
Qed.


(** ** media_player.py: the command handler *)

(** X12: selecting the source that is already selected changes nothing:
    the handler returns [OK] with no fetch, no push and no change of the
    entity. *)
Theorem select_same_source_is_noop (env : MediaPlayer.Env) (p : record) (source : pyval)
    (self : MediaPlayer.Dashboard) :
  p !! "source" = Some source -> truthy source = true ->
  py_eq source (MediaPlayer._current_source self) = true ->
  MediaPlayer.handle_command env Ucapi.Commands.SELECT_SOURCE (Some p) self
  = (inr Ucapi.OK, self).
Proof.
  intros Hp Htruthy Hsame.
  unfold MediaPlayer.handle_command, MediaPlayer.handle_command_body, try_except.
  change (String.eqb Ucapi.Commands.SELECT_SOURCE Ucapi.Commands.SELECT_SOURCE) with true.
  cbv iota. unfold MediaPlayer.param.
  assert (Hne : truthy (PDict p) = true).
  { simpl. rewrite bool_decide_false; [reflexivity|]. intros ->.
    rewrite lookup_empty in Hp. discriminate. }
  rewrite Hne, Hp. change (default PNone (Some source)) with source. rewrite Htruthy.
  unfold MediaPlayer._handle_source_selection, Py.bind, Py.gets. rewrite Hsame.
  reflexivity.
Qed.

Lemma select_same_source_is_noop_witness :
  ({[ "source" := PStr "System Overview" ]} : record) !! "source"
  = Some (PStr "System Overview")
  /\ truthy (PStr "System Overview") = true
  /\ py_eq (PStr "System Overview")
       (MediaPlayer._current_source
          (MediaPlayer.init (sample_env default_config true (fun _ => inr ∅)))) = true
  /\ MediaPlayer.handle_command (sample_env default_config true (fun _ => inr ∅))
       Ucapi.Commands.SELECT_SOURCE (Some {[ "source" := PStr "System Overview" ]})
       (MediaPlayer.init (sample_env default_config true (fun _ => inr ∅)))
     = (inr Ucapi.OK, MediaPlayer.init (sample_env default_config true (fun _ => inr ∅))).
Proof.
  assert (H1 : ({[ "source" := PStr "System Overview" ]} : record) !! "source"
               = Some (PStr "System Overview")) by reflexivity.
  assert (H2 : truthy (PStr "System Overview") = true) by reflexivity.
  assert (H3 : py_eq (PStr "System Overview")
                 (MediaPlayer._current_source
                    (MediaPlayer.init (sample_env default_config true (fun _ => inr ∅))))
               = true) by (vm_compute; reflexivity).
  split; [exact H1|]. split; [exact H2|]. split; [exact H3|].
  exact (select_same_source_is_noop _ _ _ _ H1 H2 H3).
Defined.

(** X13: a source selection without a usable [source] parameter (no
    parameters, an empty dictionary, no such key, or an empty value) is
    answered with [BAD_REQUEST] and changes nothing. *)
Theorem select_source_without_source (env : MediaPlayer.Env) (params : option record)
    (self : MediaPlayer.Dashboard) :
  truthy (MediaPlayer.param params "source") = false ->
  MediaPlayer.handle_command env Ucapi.Commands.SELECT_SOURCE params self
  = (inr Ucapi.BAD_REQUEST, self).
Proof.
  intros Hfalsy.
  unfold MediaPlayer.handle_command, MediaPlayer.handle_command_body, try_except.
  change (String.eqb Ucapi.Commands.SELECT_SOURCE Ucapi.Commands.SELECT_SOURCE) with true.
  cbv iota. rewrite Hfalsy. reflexivity.
Qed.

Lemma select_source_without_source_witness :
  truthy (MediaPlayer.param None "source") = false
  /\ MediaPlayer.handle_command (sample_env default_config true (fun _ => inr ∅))
       Ucapi.Commands.SELECT_SOURCE None
       (MediaPlayer.init (sample_env default_config true (fun _ => inr ∅)))
     = (inr Ucapi.BAD_REQUEST,
        MediaPlayer.init (sample_env default_config true (fun _ => inr ∅))).
Proof.
  split; [reflexivity|].
  apply (select_source_without_source _ None _). reflexivity.
Defined.

(** X14: a command identifier outside the ones the dashboard handles is
    answered with [NOT_IMPLEMENTED] and changes nothing. *)
Theorem unknown_command_not_implemented (env : MediaPlayer.Env) (cmd_id : string)
    (params : option record) (self : MediaPlayer.Dashboard) :
  cmd_id ∉ dashboard_commands ->
  MediaPlayer.handle_command env cmd_id params self = (inr Ucapi.NOT_IMPLEMENTED, self).
Proof.
  intros Hout.
  unfold MediaPlayer.handle_command, MediaPlayer.handle_command_body, try_except.
  unfold dashboard_commands in Hout.
  rewrite !not_elem_of_app in Hout. destruct Hout as [Hfirst [Hsup Hcustom]].
  rewrite !not_elem_of_cons in Hfirst. destruct Hfirst as [H1 [H2 [H3 [H4 [H5 _]]]]].
  repeat match goal with
         | |- context [String.eqb cmd_id ?c] =>
             destruct (String.eqb_spec cmd_id c); [congruence|]
         end.
  rewrite bool_decide_false by exact Hsup.
  rewrite bool_decide_false by exact Hcustom.
  reflexivity.
Qed.

Lemma unknown_command_not_implemented_witness :
  ("mute" ∉ dashboard_commands)
  /\ MediaPlayer.handle_command (sample_env default_config true (fun _ => inr ∅))
       "mute" None (MediaPlayer.init (sample_env default_config true (fun _ => inr ∅)))
     = (inr Ucapi.NOT_IMPLEMENTED,
        MediaPlayer.init (sample_env default_config true (fun _ => inr ∅))).
Proof.
  assert (Hout : "mute" ∉ dashboard_commands)
    by (apply (bool_decide_unpack _); vm_compute; exact I).
  split; [exact Hout|].
  exact (unknown_command_not_implemented _ "mute" None _ Hout).
Defined.


(** X15: switching the dashboard off, when pushes succeed, ends with no
    polling task running and the state "paused"; it pushes the state alone,
    once, fetches nothing and leaves the selected source and the two lines
    as they were. *)
Theorem power_off_pauses (env : MediaPlayer.Env) (params : option record)
    (self : MediaPlayer.Dashboard) :
  MediaPlayer.update_attributes_error env = None ->
  single_loop (MediaPlayer._polling_task self) (MediaPlayer.loop_tasks self) ->
  let result := MediaPlayer.handle_command env Ucapi.Commands.OFF params self in
  result.1 = inr Ucapi.OK
  /\ Ucapi.STATE (MediaPlayer.attributes result.2) = Ucapi.PAUSED
  /\ Asyncio.running (MediaPlayer.loop_tasks result.2) = 0%nat
  /\ MediaPlayer.pushed result.2 = (MediaPlayer.pushed self ++ [Ucapi.PushState Ucapi.PAUSED])%list
  /\ MediaPlayer.fetched result.2 = MediaPlayer.fetched self
  /\ MediaPlayer._current_source result.2 = MediaPlayer._current_source self
  /\ display result.2 = display self.
Proof.
  intros Hpush Hs. cbv zeta.
  pose proof (dashboard_stop_none self Hs) as Hnone.
  unfold MediaPlayer.handle_command, MediaPlayer.handle_command_body, try_except.
  change (String.eqb Ucapi.Commands.OFF Ucapi.Commands.SELECT_SOURCE) with false.
  change (String.eqb Ucapi.Commands.OFF Ucapi.Commands.ON) with false.
  change (String.eqb Ucapi.Commands.OFF Ucapi.Commands.OFF) with true.
  cbv iota.
  unfold MediaPlayer._handle_power_off, MediaPlayer.update_attributes, Py.bind, Py.modify.
  rewrite Hpush.
  destruct (MediaPlayer.stop self) as [[e|[]] self1] eqn:Hstop.
  { exfalso. rewrite dashboard_stop_unfold in Hstop.
    destruct (MediaPlayer._polling_task self); [destruct (negb _)|]; discriminate. }
  assert (Hframe : MediaPlayer.pushed self1 = MediaPlayer.pushed self
                   /\ MediaPlayer.fetched self1 = MediaPlayer.fetched self
                   /\ MediaPlayer._current_source self1 = MediaPlayer._current_source self
                   /\ display self1 = display self).
  { rewrite dashboard_stop_unfold in Hstop.
    destruct (MediaPlayer._polling_task self); [destruct (negb _)|];
      inversion Hstop; subst; repeat split. }
  destruct Hframe as (Hp & Hf & Hc & Hd).
  simpl. simpl in Hnone.
  repeat split; try assumption.
  - now apply running_none.
  - now rewrite Hp.
Qed.

Lemma power_off_pauses_witness :
  MediaPlayer.update_attributes_error (sample_env default_config true (fun _ => inr ∅)) = None
  /\ single_loop
       (MediaPlayer._polling_task
          (MediaPlayer.start (sample_env default_config true (fun _ => inr ∅))
             (MediaPlayer.init (sample_env default_config true (fun _ => inr ∅)))).2)
       (MediaPlayer.loop_tasks
          (MediaPlayer.start (sample_env default_config true (fun _ => inr ∅))
             (MediaPlayer.init (sample_env default_config true (fun _ => inr ∅)))).2)
  /\ Asyncio.running
       (MediaPlayer.loop_tasks
          (MediaPlayer.handle_command (sample_env default_config true (fun _ => inr ∅))
             Ucapi.Commands.OFF None
             (MediaPlayer.start (sample_env default_config true (fun _ => inr ∅))
                (MediaPlayer.init (sample_env default_config true (fun _ => inr ∅)))).2).2)
     = 0%nat.
Proof.
  assert (Hs : single_loop
       (MediaPlayer._polling_task
          (MediaPlayer.start (sample_env default_config true (fun _ => inr ∅))
             (MediaPlayer.init (sample_env default_config true (fun _ => inr ∅)))).2)
       (MediaPlayer.loop_tasks
          (MediaPlayer.start (sample_env default_config true (fun _ => inr ∅))
             (MediaPlayer.init (sample_env default_config true (fun _ => inr ∅)))).2)).
  { intros t. vm_compute. destruct t as [|[|t]]; intros H; try discriminate. reflexivity. }
  split; [reflexivity|]. split; [exact Hs|].
  exact (proj1 (proj2 (proj2 (power_off_pauses
           (sample_env default_config true (fun _ => inr ∅)) None _ eq_refl Hs)))).
Defined.


(** X16: while the client is not connected the dashboard fetches nothing
    and starts no loop: [_update_current_data] and [start()] change
    nothing, and switching the dashboard on only pushes the attributes as
    they are. *)
Theorem disconnected_dashboard_is_idle (env : MediaPlayer.Env) (params : option record)
    (self : MediaPlayer.Dashboard) :
  MediaPlayer.client_connected env = false ->
  MediaPlayer._update_current_data env self = (inr tt, self)
  /\ MediaPlayer.start env self = (inr tt, self)
  /\ (MediaPlayer.update_attributes_error env = None ->
      MediaPlayer.handle_command env Ucapi.Commands.ON params self
      = (inr Ucapi.OK,
         MediaPlayer.add_push (Ucapi.PushAttributes (MediaPlayer.attributes self)) self)).
Proof.
  intros Hoff.
  assert (Hupd : MediaPlayer._update_current_data env self = (inr tt, self))
    by (unfold MediaPlayer._update_current_data; rewrite Hoff; reflexivity).
  assert (Hstart : MediaPlayer.start env self = (inr tt, self))
    by (unfold MediaPlayer.start; rewrite Hoff, andb_false_r; reflexivity).
  split; [exact Hupd|]. split; [exact Hstart|].
  intros Hpush.
  unfold MediaPlayer.handle_command, MediaPlayer.handle_command_body, try_except.
  change (String.eqb Ucapi.Commands.ON Ucapi.Commands.SELECT_SOURCE) with false.
  change (String.eqb Ucapi.Commands.ON Ucapi.Commands.ON) with true.
  cbv iota.
  unfold MediaPlayer._handle_power_on, Py.bind. rewrite Hstart, Hupd.
  unfold MediaPlayer.push_attributes, MediaPlayer.update_attributes. rewrite Hpush.
  reflexivity.
Qed.

Lemma disconnected_dashboard_is_idle_witness :
  MediaPlayer.client_connected (sample_env default_config false (fun _ => inr ∅)) = false
  /\ MediaPlayer.start (sample_env default_config false (fun _ => inr ∅))
       (MediaPlayer.init (sample_env default_config false (fun _ => inr ∅)))
     = (inr tt, MediaPlayer.init (sample_env default_config false (fun _ => inr ∅))).
Proof.
  split; [reflexivity|].
  exact (proj1 (proj2 (disconnected_dashboard_is_idle
           (sample_env default_config false (fun _ => inr ∅)) None _ eq_refl))).
Defined.

(** X17: the two formatters embedded here keep the display within 80
    characters.  The thermal formatter either sets two lines that fit or
    raises and leaves the dashboard as it was; the overview formatter, on
    a record that is not empty, either sets two lines that fit or raises
    and leaves the two lines as they were. *)
Theorem formatters_fit_display (env : MediaPlayer.Env) (data : record)
    (self : MediaPlayer.Dashboard) :
  match MediaPlayer._update_thermal_status_display env data self with
  | (inr _, self') => fits_display self'
  | (inl _, self') => self' = self
  end
  /\ match MediaPlayer._update_system_overview_display env data self with
     | (inr _, self') => data <> ∅ -> fits_display self'
     | (inl _, self') => display self' = display self
     end.
Proof.
  assert (Hfit : forall line1 line2 s,
             fits_display (MediaPlayer.set_two_lines line1 line2 s).2).
  { intros line1 line2 s. unfold fits_display, display. simpl.
    split; apply truncate_line_spec; lia. }
  split.
  - unfold MediaPlayer._update_thermal_status_display, Py.bind, Py.lift.
    destruct (if truthy (PDict data) then _ else _) as [e|[]]; [reflexivity| |].
    + destruct (py_title _) as [e|status]; [reflexivity|]. apply Hfit.
    + apply Hfit.
  - unfold MediaPlayer._update_system_overview_display.
    change (truthy (PDict data)) with (negb (bool_decide (data = ∅))).
    destruct (bool_decide (data = ∅)) eqn:Hempty; simpl negb; cbv iota.
    + apply bool_decide_eq_true in Hempty. intros Hne. contradiction.
    + unfold Py.bind, Py.modify, Py.lift.
      destruct (py_title _) as [e|status]; [reflexivity|].
      destruct (py_format_1f (get data "cpu_usage" _)) as [e|cpu]; [reflexivity|].
      destruct (py_format_1f (get data "memory_usage" _)) as [e|mem]; [reflexivity|].
      intros _. apply Hfit.
Qed.


(** ** media_player.py: sources without data *)

Lemma fetcher_table_lookup (key : string) :
  (list_to_map ((fun k => (k, k)) <$> MediaPlayer.fetcher_keys) : gmap string string) !! key
  = if bool_decide (key ∈ MediaPlayer.fetcher_keys) then Some key else None.
Proof.
  destruct (bool_decide (key ∈ MediaPlayer.fetcher_keys)) eqn:Hin.
  - apply bool_decide_eq_true in Hin. unfold MediaPlayer.fetcher_keys in Hin.
    repeat (apply elem_of_cons in Hin as [->|Hin]; [vm_compute; reflexivity|]).
    inversion Hin.
  - apply bool_decide_eq_false in Hin. apply not_elem_of_list_to_map_1.
    rewrite <- list_fmap_compose. intros Hc.
    apply list_elem_of_fmap in Hc as [k [Heq Hk]]. simpl in Heq. subst. exact (Hin Hk).
Qed.

Lemma resolve_source_key_other (sources : Config.odict) (s : string) :
  s ∉ Config.values sources ->
  MediaPlayer.resolve_source_key sources (PStr s) = PStr s.
Proof.
  intros Hout. unfold MediaPlayer.resolve_source_key.
  destruct (existsb _ _) eqn:Hex; [|reflexivity].
  exfalso. apply existsb_exists in Hex as [name [Hin Heq]].
  simpl in Heq. apply String.eqb_eq in Heq. subst.
  apply Hout. now apply list_elem_of_In.
Qed.

(** X18: a connected dashboard whose selected source is a string that is
    neither a display name of its registry nor a key of the fetcher table
    fetches nothing and shows that string with "Coming soon". *)
Theorem unknown_source_coming_soon (env : MediaPlayer.Env) (self : MediaPlayer.Dashboard)
    (s : string) :
  MediaPlayer.client_connected env = true ->
  MediaPlayer._current_source self = PStr s ->
  s ∉ Config.values (MediaPlayer._sources self) ->
  s ∉ MediaPlayer.fetcher_keys ->
  MediaPlayer._update_current_data env self
  = (inr tt,
     MediaPlayer.set_attributes
       (fun a => Ucapi.set_MEDIA_ARTIST "Coming soon" (Ucapi.set_MEDIA_TITLE s a)) self).
Proof.
  intros Hon Hcur Hname Hkey.
  unfold MediaPlayer._update_current_data. rewrite Hon. change (negb true) with false. cbv iota.
  unfold Py.bind, Py.gets, Py.lift. cbv beta iota. rewrite Hcur.
  rewrite (resolve_source_key_other _ _ Hname).
  unfold get_any. rewrite fetcher_table_lookup.
  rewrite bool_decide_false by exact Hkey.
  reflexivity.
Qed.

Lemma unknown_source_coming_soon_witness :
  MediaPlayer.client_connected (sample_env default_config true (fun _ => inr ∅)) = true
  /\ MediaPlayer._current_source
       (MediaPlayer.set_current_source (PStr "Backups")
          (MediaPlayer.init (sample_env default_config true (fun _ => inr ∅))))
     = PStr "Backups"
  /\ ("Backups" ∉ Config.values
        (MediaPlayer._sources
           (MediaPlayer.set_current_source (PStr "Backups")
              (MediaPlayer.init (sample_env default_config true (fun _ => inr ∅))))))
  /\ ("Backups" ∉ MediaPlayer.fetcher_keys)
  /\ display (MediaPlayer._update_current_data
                (sample_env default_config true (fun _ => inr ∅))
                (MediaPlayer.set_current_source (PStr "Backups")
                   (MediaPlayer.init (sample_env default_config true (fun _ => inr ∅))))).2
     = ("Backups", "Coming soon").
Proof.
  assert (H3 : "Backups" ∉ Config.values
        (MediaPlayer._sources
           (MediaPlayer.set_current_source (PStr "Backups")
              (MediaPlayer.init (sample_env default_config true (fun _ => inr ∅))))))
    by (apply (bool_decide_unpack _); vm_compute; exact I).
  assert (H4 : "Backups" ∉ MediaPlayer.fetcher_keys)
    by (apply (bool_decide_unpack _); vm_compute; exact I).
  split; [reflexivity|]. split; [reflexivity|]. split; [exact H3|]. split; [exact H4|].
  rewrite (unknown_source_coming_soon
             (sample_env default_config true (fun _ => inr ∅))
             (MediaPlayer.set_current_source (PStr "Backups")
                (MediaPlayer.init (sample_env default_config true (fun _ => inr ∅))))
             "Backups" eq_refl eq_refl H3 H4).
  reflexivity.
Defined.

(** X19: when the fetch of the selected source raises, a connected
    dashboard has issued that one fetch and no push.  An [AttributeError]
    is absorbed: the display becomes the source name with "Feature not
    available".  Any other exception leaves the entity as it was, makes the
    polling loop sleep 30 seconds and makes a refresh command answer
    [SERVER_ERROR]. *)
Theorem fetch_failure_paths (env : MediaPlayer.Env) (self : MediaPlayer.Dashboard)
    (name key : string) (e : exn) :
  MediaPlayer.client_connected env = true ->
  MediaPlayer._current_source self = PStr name ->
  MediaPlayer.resolve_source_key (MediaPlayer._sources self) (PStr name) = PStr key ->
  key ∈ MediaPlayer.fetcher_keys ->
  MediaPlayer.fetch env key = inl e ->
  if is_AttributeError e then
    MediaPlayer._update_current_data env self
    = (inr tt,
       MediaPlayer.set_attributes
         (fun a => Ucapi.set_MEDIA_ARTIST "Feature not available"
                     (Ucapi.set_MEDIA_TITLE name a))
         (MediaPlayer.add_fetch key self))
  else
    MediaPlayer._update_current_data env self = (inl e, MediaPlayer.add_fetch key self)
    /\ MediaPlayer._polling_loop_iteration env self = (inr 30, MediaPlayer.add_fetch key self)
    /\ MediaPlayer.handle_command env Ucapi.Commands.VOLUME_UP None self
       = (inr Ucapi.SERVER_ERROR, MediaPlayer.add_fetch key self).
Proof.
  intros Hon Hcur Hres Hkey Hfetch.
  assert (Hupd : MediaPlayer._update_current_data env self
                 = if is_AttributeError e then
                     (inr tt,
                      MediaPlayer.set_attributes
                        (fun a => Ucapi.set_MEDIA_ARTIST "Feature not available"
                                    (Ucapi.set_MEDIA_TITLE name a))
                        (MediaPlayer.add_fetch key self))
                   else (inl e, MediaPlayer.add_fetch key self)).
  { unfold MediaPlayer._update_current_data. rewrite Hon. change (negb true) with false. cbv iota.
    unfold Py.bind, Py.gets, Py.lift. cbv beta iota. rewrite Hcur, Hres.
    unfold get_any. rewrite fetcher_table_lookup.
    rewrite bool_decide_true by exact Hkey.
    unfold try_except_if, MediaPlayer.fetcher, Py.bind, Py.modify, Py.lift.
    rewrite Hfetch. destruct (is_AttributeError e); [|reflexivity].
    unfold MediaPlayer.set_title_artist, Py.modify. simpl. rewrite Hcur. reflexivity. }
  destruct (is_AttributeError e); [exact Hupd|].
  split; [exact Hupd|]. split.
  - unfold MediaPlayer._polling_loop_iteration, try_except, Py.bind. now rewrite Hupd.
  - unfold MediaPlayer.handle_command, MediaPlayer.handle_command_body, try_except.
    change (String.eqb Ucapi.Commands.VOLUME_UP Ucapi.Commands.SELECT_SOURCE) with false.
    change (String.eqb Ucapi.Commands.VOLUME_UP Ucapi.Commands.ON) with false.
    change (String.eqb Ucapi.Commands.VOLUME_UP Ucapi.Commands.OFF) with false.
    change (String.eqb Ucapi.Commands.VOLUME_UP Ucapi.Commands.VOLUME_UP) with true.
    cbv iota.
    unfold MediaPlayer._handle_navigate_next, MediaPlayer._refresh_display, Py.bind.
    now rewrite Hupd.
Qed.


Lemma fetch_failure_paths_witness :
  MediaPlayer.client_connected (sample_env default_config true (fun _ => inl TypeError)) = true
  /\ MediaPlayer._current_source
       (MediaPlayer.init (sample_env default_config true (fun _ => inl TypeError)))
     = PStr "System Overview"
  /\ MediaPlayer.resolve_source_key
       (MediaPlayer._sources
          (MediaPlayer.init (sample_env default_config true (fun _ => inl TypeError))))
       (PStr "System Overview")
     = PStr "SYSTEM_OVERVIEW"
  /\ "SYSTEM_OVERVIEW" ∈ MediaPlayer.fetcher_keys
  /\ MediaPlayer.fetch (sample_env default_config true (fun _ => inl TypeError))
       "SYSTEM_OVERVIEW" = inl TypeError
  /\ MediaPlayer._polling_loop_iteration
       (sample_env default_config true (fun _ => inl TypeError))
       (MediaPlayer.init (sample_env default_config true (fun _ => inl TypeError)))
     = (inr 30,
        MediaPlayer.add_fetch "SYSTEM_OVERVIEW"
          (MediaPlayer.init (sample_env default_config true (fun _ => inl TypeError)))).
Proof.
  assert (H3 : MediaPlayer.resolve_source_key
       (MediaPlayer._sources
          (MediaPlayer.init (sample_env default_config true (fun _ => inl TypeError))))
       (PStr "System Overview")
     = PStr "SYSTEM_OVERVIEW") by (vm_compute; reflexivity).
  assert (H4 : "SYSTEM_OVERVIEW" ∈ MediaPlayer.fetcher_keys)
    by (apply (bool_decide_unpack _); vm_compute; exact I).
  split; [reflexivity|]. split; [reflexivity|]. split; [exact H3|]. split; [exact H4|].
  split; [reflexivity|].
  exact (proj1 (proj2 (fetch_failure_paths
           (sample_env default_config true (fun _ => inl TypeError))
           (MediaPlayer.init (sample_env default_config true (fun _ => inl TypeError)))
           "System Overview" "SYSTEM_OVERVIEW" TypeError eq_refl eq_refl H3 H4 eq_refl))).
Defined.


(** ** remote.py *)

Lemma py_eq_PStr_r (v : pyval) (s : string) : py_eq v (PStr s) = true <-> v = PStr s.
Proof.
  split; [|intros ->; simpl; apply String.eqb_refl].
  destruct v as [|b|z|q|t|l|d]; simpl; try discriminate.
  intros H. apply String.eqb_eq in H. now subst.
Qed.

(** X20: on a connected client, a [send_cmd] that carries one of the four
    advertised commands makes exactly the one device call that belongs to
    it and touches nothing else; the answer is [OK] when the call succeeds
    and [SERVER_ERROR] when it raises. *)
Theorem remote_allowlisted_command (env : Remote.Env) (self : Remote.SystemRemote)
    (command : string) (call : Remote.device_call) :
  Remote.client env = Some true ->
  device_call_of command = Some call ->
  Remote.handle_command env Ucapi.RemoteCommands.SEND_CMD
    (send_cmd_params (PStr command)) self
  = (inr (match Remote.device_error env call with
          | None => Ucapi.OK
          | Some _ => Ucapi.SERVER_ERROR
          end),
     {| Remote.STATE := Remote.STATE self;
        Remote.pushed := Remote.pushed self;
        Remote.called := (Remote.called self ++ [call])%list |}).
Proof.
  intros Hclient Hcall.
  assert (Hne : truthy (PDict {[ "command" := PStr command ]}) = true).
  { simpl. rewrite bool_decide_false; [reflexivity|]. apply insert_non_empty. }
  unfold Remote.handle_command, Remote.handle_command_body, try_except.
  change (String.eqb Ucapi.RemoteCommands.SEND_CMD Ucapi.RemoteCommands.ON) with false.
  change (String.eqb Ucapi.RemoteCommands.SEND_CMD Ucapi.RemoteCommands.OFF) with false.
  change (String.eqb Ucapi.RemoteCommands.SEND_CMD Ucapi.RemoteCommands.SEND_CMD) with true.
  cbv iota. unfold send_cmd_params.
  rewrite Hne, lookup_singleton_eq.
  change (default PNone (Some (PStr command))) with (PStr command).
  unfold Remote._handle_system_command, Py.bind. rewrite Hclient.
  destruct env as [client device_error push_error]. simpl in Hclient |- *. clear Hne.
  unfold device_call_of in Hcall.
  destruct (String.eqb_spec command "BEEP_ON") as [->|_];
    [|destruct (String.eqb_spec command "BEEP_OFF") as [->|_];
      [|destruct (String.eqb_spec command "SYSTEM_RESTART") as [->|_];
        [|destruct (String.eqb_spec command "SYSTEM_SHUTDOWN") as [->|_];
          [|discriminate]]]];
    injection Hcall as <-;
    unfold try_except, Remote.device, Py.bind, Py.modify, Py.ret, Py.raise;
    cbn [Remote.device_error];
    match goal with |- context [device_error ?c] => destruct (device_error c) end;
    vm_compute; reflexivity.
Qed.

Lemma remote_allowlisted_command_witness :
  Remote.client (sample_remote_env (Some true)) = Some true
  /\ device_call_of "SYSTEM_RESTART" = Some Remote.reboot
  /\ Remote.handle_command (sample_remote_env (Some true)) Ucapi.RemoteCommands.SEND_CMD
       (send_cmd_params (PStr "SYSTEM_RESTART")) fresh_remote
     = (inr Ucapi.OK,
        {| Remote.STATE := Remote.OFF; Remote.pushed := [];
           Remote.called := [Remote.reboot] |}).
Proof.
  split; [reflexivity|]. split; [reflexivity|].
  exact (remote_allowlisted_command (sample_remote_env (Some true)) fresh_remote
           "SYSTEM_RESTART" Remote.reboot eq_refl eq_refl).
Defined.

(** X21: a [send_cmd] is refused with [SERVER_ERROR], with no device call
    and no change of the entity, whenever the remote is a placeholder
    without a client, its client is not connected, or the command is not one
    of the advertised [simple_commands]. *)
Theorem remote_refuses_command (env : Remote.Env) (self : Remote.SystemRemote)
    (command : pyval) :
  truthy command = true ->
  Remote.client env <> Some true
  \/ (forall s, command = PStr s -> s ∉ Remote.simple_commands) ->
  Remote.handle_command env Ucapi.RemoteCommands.SEND_CMD (send_cmd_params command) self
  = (inr Ucapi.SERVER_ERROR, self).
Proof.
  intros Htruthy Hwhy.
  unfold Remote.handle_command, Remote.handle_command_body, try_except.
  change (String.eqb Ucapi.RemoteCommands.SEND_CMD Ucapi.RemoteCommands.ON) with false.
  change (String.eqb Ucapi.RemoteCommands.SEND_CMD Ucapi.RemoteCommands.OFF) with false.
  change (String.eqb Ucapi.RemoteCommands.SEND_CMD Ucapi.RemoteCommands.SEND_CMD) with true.
  cbv iota. unfold send_cmd_params.
  assert (Hne : truthy (PDict {[ "command" := command ]}) = true).
  { unfold truthy. rewrite bool_decide_false; [reflexivity|]. apply insert_non_empty. }
  rewrite Hne, lookup_singleton_eq. change (default PNone (Some command)) with command.
  rewrite Htruthy.
  unfold Remote._handle_system_command, Py.bind.
  destruct (Remote.client env) as [[]|] eqn:Hclient; [|reflexivity|reflexivity].
  destruct Hwhy as [Hno|Hunknown]; [congruence|].
  unfold try_except.
  destruct (py_eq command (PStr "BEEP_ON")) eqn:H1.
  { apply py_eq_PStr_r in H1. exfalso. apply (Hunknown _ H1).
    apply (bool_decide_unpack _). vm_compute. exact I. }
  destruct (py_eq command (PStr "BEEP_OFF")) eqn:H2.
  { apply py_eq_PStr_r in H2. exfalso. apply (Hunknown _ H2).
    apply (bool_decide_unpack _). vm_compute. exact I. }
  destruct (py_eq command (PStr "SYSTEM_RESTART")) eqn:H3.
  { apply py_eq_PStr_r in H3. exfalso. apply (Hunknown _ H3).
    apply (bool_decide_unpack _). vm_compute. exact I. }
  destruct (py_eq command (PStr "SYSTEM_SHUTDOWN")) eqn:H4.
  { apply py_eq_PStr_r in H4. exfalso. apply (Hunknown _ H4).
    apply (bool_decide_unpack _). vm_compute. exact I. }
  reflexivity.
Qed.

Lemma remote_refuses_command_witness :
  truthy (PStr "SYSTEM_RESTART") = true
  /\ (Remote.client (sample_remote_env None) <> Some true
      \/ (forall s, PStr "SYSTEM_RESTART" = PStr s -> s ∉ Remote.simple_commands))
  /\ Remote.handle_command (sample_remote_env None) Ucapi.RemoteCommands.SEND_CMD
       (send_cmd_params (PStr "SYSTEM_RESTART")) fresh_remote
     = (inr Ucapi.SERVER_ERROR, fresh_remote).
Proof.
  assert (Hwhy : Remote.client (sample_remote_env None) <> Some true
                 \/ (forall s, PStr "SYSTEM_RESTART" = PStr s -> s ∉ Remote.simple_commands))
    by (left; discriminate).
  split; [reflexivity|]. split; [exact Hwhy|].
  exact (remote_refuses_command (sample_remote_env None) fresh_remote
           (PStr "SYSTEM_RESTART") eq_refl Hwhy).
Defined.

(** X22: [push_initial_state] of the remote never raises; when pushes
    succeed it leaves the state "on" for a connected client and "off"
    otherwise, pushes that state only if it differs from the state before,
    and a second call right after the first changes nothing. *)
Theorem remote_push_initial_state (env : Remote.Env) (self : Remote.SystemRemote) :
  (Remote.push_initial_state env self).1 = inr tt
  /\ (Remote.update_attributes_error env = None ->
      let target := match Remote.client env with
                    | Some true => Remote.ON
                    | _ => Remote.OFF
                    end in
      (Remote.push_initial_state env self).2
      = {| Remote.STATE := target;
           Remote.pushed := if bool_decide (Remote.STATE self = target)
                            then Remote.pushed self
                            else (Remote.pushed self ++ [target])%list;
           Remote.called := Remote.called self |}
      /\ Remote.push_initial_state env (Remote.push_initial_state env self).2
         = (inr tt, (Remote.push_initial_state env self).2)).
Proof.
  split.
  - unfold Remote.push_initial_state, try_except.
    destruct (Py.bind _ _ self) as [[e|[]] s]; reflexivity.
  - intros Hpush. cbv zeta.
    assert (Hstep : forall s : Remote.SystemRemote,
              Remote.push_initial_state env s
              = (inr tt,
                 {| Remote.STATE := match Remote.client env with
                                    | Some true => Remote.ON | _ => Remote.OFF end;
                    Remote.pushed :=
                      if bool_decide (Remote.STATE s = match Remote.client env with
                                                       | Some true => Remote.ON
                                                       | _ => Remote.OFF end)
                      then Remote.pushed s
                      else (Remote.pushed s ++ [match Remote.client env with
                                                 | Some true => Remote.ON
                                                 | _ => Remote.OFF end])%list;
                    Remote.called := Remote.called s |})).
    { intros s. unfold Remote.push_initial_state, try_except, Py.bind, Py.gets.
      unfold Remote.set_state, Py.bind, Py.modify. rewrite Hpush.
      destruct (bool_decide _) eqn:Hsame; simpl; [|reflexivity].
      apply bool_decide_eq_true in Hsame. destruct s as [st pu ca]. simpl in *.
      now subst. }
    rewrite !Hstep. split; [reflexivity|]. simpl.
    rewrite bool_decide_true by reflexivity. reflexivity.
Qed.


(** ** driver.py *)

(** X23: one turn of the health loop on a connected client that offers
    [reconnect_after_reboot].  A probe that returns data puts the counter
    back to zero; any other probe adds one.  A reconnection is attempted in
    the turn exactly when the counter then stands at 3 or more: its success
    puts the counter back to zero, its failure leaves it, and an exception
    from it adds one more and lengthens the sleep from 30 to 60 seconds. *)
Theorem health_turn_with_method (c : Driver.client) (probe : exn + record)
    (reconnect : exn + bool) (st : Driver.Monitoring) :
  Driver.connected c = true ->
  Driver.hasattr c "reconnect_after_reboot" = true ->
  let t := {| Driver._client := Some c;
              Driver.get_system_overview := probe;
              Driver.reconnect_after_reboot := reconnect |} in
  let failures :=
    match probe with
    | inr data => if bool_decide (data = ∅) then Driver.consecutive_failures st + 1 else 0
    | inl _ => Driver.consecutive_failures st + 1
    end in
  Driver.loop_turn t st
  = (inr tt,
     if failures <? 3 then
       {| Driver.consecutive_failures := failures;
          Driver.reconnections := Driver.reconnections st;
          Driver.slept := (Driver.slept st ++ [30])%list |}
     else
       {| Driver.consecutive_failures :=
            match reconnect with
            | inr true => 0
            | inr false => failures
            | inl _ => failures + 1
            end;
          Driver.reconnections := S (Driver.reconnections st);
          Driver.slept := (Driver.slept st
                           ++ [match reconnect with inl _ => 60 | inr _ => 30 end])%list |}).
Proof.
  intros Hconn Hhas. cbv zeta.
  set (t := {| Driver._client := Some c;
               Driver.get_system_overview := probe;
               Driver.reconnect_after_reboot := reconnect |}).
  assert (Hu : Driver.usable (Driver._client t) = true) by exact Hconn.
  assert (Hc : Driver.can_reconnect (Driver._client t) = true) by exact Hhas.
  unfold Driver.loop_turn, Driver.turn_body, try_except, Py.bind.
  rewrite Hu, Hc.
  change (Driver.get_system_overview t) with probe.
  unfold Driver.reconnect, Py.bind, Py.lift.
  change (Driver.reconnect_after_reboot t) with reconnect.
  clearbody t. clear Hu Hc.
  unfold Driver.max_failures.
  destruct st as [k r sl].
  destruct probe as [e|data].
  - unfold Driver.add_failure, Driver.sleep, Driver.set_failures,
      Py.modify, Py.gets, Py.ret. cbn [Driver.consecutive_failures].
    rewrite andb_true_r, Z.geb_leb.
    destruct (Z.ltb_spec (k + 1) 3), (Z.leb_spec 3 (k + 1)); try lia; [reflexivity|].
    destruct reconnect as [e'|[]]; reflexivity.
  - change (truthy (PDict data)) with (negb (bool_decide (data = ∅))).
    destruct (bool_decide (data = ∅)); cbn [negb].
    + unfold Driver.add_failure, Driver.sleep, Driver.set_failures,
        Py.modify, Py.gets, Py.ret. cbn [Driver.consecutive_failures].
      rewrite andb_true_r, Z.geb_leb.
      destruct (Z.ltb_spec (k + 1) 3), (Z.leb_spec 3 (k + 1)); try lia; [reflexivity|].
      destruct reconnect as [e'|[]]; reflexivity.
    + reflexivity.
Qed.

Lemma health_turn_with_method_witness :
  Driver.connected (reconnecting_client true) = true
  /\ Driver.hasattr (reconnecting_client true) "reconnect_after_reboot" = true
  /\ Driver.loop_turn (failing_turn (reconnecting_client true))
       {| Driver.consecutive_failures := 2; Driver.reconnections := 0; Driver.slept := [] |}
     = (inr tt,
        {| Driver.consecutive_failures := 0; Driver.reconnections := 1;
           Driver.slept := [30] |}).
Proof.
  split; [reflexivity|]. split; [reflexivity|].
  exact (health_turn_with_method (reconnecting_client true) (inr ∅) (inr true)
           {| Driver.consecutive_failures := 2; Driver.reconnections := 0;
              Driver.slept := [] |} eq_refl eq_refl).
Defined.


Lemma hopeless_turn_step (st : Driver.Monitoring) :
  (Driver.loop_turn (hopeless_turn (reconnecting_client true)) st).2
  = {| Driver.consecutive_failures := Driver.consecutive_failures st + 1;
       Driver.reconnections :=
         if Driver.consecutive_failures st + 1 <? 3
         then Driver.reconnections st else S (Driver.reconnections st);
       Driver.slept := (Driver.slept st ++ [30])%list |}.
Proof.
  destruct st as [k r sl].
  unfold Driver.loop_turn, Driver.turn_body, try_except, Py.bind, hopeless_turn.
  cbn [Driver._client Driver.usable Driver.can_reconnect reconnecting_client
       Driver.connected Driver.hasattr Driver.get_system_overview].
  change (truthy (PDict ∅)) with false. cbv iota.
  unfold Driver.add_failure, Driver.sleep, Driver.set_failures, Driver.reconnect,
    Py.modify, Py.gets, Py.ret, Py.bind, Py.lift, Driver.max_failures.
  cbn [Driver.consecutive_failures Driver.reconnect_after_reboot].
  rewrite andb_true_r, Z.geb_leb.
  destruct (Z.ltb_spec (k + 1) 3), (Z.leb_spec 3 (k + 1)); try lia; reflexivity.
Qed.

Lemma hopeless_run (n : nat) (st : Driver.Monitoring) :
  0 <= Driver.consecutive_failures st ->
  let st' := Driver.run_from st (repeat (hopeless_turn (reconnecting_client true)) n) in
  Driver.consecutive_failures st' = Driver.consecutive_failures st + Z.of_nat n
  /\ Z.of_nat (Driver.reconnections st')
     = Z.of_nat (Driver.reconnections st)
       + Z.max 0 (Driver.consecutive_failures st + Z.of_nat n - 2)
       - Z.max 0 (Driver.consecutive_failures st - 2)
  /\ Driver.slept st' = (Driver.slept st ++ repeat 30 n)%list.
Proof.
  revert st. induction n as [|n IH]; intros st Hk; cbv zeta.
  - simpl. rewrite app_nil_r. repeat split; lia.
  - unfold Driver.run_from. simpl repeat. simpl fold_left.
    fold (Driver.run_from
            (Driver.loop_turn (hopeless_turn (reconnecting_client true)) st).2
            (repeat (hopeless_turn (reconnecting_client true)) n)).
    rewrite hopeless_turn_step.
    match goal with |- context [Driver.run_from ?s _] => specialize (IH s) end.
    cbv zeta in IH. cbn [Driver.consecutive_failures Driver.reconnections Driver.slept] in IH.
    destruct IH as (Hc & Hr & Hs); [lia|].
    rewrite Hc, Hr, Hs. rewrite <- app_assoc. simpl app.
    repeat split; try lia.
    destruct (Z.ltb_spec (Driver.consecutive_failures st + 1) 3); lia.
Qed.

(** X24: with a client that offers [reconnect_after_reboot], while every
    probe fails and every reconnection reports failure, the loop attempts a
    reconnection in every turn from the third on and always sleeps 30
    seconds: after [n] turns the counter is [n], the attempts number
    [n - 2] (none in the first two turns), and no sleep is longer than the
    others. *)
Theorem health_loop_retries_every_turn (n : nat) :
  Driver._background_monitoring_loop (repeat (hopeless_turn (reconnecting_client true)) n)
  = {| Driver.consecutive_failures := Z.of_nat n;
       Driver.reconnections := n - 2;
       Driver.slept := repeat 30 n |}.
Proof.
  unfold Driver._background_monitoring_loop.
  pose proof (hopeless_run n Driver.start_state) as H. cbv zeta in H.
  destruct H as (Hc & Hr & Hs); [simpl; lia|].
  destruct (Driver.run_from _ _) as [k r sl]. simpl in *. subst.
  f_equal; lia.
Qed.

(** X25: [on_connect] with a client of the package's class never raises
    and never leaves the device in the connecting state: it reports
    "connecting", then "connected" when the client is connected or its
    [connect()] succeeds, else "error"; without a client it reports
    "connected" only when a complete configuration is at hand and the new
    client connects. *)
Theorem on_connect_outcome (client_connected : option bool) (connect_outcome : bool)
    (is_configured : bool) (new_client_outcome : exn + bool) :
  Driver.on_connect
    (package_connect_env client_connected connect_outcome is_configured new_client_outcome) []
  = (inr tt,
     [ Driver.CONNECTING;
       match client_connected with
       | Some connected =>
           if connected || connect_outcome then Driver.CONNECTED else Driver.ERROR
       | None =>
           match is_configured, new_client_outcome with
           | true, inr true => Driver.CONNECTED
           | _, _ => Driver.ERROR
           end
       end ]).
Proof.
  destruct client_connected as [[]|]; [reflexivity| |].
  - destruct connect_outcome; reflexivity.
  - destruct is_configured; [|reflexivity].
    destruct new_client_outcome as [e|[]]; reflexivity.
Qed.


(** X26: switching the camera monitor on while no loop runs and either the
    client is not connected or no camera was discovered starts no polling
    task, yet the entity is left in, and pushes, the state "playing". *)
Theorem camera_on_without_cameras (env : CameraMediaPlayer.Env) (params : option record)
    (self : CameraMediaPlayer.CameraMonitor) :
  CameraMediaPlayer.update_attributes_error env = None ->
  CameraMediaPlayer.client_connected env = false \/ CameraMediaPlayer._cameras self = ∅ ->
  let result := CameraMediaPlayer.handle_command env Ucapi.Commands.ON params self in
  result.1 = inr Ucapi.OK
  /\ CameraMediaPlayer.loop_tasks result.2 = CameraMediaPlayer.loop_tasks self
  /\ CameraMediaPlayer._polling_task result.2 = CameraMediaPlayer._polling_task self
  /\ Ucapi.STATE (CameraMediaPlayer.attributes result.2) = Ucapi.PLAYING
  /\ CameraMediaPlayer.pushed result.2
     = (CameraMediaPlayer.pushed self
        ++ [Ucapi.PushAttributes
              (Ucapi.set_STATE Ucapi.PLAYING (CameraMediaPlayer.attributes self))])%list.
Proof.
  intros Hpush Hidle. cbv zeta.
  unfold CameraMediaPlayer.handle_command, CameraMediaPlayer.handle_command_body, try_except.
  change (String.eqb Ucapi.Commands.ON Ucapi.Commands.SELECT_SOURCE) with false.
  change (String.eqb Ucapi.Commands.ON Ucapi.Commands.ON) with true.
  cbv iota.
  unfold CameraMediaPlayer._handle_camera_on, CameraMediaPlayer.push_attributes,
    CameraMediaPlayer.update_attributes, Py.bind, Py.modify.
  rewrite Hpush.
  assert (Hstart : forall s,
             CameraMediaPlayer._cameras s = CameraMediaPlayer._cameras self ->
             CameraMediaPlayer.start env s = (inr tt, s)).
  { intros s Hc. unfold CameraMediaPlayer.start. rewrite Hc.
    destruct Hidle as [-> | ->].
    - rewrite andb_false_l, andb_false_r. reflexivity.
    - rewrite bool_decide_eq_true_2 by reflexivity.
      change (negb true) with false. rewrite !andb_false_r. reflexivity. }
  rewrite Hstart by reflexivity.
  repeat split.
Qed.

Lemma camera_on_without_cameras_witness :
  CameraMediaPlayer.update_attributes_error (sample_camera_env true) = None
  /\ (CameraMediaPlayer.client_connected (sample_camera_env true) = false
      \/ CameraMediaPlayer._cameras (CameraMediaPlayer.init "") = ∅)
  /\ Ucapi.STATE
       (CameraMediaPlayer.attributes
          (CameraMediaPlayer.handle_command (sample_camera_env true) Ucapi.Commands.ON None
             (CameraMediaPlayer.init "")).2)
     = Ucapi.PLAYING.
Proof.
  split; [reflexivity|]. split; [right; reflexivity|].
  exact (proj1 (proj2 (proj2 (proj2
           (camera_on_without_cameras (sample_camera_env true) None
              (CameraMediaPlayer.init "") eq_refl (or_intror eq_refl)))))).
Defined.

(** X27: every command the camera monitor does not act on is answered
    without touching the monitor: the thirteen suppressed commands with OK,
    a source selection without a source with BAD_REQUEST, the selection of
    the camera already shown with OK, and an identifier outside the handled
    ones with NOT_IMPLEMENTED. *)
Theorem camera_ignored_commands (env : CameraMediaPlayer.Env)
    (self : CameraMediaPlayer.CameraMonitor) :
  (forall cmd_id params,
     cmd_id ∈ CameraMediaPlayer.SUPPRESSED_COMMANDS ->
     CameraMediaPlayer.handle_command env cmd_id params self = (inr Ucapi.OK, self))
  /\ CameraMediaPlayer.handle_command env Ucapi.Commands.SELECT_SOURCE None self
     = (inr Ucapi.BAD_REQUEST, self)
  /\ (forall name : string,
        name <> "" ->
        CameraMediaPlayer._current_camera self = PStr name ->
        CameraMediaPlayer.handle_command env Ucapi.Commands.SELECT_SOURCE
          (Some {[ "source" := PStr name ]}) self
        = (inr Ucapi.OK, self))
  /\ (forall cmd_id params,
        cmd_id ∉ ([ Ucapi.Commands.SELECT_SOURCE; Ucapi.Commands.ON; Ucapi.Commands.OFF;
                    Ucapi.Commands.VOLUME_UP; Ucapi.Commands.VOLUME_DOWN ]
                  ++ CameraMediaPlayer.SUPPRESSED_COMMANDS)%list ->
        CameraMediaPlayer.handle_command env cmd_id params self
        = (inr Ucapi.NOT_IMPLEMENTED, self)).
Proof.
  split; [|split; [reflexivity|split]].
  - intros cmd_id params Hin.
    unfold CameraMediaPlayer.SUPPRESSED_COMMANDS in Hin.
    repeat (apply elem_of_cons in Hin as [->|Hin]; [reflexivity|]).
    inversion Hin.
  - intros name Hname Hcur.
    unfold CameraMediaPlayer.handle_command, CameraMediaPlayer.handle_command_body, try_except.
    change (String.eqb Ucapi.Commands.SELECT_SOURCE Ucapi.Commands.SELECT_SOURCE) with true.
    cbv iota.
    change (truthy (PDict {[ "source" := PStr name ]}))
      with (negb (bool_decide (({[ "source" := PStr name ]} : record) = ∅))).
    rewrite bool_decide_eq_false_2 by apply insert_non_empty.
    change (negb false) with true. cbv iota.
    rewrite lookup_singleton_eq.
    change (default PNone (Some (PStr name))) with (PStr name).
    assert (Htruthy : truthy (PStr name) = true)
      by (destruct name; [contradiction|reflexivity]).
    rewrite Htruthy.
    unfold CameraMediaPlayer._handle_camera_selection, Py.bind, Py.gets.
    rewrite Hcur.
    assert (Heq : py_eq (PStr name) (PStr name) = true)
      by (rewrite py_eq_str; apply String.eqb_refl).
    rewrite Heq. reflexivity.
  - intros cmd_id params Hout.
    assert (Hne : forall c, c ∈ ([ Ucapi.Commands.SELECT_SOURCE; Ucapi.Commands.ON;
                                   Ucapi.Commands.OFF; Ucapi.Commands.VOLUME_UP;
                                   Ucapi.Commands.VOLUME_DOWN ]
                                 ++ CameraMediaPlayer.SUPPRESSED_COMMANDS)%list ->
                            String.eqb cmd_id c = false).
    { intros c Hc. apply String.eqb_neq. intros ->. contradiction. }
    unfold CameraMediaPlayer.handle_command, CameraMediaPlayer.handle_command_body, try_except.
    rewrite !Hne by (apply (bool_decide_unpack _); vm_compute; exact I).
    rewrite bool_decide_eq_false_2; [reflexivity|].
    intros Hin. apply Hout. apply elem_of_app. right. exact Hin.
Qed.

Section Startup.

Variable env : MediaPlayer.Env.

Lemma get_icon_base64_outside (icon_filename : string) (self : MediaPlayer.Dashboard) :
  exists icon self',
    MediaPlayer._get_icon_base64 env icon_filename self = (inr icon, self')
    /\ outside_display self' = outside_display self
    /\ MediaPlayer.fetched self' = MediaPlayer.fetched self
    /\ MediaPlayer.attributes self' = MediaPlayer.attributes self.
Proof.
  unfold MediaPlayer._get_icon_base64.
  destruct (MediaPlayer._icon_cache self !! icon_filename);
    [do 2 eexists; repeat split|].
  destruct (if MediaPlayer.icon_exists env icon_filename then _ else _) as [path|];
    [|do 2 eexists; repeat split].
  destruct (MediaPlayer.icon_read env path); do 2 eexists; repeat split.
Qed.

Lemma get_source_image_outside (s : string) (self : MediaPlayer.Dashboard) :
  exists icon self',
    MediaPlayer._get_source_image env (PStr s) self = (inr icon, self')
    /\ outside_display self' = outside_display self
    /\ MediaPlayer.fetched self' = MediaPlayer.fetched self
    /\ MediaPlayer.attributes self' = MediaPlayer.attributes self.
Proof.
  unfold MediaPlayer._get_source_image, Py.bind, Py.lift, get_any.
  apply get_icon_base64_outside.
Qed.

Lemma update_system_overview_display_outside (data : record) (self : MediaPlayer.Dashboard) :
  outside_display (MediaPlayer._update_system_overview_display env data self).2
  = outside_display self
  /\ MediaPlayer.fetched (MediaPlayer._update_system_overview_display env data self).2
     = MediaPlayer.fetched self.
Proof.
  unfold MediaPlayer._update_system_overview_display.
  destruct (truthy (PDict data)); [|split; reflexivity].
  unfold Py.bind, Py.modify, Py.lift.
  destruct (py_title _) as [e|status]; [split; reflexivity|].
  destruct (py_format_1f (get data "cpu_usage" _)) as [e|cpu]; [split; reflexivity|].
  destruct (py_format_1f (get data "memory_usage" _)) as [e|mem]; split; reflexivity.
Qed.

Lemma overview_entry (config : Config.SynologyConfig) :
  ("SYSTEM_OVERVIEW", "System Overview") ∈ MediaPlayer._get_enabled_sources config.
Proof.
  rewrite dashboard_sources_uncut. split_registry config;
    apply elem_of_cons; left; reflexivity.
Qed.

Lemma update_current_data_overview (self : MediaPlayer.Dashboard) :
  MediaPlayer.client_connected env = true ->
  MediaPlayer._current_source self = PStr "System Overview" ->
  MediaPlayer._sources self = MediaPlayer._get_enabled_sources (MediaPlayer.config env) ->
  outside_display (MediaPlayer._update_current_data env self).2 = outside_display self
  /\ MediaPlayer.fetched (MediaPlayer._update_current_data env self).2
     = (MediaPlayer.fetched self ++ ["SYSTEM_OVERVIEW"])%list.
Proof.
  intros Hon Hcur Hsrc.
  unfold MediaPlayer._update_current_data. rewrite Hon. change (negb true) with false.
  cbv iota. unfold Py.bind, Py.gets, Py.lift. cbv beta iota. rewrite Hcur, Hsrc.
  rewrite (resolve_source_key_of_entry _ "SYSTEM_OVERVIEW" "System Overview");
    [|rewrite dashboard_sources_uncut; apply get_enabled_sources_values_NoDup
     |apply overview_entry].
  unfold get_any. rewrite fetcher_table_lookup.
  rewrite bool_decide_true by (apply elem_of_cons; left; reflexivity).
  unfold try_except_if, MediaPlayer.fetcher, Py.bind, Py.modify, Py.lift.
  destruct (MediaPlayer.fetch env "SYSTEM_OVERVIEW") as [e|data].
  - destruct (is_AttributeError e); split; reflexivity.
  - change (MediaPlayer.updater env "SYSTEM_OVERVIEW")
      with (MediaPlayer._update_system_overview_display env).
    pose proof (update_system_overview_display_outside data
                  (MediaPlayer.add_fetch "SYSTEM_OVERVIEW" self)) as [Ho Hf].
    destruct (MediaPlayer._update_system_overview_display env data _) as [[e|[]] s];
      simpl in Ho, Hf.
    + destruct (is_AttributeError e); simpl; split; assumption.
    + simpl; split; assumption.
Qed.


Lemma update_source_display_outside (self : MediaPlayer.Dashboard) :
  MediaPlayer._current_source self = PStr "System Overview" ->
  MediaPlayer._sources self = MediaPlayer._get_enabled_sources (MediaPlayer.config env) ->
  outside_display (MediaPlayer._update_source_display env self).2 = outside_display self
  /\ MediaPlayer.fetched (MediaPlayer._update_source_display env self).2
     = (MediaPlayer.fetched self
        ++ if MediaPlayer.client_connected env then ["SYSTEM_OVERVIEW"] else [])%list.
Proof.
  intros Hcur Hsrc.
  unfold MediaPlayer._update_source_display, Py.bind, Py.gets. rewrite Hcur.
  destruct (get_source_image_outside "System Overview" self)
    as (icon & s1 & -> & Ho1 & Hf1 & _).
  cbv beta iota.
  assert (Hdata : forall s2,
             outside_display s2 = outside_display self ->
             MediaPlayer.fetched s2 = MediaPlayer.fetched self ->
             outside_display (MediaPlayer._update_current_data env s2).2
             = outside_display self
             /\ MediaPlayer.fetched (MediaPlayer._update_current_data env s2).2
                = (MediaPlayer.fetched self
                   ++ if MediaPlayer.client_connected env
                      then ["SYSTEM_OVERVIEW"] else [])%list).
  { intros s2 Ho2 Hf2.
    destruct (MediaPlayer.client_connected env) eqn:Hon.
    - destruct (update_current_data_overview s2 Hon) as [Ho3 Hf3].
      + injection Ho2 as Hc _ _ _ _. now rewrite Hc.
      + injection Ho2 as _ Hs _ _ _. now rewrite Hs.
      + rewrite Ho3, Hf3, Ho2, Hf2. split; reflexivity.
    - unfold MediaPlayer._update_current_data. rewrite Hon. simpl.
      rewrite app_nil_r. split; assumption. }
  destruct (negb _); unfold Py.modify, Py.ret; apply Hdata; assumption.
Qed.

Lemma init_fresh :
  outside_display (MediaPlayer.init env)
  = (PStr "System Overview", MediaPlayer._get_enabled_sources (MediaPlayer.config env),
     None, [], [])
  /\ MediaPlayer.fetched (MediaPlayer.init env) = [].
Proof.
  unfold MediaPlayer.init.
  match goal with
  | |- context [MediaPlayer._get_source_image env _ ?self0] =>
      destruct (get_source_image_outside "System Overview" self0)
        as (icon & s1 & Heq & Ho & Hf & _)
  end.
  cbn [MediaPlayer._current_source] in *. rewrite Heq.
  split; [exact Ho|exact Hf].
Qed.

End Startup.

(** X29: bringing a dashboard up, [__init__] followed by
    [push_initial_state], never raises.  It fetches the system overview
    once when the client is connected and nothing otherwise, pushes at most
    once, and leaves a polling loop running exactly when the client is
    connected and the push was made: when the formatter or the push raises,
    no loop is started. *)
Theorem dashboard_startup (env : MediaPlayer.Env) :
  (startup env).1 = inr tt
  /\ MediaPlayer.fetched (startup env).2
     = (if MediaPlayer.client_connected env then ["SYSTEM_OVERVIEW"] else [])
  /\ (length (MediaPlayer.pushed (startup env).2) <= 1)%nat
  /\ (MediaPlayer.update_attributes_error env <> None ->
      MediaPlayer.pushed (startup env).2 = [])
  /\ (Asyncio.running (MediaPlayer.loop_tasks (startup env).2) <= 1)%nat
  /\ (loop_running (MediaPlayer._polling_task (startup env).2)
                   (MediaPlayer.loop_tasks (startup env).2)
      <-> MediaPlayer.client_connected env = true
          /\ MediaPlayer.pushed (startup env).2 <> []).
Proof.
  unfold startup, MediaPlayer.push_initial_state, try_except, Py.bind.
  destruct (init_fresh env) as [Ho0 Hf0].
  destruct (update_source_display_outside env (MediaPlayer.init env)) as [Ho Hf].
  { injection Ho0 as Hc _ _ _ _. exact Hc. }
  { injection Ho0 as _ Hs _ _ _. exact Hs. }
  rewrite Ho0 in Ho. rewrite Hf0 in Hf. simpl in Hf. clear Ho0 Hf0.
  assert (Hidle : forall tasks : list Asyncio.task_state,
             ~ loop_running None tasks)
    by (intros tasks [t [Hsome _]]; discriminate).
  destruct (MediaPlayer._update_source_display env (MediaPlayer.init env))
    as [[e|[]] [cur src handle cache attrs tasks pushes fetches]];
    unfold outside_display in Ho; simpl in Ho, Hf;
    injection Ho as _ _ -> -> ->; subst fetches.
  - simpl.
    split; [reflexivity|]. split; [reflexivity|]. split; [lia|].
    split; [reflexivity|]. split; [vm_compute; lia|].
    split; [intros Hrun; exfalso; exact (Hidle _ Hrun)|intros [_ Hne]; contradiction].
  - unfold MediaPlayer.push_attributes, MediaPlayer.update_attributes.
    destruct (MediaPlayer.update_attributes_error env) as [e|] eqn:Hpush.
    + simpl.
      split; [reflexivity|]. split; [reflexivity|]. split; [lia|].
      split; [reflexivity|]. split; [vm_compute; lia|].
      split; [intros Hrun; exfalso; exact (Hidle _ Hrun)|intros [_ Hne]; contradiction].
    + unfold MediaPlayer.start. simpl.
      destruct (MediaPlayer.client_connected env) eqn:Hon; simpl.
      * split; [reflexivity|]. split; [reflexivity|]. split; [lia|].
        split; [intros Hne; contradiction|]. split; [vm_compute; lia|].
        split; [intros _; split; [reflexivity|discriminate]|].
        intros _. exists 0%nat. split; reflexivity.
      * split; [reflexivity|]. split; [reflexivity|]. split; [lia|].
        split; [intros Hne; contradiction|]. split; [vm_compute; lia|].
        split; [intros Hrun; exfalso; exact (Hidle _ Hrun)|intros [Hc _]; discriminate].
Qed.


Section FormatBytes.

Lemma round_half_even_Qeq (q q' : Q) : q == q' -> round_half_even q = round_half_even q'.
Proof.
  destruct q as [n d], q' as [n' d']. unfold Qeq, round_half_even. simpl. intros Heq.
  assert (Hd : 0 < Z.pos d) by lia. assert (Hd' : 0 < Z.pos d') by lia.
  assert (Hf : n / Z.pos d = n' / Z.pos d').
  { rewrite <- (Z.div_mul_cancel_r n (Z.pos d) (Z.pos d')) by lia.
    rewrite <- (Z.div_mul_cancel_r n' (Z.pos d') (Z.pos d)) by lia.
    rewrite Heq. f_equal. lia. }
  assert (Hm : (n mod Z.pos d) * Z.pos d' = (n' mod Z.pos d') * Z.pos d).
  { rewrite !Z.mod_eq by lia. rewrite <- Hf. nia. }
  assert (Hc : (2 * (n mod Z.pos d) ?= Z.pos d) = (2 * (n' mod Z.pos d') ?= Z.pos d')).
  { destruct (Z.compare_spec (2 * (n mod Z.pos d)) (Z.pos d)),
      (Z.compare_spec (2 * (n' mod Z.pos d')) (Z.pos d')); try reflexivity; nia. }
  rewrite Hc, Hf. reflexivity.
Qed.

Lemma format_1f_Qeq (q q' : Q) : q == q' -> format_1f q = format_1f q'.
Proof.
  intros Heq. unfold format_1f.
  rewrite (round_half_even_Qeq (q * 10) (q' * 10)) by (now rewrite Heq).
  assert (Hs : (Qnum q <? 0) = (Qnum q' <? 0)).
  { destruct q as [n d], q' as [n' d']. unfold Qeq in Heq. simpl in *.
    destruct (Z.ltb_spec n 0), (Z.ltb_spec n' 0); try reflexivity; nia. }
  now rewrite Hs.
Qed.

End FormatBytes.

(** X30: [format_bytes] shows a size of at most 2^53 bytes in the largest
    unit it reaches, up to TB: for 1024^k <= n < 1024^(k+1) the text is
    n / 1024^k with one decimal, followed by the k-th unit; from 1024^4 on
    the unit stays TB.  The number is rounded after the unit was chosen,
    so it can read 1024.0. *)
Theorem format_bytes_unit (n : Z) (k : nat) :
  (k <= 4)%nat ->
  1024 ^ Z.of_nat k <= n <= 2 ^ 53 ->
  n < 1024 ^ (Z.of_nat k + 1) \/ k = 4%nat ->
  Helpers.format_bytes n
  = format_1f (inject_Z n / inject_Z (1024 ^ Z.of_nat k)) +:+ " "
    +:+ nth k ["B"; "KB"; "MB"; "GB"; "TB"] "".
Proof.
  intros Hk Hn Hup.
  assert (Hle : forall q : Q, Qle_bool 1024 q = true <-> 1024 * Z.pos (Qden q) <= Qnum q).
  { intros q. rewrite Qle_bool_iff. unfold Qle. simpl. lia. }
  assert (Hnz : (n =? 0) = false).
  { apply Z.eqb_neq. assert (0 < 1024 ^ Z.of_nat k) by (apply Z.pow_pos_nonneg; lia). lia. }
  unfold Helpers.format_bytes. rewrite Hnz.
  destruct k as [|[|[|[|[|k]]]]]; [| | | | |lia];
    change (Z.of_nat 0) with 0 in *; change (Z.of_nat 1) with 1 in *;
    change (Z.of_nat 2) with 2 in *; change (Z.of_nat 3) with 3 in *;
    change (Z.of_nat 4) with 4 in *;
    simpl Z.add in Hup; cbn [nth];
    repeat match goal with
           | H : context [1024 ^ ?c] |- _ =>
               let v := eval vm_compute in (1024 ^ c) in change (1024 ^ c) with v in H
           end;
    unfold Helpers.scale_bytes;
    repeat match goal with
           | |- context [Qle_bool 1024 ?q] =>
               let Hq := fresh "Hq" in
               destruct (Qle_bool 1024 q) eqn:Hq;
               [apply Hle in Hq; simpl in Hq|
                apply not_true_iff_false in Hq; rewrite Hle in Hq; simpl in Hq];
               try (exfalso; destruct Hup; lia)
           end;
    cbv zeta; cbn [fst snd];
    match goal with
    | |- format_1f ?a +:+ _ = format_1f ?b +:+ _ =>
        rewrite (format_1f_Qeq a b) by (unfold Qeq; simpl; lia); reflexivity
    end.
Qed.

Lemma format_bytes_unit_witness :
  (1 <= 4)%nat /\ 1024 ^ Z.of_nat 1 <= 1048575 <= 2 ^ 53
  /\ (1048575 < 1024 ^ (Z.of_nat 1 + 1) \/ 1%nat = 4%nat)
  /\ Helpers.format_bytes 1048575 = "1024.0 KB".
Proof.
  assert (H1 : (1 <= 4)%nat) by lia.
  assert (H2 : 1024 ^ Z.of_nat 1 <= 1048575 <= 2 ^ 53) by (simpl; lia).
  assert (H3 : 1048575 < 1024 ^ (Z.of_nat 1 + 1) \/ 1%nat = 4%nat) by (left; simpl; lia).
  split; [exact H1|]. split; [exact H2|]. split; [exact H3|].
  rewrite (format_bytes_unit 1048575 1 H1 H2 H3). vm_compute. reflexivity.
Defined.
